(** * cv-explorer-demo: the query-to-ranked-candidates pipeline

    A shallow embedding of [src/lib/ai/vectors.ts] (the content chunker),
    of the resume actions ([semanticSearchResumes], [extractResumeContent],
    [addResume]) and of [src/app/api/chat/route.ts] (the match scorer and
    the [searchResumes] tool), followed by the properties of the
    specification that concern them.

    Conventions.
    - A JavaScript string is the list of its UTF-16 code units ([list N]).
    - Indices, lengths and sizes are integers ([Z]); a JavaScript [number]
      that does not have to be an integer (a similarity score, a match
      percentage) is a binary64 float ([float]), with the operations of
      the source evaluated in binary64.
    - External collaborators (the language model, the embedding store,
      the clock, the id generator, [JSON.stringify], ...) are [Variable]s
      of the section that uses them. *)

From Stdlib Require Import ZArith NArith Floats Ascii String.
From stdpp Require Import base list gmap strings.

Local Open Scope Z_scope.

(* ===================================================================== *)
(** * The JavaScript runtime operations the sources use *)
(* ===================================================================== *)

Module Js.

(** A string, as its UTF-16 code units. *)
Abbreviation jstring := (list N).

(** The code units of an ASCII literal. *)
Fixpoint js (s : string) : jstring :=
  match s with
  | EmptyString => []
  | String a s' => N_of_ascii a :: js s'
  end.

Definition len (s : jstring) : Z := Z.of_nat (length s).

(** A string is falsy exactly when it is empty. *)
Definition truthy (s : jstring) : bool :=
  match s with [] => false | _ :: _ => true end.

(** ECMAScript [WhiteSpace] and [LineTerminator] code points: what
    [String.prototype.trim] strips and what the regex class [\s] matches. *)
Definition isWhiteSpace (c : N) : bool :=
  ((9 <=? c) && (c <=? 13) || (c =? 32) || (c =? 160) || (c =? 5760)
   || (8192 <=? c) && (c <=? 8202) || (c =? 8232) || (c =? 8233)
   || (c =? 8239) || (c =? 8287) || (c =? 12288) || (c =? 65279))%N.

Fixpoint trimStart (s : jstring) : jstring :=
  match s with
  | [] => []
  | c :: s' => if isWhiteSpace c then trimStart s' else s
  end.

Definition trimEnd (s : jstring) : jstring := reverse (trimStart (reverse s)).

Definition trim (s : jstring) : jstring := trimEnd (trimStart s).

(** [s.substring(a, b)]: both ends are clamped to [0, length] and swapped
    when out of order. *)
Definition substring (s : jstring) (a b : Z) : jstring :=
  let a' := Z.min (Z.max a 0) (len s) in
  let b' := Z.min (Z.max b 0) (len s) in
  let from := Z.min a' b' in
  let to := Z.max a' b' in
  take (Z.to_nat (to - from)) (drop (Z.to_nat from) s).

(** [s.slice(a, b)]: a negative end counts from the end of the string; the
    result is empty when the ends are out of order. *)
Definition slice (s : jstring) (a b : Z) : jstring :=
  let from := if a <? 0 then Z.max (len s + a) 0 else Z.min a (len s) in
  let to := if b <? 0 then Z.max (len s + b) 0 else Z.min b (len s) in
  take (Z.to_nat (to - from)) (drop (Z.to_nat from) s).

(** Scan [l] from index [i] on, remembering the last index that holds [ch]. *)
Fixpoint lastIndexFrom (ch : N) (l : jstring) (i acc : Z) : Z :=
  match l with
  | [] => acc
  | c :: l' => lastIndexFrom ch l' (i + 1) (if (c =? ch)%N then i else acc)
  end.

(** [s.lastIndexOf(ch, position)] for a one-character search string: the
    largest index [k <= min(max(position, 0), length - 1)] with [s[k] = ch],
    or [-1]. *)
Definition lastIndexOf (s : jstring) (ch : N) (position : Z) : Z :=
  let start := Z.min (Z.max position 0) (len s - 1) in
  lastIndexFrom ch (take (Z.to_nat (start + 1)) s) 0 (-1).

(** [parts.join(sep)]. *)
Fixpoint join (sep : jstring) (parts : list jstring) : jstring :=
  match parts with
  | [] => []
  | [p] => p
  | p :: rest => p ++ sep ++ join sep rest
  end.

(** An integer as a binary64 number (correctly rounded; exact below 2^53). *)
Definition Z2float (z : Z) : float := SF2Prim (binary_normalize 53 1024 z 0 false).

(** [Math.max(a, b)] and [Math.min(a, b)] on numbers: NaN is contagious and
    [+0] is larger than [-0]. *)
Definition isNegZero (x : float) : bool :=
  match PrimFloat.classify x with NZero => true | _ => false end.

Definition Math_max (a b : float) : float :=
  if PrimFloat.is_nan a then a
  else if PrimFloat.is_nan b then b
  else if PrimFloat.ltb a b then b
  else if PrimFloat.ltb b a then a
  else if isNegZero a then b else a.

Definition Math_min (a b : float) : float :=
  if PrimFloat.is_nan a then a
  else if PrimFloat.is_nan b then b
  else if PrimFloat.ltb a b then a
  else if PrimFloat.ltb b a then b
  else if isNegZero a then a else b.

(** [Math.round(x)]: the integer closest to [x], ties towards +infinity;
    NaN, the infinities and the zeros are returned as they are, and a
    negative [x >= -0.5] gives [-0].  The rounding is computed exactly on
    the mantissa and exponent of [x]. *)
Definition Math_round (x : float) : float :=
  match Prim2SF x with
  | S754_finite s m e =>
      if 0 <=? e then x
      else
        let d := Z.pow 2 (- e) in
        let v := if s then Z.neg m else Z.pos m in
        let n := (2 * v + d) / (2 * d) in
        if (n =? 0) && s then PrimFloat.opp PrimFloat.zero else Z2float n
  | _ => x
  end.

(** JavaScript truthiness of a number. *)
Definition truthyNum (x : float) : bool :=
  negb (PrimFloat.is_nan x) && negb (PrimFloat.eqb x PrimFloat.zero).

(** Decimal digits of a non-negative integer, as [String(n)] prints them. *)
Fixpoint digitsFuel (fuel : nat) (n : Z) (acc : jstring) : jstring :=
  match fuel with
  | O => acc
  | S f =>
      let acc' := Z.to_N (48 + n mod 10) :: acc in
      if n <? 10 then acc' else digitsFuel f (n / 10) acc'
  end.

Definition natToString (n : nat) : jstring :=
  digitsFuel (S n) (Z.of_nat n) [].

End Js.

Import Js.

(* ===================================================================== *)
(** * Content chunker ([src/lib/ai/vectors.ts]) *)
(* ===================================================================== *)

Module Chunker.

Definition DOT : N := 46.
Definition QUESTION : N := 63.
Definition EXCLAMATION : N := 33.
Definition SPACE : N := 32.

(** [x > start + maxChunkSize * ratio], evaluated in binary64 as the source
    does; the ratios [0.7] and [0.5] are written as the binary64 values
    the source's literals denote. *)
Definition beyond (x start maxChunkSize : Z) (ratio : float) : bool :=
  PrimFloat.ltb (PrimFloat.add (Z2float start) (PrimFloat.mul (Z2float maxChunkSize) ratio))
                (Z2float x).

(** The [end] of the chunk that starts at [start]: the hard boundary
    [start + maxChunkSize], moved back to a sentence end or to a space when
    one is close enough. *)
Definition chunkEnd (text : jstring) (maxChunkSize start : Z) : Z :=
  let end_ := start + maxChunkSize in
  if end_ <? len text then
    let sentenceEnd := lastIndexOf text DOT end_ in
    let questionEnd := lastIndexOf text QUESTION end_ in
    let exclamationEnd := lastIndexOf text EXCLAMATION end_ in
    let bestEnd := Z.max (Z.max sentenceEnd questionEnd) exclamationEnd in
    if beyond bestEnd start maxChunkSize 0x1.6666666666666p-1%float then bestEnd + 1
    else
      let spaceIndex := lastIndexOf text SPACE end_ in
      if beyond spaceIndex start maxChunkSize 0x1p-1%float then spaceIndex
      else end_
  else end_.

(** One iteration of the [while] loop: the state is [(start, chunks)]. *)
Definition chunkStep (text : jstring) (maxChunkSize overlap : Z)
    (st : Z * list jstring) : Z * list jstring :=
  let '(start, chunks) := st in
  let end_ := chunkEnd text maxChunkSize start in
  let chunk := trim (slice text start end_) in
  let chunks' := if truthy chunk then chunks ++ [chunk] else chunks in
  (Z.max (start + 1) (end_ - overlap), chunks').

(** [while (start < text.length) { ... }], with a bound on the number of
    iterations; [None] when the bound is reached before the loop exits. *)
Fixpoint chunkLoop (fuel : nat) (text : jstring) (maxChunkSize overlap : Z)
    (st : Z * list jstring) : option (list jstring) :=
  if st.1 <? len text then
    match fuel with
    | O => None
    | S fuel' =>
        chunkLoop fuel' text maxChunkSize overlap
          (chunkStep text maxChunkSize overlap st)
    end
  else Some st.2.

Definition chunkTextFuel (fuel : nat) (text : jstring)
    (maxChunkSize overlap : Z) : option (list jstring) :=
  if negb (truthy text) || (len text <=? maxChunkSize) then Some [text]
  else chunkLoop fuel text maxChunkSize overlap (0, []).

(** [chunkText(text, maxChunkSize, overlap)].  Every iteration moves [start]
    forward, so one iteration per character of [text] is enough and the
    [None] branch below is never taken (lemma [chunkText_total]). *)
Definition chunkText (text : jstring) (maxChunkSize overlap : Z)
    : list jstring :=
  match chunkTextFuel (length text) text maxChunkSize overlap with
  | Some chunks => chunks
  | None => []
  end.

Definition DEFAULT_MAX_CHUNK_SIZE : Z := 2000.
Definition DEFAULT_OVERLAP : Z := 200.

End Chunker.


(* ===================================================================== *)
(** * Regular expressions (the fragment the sources use) *)
(* ===================================================================== *)

Module Regex.

(** Patterns over code units; a character class is its membership test. *)
Inductive regex : Type :=
  | Void
  | Eps
  | Chr (p : N -> bool)
  | Seq (r1 r2 : regex)
  | Alt (r1 r2 : regex)
  | Star (r : regex).

Fixpoint nullable (r : regex) : bool :=
  match r with
  | Void => false
  | Eps => true
  | Chr _ => false
  | Seq a b => nullable a && nullable b
  | Alt a b => nullable a || nullable b
  | Star _ => true
  end.

Fixpoint isVoid (r : regex) : bool :=
  match r with
  | Void => true
  | Seq a b => isVoid a || isVoid b
  | Alt a b => isVoid a && isVoid b
  | _ => false
  end.

Definition mkSeq (a b : regex) : regex :=
  if isVoid a || isVoid b then Void
  else match a with Eps => b | _ => Seq a b end.

Definition mkAlt (a b : regex) : regex :=
  if isVoid a then b else if isVoid b then a else Alt a b.

(** The residual of [r] after reading the code unit [c]. *)
Fixpoint deriv (c : N) (r : regex) : regex :=
  match r with
  | Void | Eps => Void
  | Chr p => if p c then Eps else Void
  | Seq a b =>
      mkAlt (mkSeq (deriv c a) b) (if nullable a then deriv c b else Void)
  | Alt a b => mkAlt (deriv c a) (deriv c b)
  | Star a => mkSeq (deriv c a) (Star a)
  end.

(** Does some prefix of [s] match [r]? *)
Fixpoint matchesPrefix (r : regex) (s : jstring) : bool :=
  nullable r ||
  match s with
  | [] => false
  | c :: s' =>
      let d := deriv c r in
      if isVoid d then false else matchesPrefix d s'
  end.

Fixpoint searchFrom (r : regex) (s : jstring) (i : Z) : Z :=
  if matchesPrefix r s then i
  else match s with
       | [] => -1
       | _ :: s' => searchFrom r s' (i + 1)
       end.

(** [s.search(r)]: the index of the leftmost match, or [-1]. *)
Definition search (r : regex) (s : jstring) : Z := searchFrom r s 0.

(** ** Pattern builders *)

Definition plus (r : regex) : regex := Seq r (Star r).
Definition opt (r : regex) : regex := Alt r Eps.

Fixpoint alts (rs : list regex) : regex :=
  match rs with
  | [] => Void
  | [r] => r
  | r :: rs' => Alt r (alts rs')
  end.

Definition isUpper (c : N) : bool := ((65 <=? c) && (c <=? 90))%N.
Definition isLower (c : N) : bool := ((97 <=? c) && (c <=? 122))%N.
Definition isDigit (c : N) : bool := ((48 <=? c) && (c <=? 57))%N.

(** One literal character. *)
Definition chr (c : N) : regex := Chr (N.eqb c).

(** One literal character under the [i] flag: an ASCII letter matches in
    both cases (and no code unit above 127 is folded onto it). *)
Definition chrI (c : N) : regex :=
  if isLower c then Chr (fun x => (x =? c) || (x =? c - 32))%N
  else if isUpper c then Chr (fun x => (x =? c) || (x =? c + 32))%N
  else chr c.

Fixpoint lit (s : string) : regex :=
  match s with
  | EmptyString => Eps
  | String a s' => Seq (chr (N_of_ascii a)) (lit s')
  end.

Fixpoint litI (s : string) : regex :=
  match s with
  | EmptyString => Eps
  | String a s' => Seq (chrI (N_of_ascii a)) (litI s')
  end.

(** One of the characters of [s], under the [i] flag. *)
Fixpoint oneOfI (s : string) : regex :=
  match s with
  | EmptyString => Void
  | String a s' => Alt (chrI (N_of_ascii a)) (oneOfI s')
  end.

Definition ws : regex := Chr isWhiteSpace.
Definition digit : regex := Chr isDigit.

End Regex.

Import Regex.

(* ===================================================================== *)
(** * Bounding a resume for parsing ([extractResumeContent] and helpers) *)
(* ===================================================================== *)

Module Extraction.

Definition maxTokens : Z := 40000.
Definition avgCharsPerToken : Z := 4.
Definition maxChars : Z := maxTokens * avgCharsPerToken.

Definition NEWLINES : jstring := [10%N; 10%N].

(** [.replace(/\s+/g, ' ')]: every maximal run of whitespace becomes one
    space ([inRun] tells that the previous character was whitespace). *)
Fixpoint collapseWhitespace (s : jstring) (inRun : bool) : jstring :=
  match s with
  | [] => []
  | c :: s' =>
      if isWhiteSpace c then
        if inRun then collapseWhitespace s' true
        else 32%N :: collapseWhitespace s' true
      else c :: collapseWhitespace s' false
  end.

(** The class [[\x20-\x7E\n\r\t]]. *)
Definition isPrintable (c : N) : bool :=
  ((32 <=? c) && (c <=? 126) || (c =? 10) || (c =? 13) || (c =? 9))%N.

(** What the regex [.] does not match. *)
Definition isLineTerminator (c : N) : bool :=
  ((c =? 10) || (c =? 13) || (c =? 8232) || (c =? 8233))%N.

(** Number of leading copies of [c] in [s]. *)
Fixpoint runLength (c : N) (s : jstring) : nat :=
  match s with
  | [] => O
  | c' :: s' => if (c' =? c)%N then S (runLength c s') else O
  end.

(** [.replace(/(.)\1{10,}/g, '$1$1$1')]: a character followed by ten or
    more copies of itself is replaced, with all its copies, by three
    ([skip] counts the copies of the current match still to be dropped). *)
Fixpoint collapseRepeats (s : jstring) (skip : nat) : jstring :=
  match s with
  | [] => []
  | c :: s' =>
      match skip with
      | S k => collapseRepeats s' k
      | O =>
          if isLineTerminator c then c :: collapseRepeats s' O
          else
            let n := runLength c s' in
            if (10 <=? n)%nat then c :: c :: c :: collapseRepeats s' n
            else c :: collapseRepeats s' O
      end
  end.

Definition cleanPdfArtifacts (content : jstring) : jstring :=
  trim (collapseRepeats (filter (fun c => isPrintable c = true)
                                (collapseWhitespace content false)) O).

(** [extractSection(content, start, maxLength)]. *)
Definition extractSection (content : jstring) (start maxLength : Z) : jstring :=
  trim (substring content start (Z.min (start + maxLength) (len content))).

(** The shape shared by the three section finders: the first pattern of
    the list that occurs decides where the section starts. *)
Fixpoint sectionByPatterns (patterns : list regex) (content : jstring)
    (maxLength : Z) : option jstring :=
  match patterns with
  | [] => None
  | p :: ps =>
      let m := search p content in
      if negb (m =? -1) then Some (extractSection content m maxLength)
      else sectionByPatterns ps content maxLength
  end.

Definition workPrefix : regex := opt (Seq (litI "work") (plus ws)).

Definition experiencePatterns : list regex :=
  [ alts [ Seq workPrefix (litI "experience"); litI "employment";
           Seq (litI "professional") (Seq (plus ws) (litI "experience"));
           litI "career" ];
    alts [ Seq workPrefix (litI "history");
           Seq (litI "employment") (Seq (plus ws) (litI "history")) ];
    Seq (litI "position") (Seq (opt (chrI 115)) (Seq (plus ws) (litI "held"))) ].

Definition century : regex := Alt (lit "19") (lit "20").
Definition year : regex := Seq century (Seq digit digit).

(** The class [[\s\-–—]]: whitespace, hyphen, en dash, em dash. *)
Definition isDateSeparator (c : N) : bool :=
  (isWhiteSpace c || (c =? 45) || (c =? 8211) || (c =? 8212))%N.

Definition datePattern : regex :=
  Seq year (Seq (plus (Chr isDateSeparator))
                (alts [litI "present"; litI "current"; year])).

Definition extractExperienceSection (content : jstring) : jstring :=
  match sectionByPatterns experiencePatterns content 4000 with
  | Some section => section
  | None =>
      let firstMatch := search datePattern content in
      if negb (firstMatch =? -1) then
        let startPos := Z.max 0 (firstMatch - 200) in
        extractSection content startPos 4000
      else []
  end.

Definition dotOpt : regex := opt (chr 46).

Definition educationPatterns : list regex :=
  [ alts [ litI "education"; litI "academic"; litI "degree";
           litI "university"; litI "college"; litI "school" ];
    alts [ litI "bachelor"; litI "master"; litI "phd"; litI "doctorate";
           litI "certificate"; litI "diploma" ];
    alts [ Seq (chrI 98) (Seq dotOpt (Seq (oneOfI "sa") dotOpt));
           Seq (chrI 109) (Seq dotOpt (Seq (oneOfI "sa") dotOpt));
           Seq (litI "ph") (Seq dotOpt (Seq (chrI 100) dotOpt)) ] ].

Definition extractEducationSection (content : jstring) : jstring :=
  match sectionByPatterns educationPatterns content 3000 with
  | Some section => section
  | None => []
  end.

Definition skillsPatterns : list regex :=
  [ alts [ litI "skills"; litI "competencies"; litI "technologies";
           Seq (litI "technical") (Seq (plus ws) (litI "skills")) ];
    alts [ litI "programming"; litI "software"; litI "tools";
           litI "languages" ];
    alts [ litI "proficient";
           Seq (litI "experience") (Seq (plus ws) (litI "with"));
           Seq (litI "familiar") (Seq (plus ws) (litI "with")) ] ].

Definition extractSkillsSection (content : jstring) : jstring :=
  match sectionByPatterns skillsPatterns content 3000 with
  | Some section => section
  | None => []
  end.

(** [if (section) { sections.push(header); sections.push(body); }] *)
Definition pushSection (section : jstring) (header : string) (body : jstring)
    : list jstring :=
  if truthy section then [js header; body] else [].

Definition personalInfoPart (cleanedContent : jstring) : list jstring :=
  let personalInfoSection := extractSection cleanedContent 0 1000 in
  pushSection personalInfoSection "=== PERSONAL INFORMATION ===" personalInfoSection.

Definition experiencePart (cleanedContent : jstring) : list jstring :=
  let experienceSection := extractExperienceSection cleanedContent in
  pushSection experienceSection "=== WORK EXPERIENCE ==="
              (substring experienceSection 0 5000).

Definition educationPart (cleanedContent : jstring) : list jstring :=
  let educationSection := extractEducationSection cleanedContent in
  pushSection educationSection "=== EDUCATION ==="
              (substring educationSection 0 1500).

Definition skillsPart (cleanedContent : jstring) : list jstring :=
  let skillsSection := extractSkillsSection cleanedContent in
  pushSection skillsSection "=== SKILLS ==="
              (substring skillsSection 0 1500).

Definition TRUNCATION_MARKER : jstring :=
  NEWLINES ++ js "[Content truncated for processing...]".

(** The [sections] array once the four blocks have run. *)
Definition sectionsOf (cleanedContent : jstring) : list jstring :=
  personalInfoPart cleanedContent ++ experiencePart cleanedContent
  ++ educationPart cleanedContent ++ skillsPart cleanedContent.

(** The section-aware reduction of a cleaned text that is still too large. *)
Definition extractKeySections (cleanedContent : jstring) : jstring :=
  let sections := sectionsOf cleanedContent in
  let combinedContent := join NEWLINES sections in
  if maxChars <? len combinedContent then
    substring combinedContent 0 (maxChars - 100) ++ TRUNCATION_MARKER
  else combinedContent.

Definition extractResumeContent (content : jstring) : jstring :=
  if len content <=? maxChars then content
  else
    let cleanedContent := cleanPdfArtifacts content in
    if maxChars <? len cleanedContent then extractKeySections cleanedContent
    else cleanedContent.

End Extraction.

(* ===================================================================== *)
(** * JavaScript values, numbers as text, and the shared data model *)
(* ===================================================================== *)

Module Data.

(** A JSON-like JavaScript value (what a metadata field can hold). *)
#[warnings="-register-all"] Inductive JsValue : Type :=
  | JUndefined
  | JNull
  | JBool (b : bool)
  | JNum (x : float)
  | JStr (s : jstring)
  | JArr (items : list JsValue)
  | JObj (fields : list (string * JsValue)).

Definition truthyValue (v : JsValue) : bool :=
  match v with
  | JUndefined | JNull => false
  | JBool b => b
  | JNum x => truthyNum x
  | JStr s => truthy s
  | JArr _ | JObj _ => true
  end.

(** A plain object used as a record of named fields. *)
Abbreviation Metadata := (gmap string JsValue).

(** Property access [m.k]: a missing property reads as [undefined]. *)
Definition prop (m : Metadata) (k : string) : JsValue :=
  match m !! k with Some v => v | None => JUndefined end.

(** An async call either returns or throws. *)
Inductive outcome (A : Type) : Type :=
  | Returned (a : A)
  | Thrown (message : jstring).
Arguments Returned {A} a.
Arguments Thrown {A} message.

(** Decimal digits of a non-negative integer. *)
Definition decimal (n : Z) : jstring :=
  digitsFuel (S (Z.to_nat (Z.log2 n))) n [].

(** [s.split(sep)] for a one-character separator. *)
Fixpoint split (sep : N) (s : jstring) : list jstring :=
  match s with
  | [] => [[]]
  | c :: s' =>
      if (c =? sep)%N then [] :: split sep s'
      else match split sep s' with
           | l :: ls => (c :: l) :: ls
           | [] => [[c]]
           end
  end.

(** The digits of [n] with a decimal point before the last [f] of them. *)
Definition fixedDigits (n : Z) (f : nat) : jstring :=
  let ds := decimal n in
  let ds := replicate (S f - length ds) 48%N ++ ds in
  match f with
  | O => ds
  | _ => take (length ds - f) ds ++ 46%N :: drop (length ds - f) ds
  end.

(** [parseFloat(s)] on the strings a [[\d.]+] capture can hold: the longest
    prefix [digits [. digits]] is read (NaN when it has no digit) and
    rounded to the nearest binary64.  Signs, exponents, leading blanks and
    [Infinity] cannot occur in such a capture and are not read here. *)
Definition digitsValue (ds : jstring) : Z :=
  fold_left (fun acc d => 10 * acc + (Z.of_N d - 48)) ds 0.

Fixpoint takeDigits (s : jstring) : jstring :=
  match s with
  | c :: s' => if isDigit c then c :: takeDigits s' else []
  | [] => []
  end.

Definition parseFloat (s : jstring) : float :=
  let intDigits := takeDigits s in
  let rest := drop (length intDigits) s in
  let fracDigits :=
    match rest with
    | c :: rest' => if (c =? 46)%N then takeDigits rest' else []
    | [] => []
    end in
  if negb (truthy intDigits) && negb (truthy fracDigits) then PrimFloat.nan
  else
    let n := digitsValue (intDigits ++ fracDigits) in
    match n with
    | Z.pos m =>
        SF2Prim (SFdiv 53 1024 (S754_finite false m 0)
                   (S754_finite false (Z.to_pos (10 ^ Z.of_nat (length fracDigits))) 0))
    | _ => PrimFloat.zero
    end.

(** ** The structured resume ([ResumeSchema]) *)

Inductive Seniority : Type :=
  | entry | junior | mid | senior | lead | principal | director | vp | c_level.

Definition seniorityName (s : Seniority) : string :=
  match s with
  | entry => "entry" | junior => "junior" | mid => "mid" | senior => "senior"
  | lead => "lead" | principal => "principal" | director => "director"
  | vp => "vp" | c_level => "c-level"
  end.

Inductive SkillCategory : Type :=
  | programming | framework | database | cloud | devops | design | language | other.

Definition categoryName (c : SkillCategory) : string :=
  match c with
  | programming => "programming" | framework => "framework"
  | database => "database" | cloud => "cloud" | devops => "devops"
  | design => "design" | language => "language" | other => "other"
  end.

Inductive SkillLevel : Type := beginner | intermediate | advanced | expert.

Definition levelName (l : SkillLevel) : string :=
  match l with
  | beginner => "beginner" | intermediate => "intermediate"
  | advanced => "advanced" | expert => "expert"
  end.

Record Position : Type := {
  position_title : jstring;
  position_seniority : Seniority }.

Record PersonalInformation : Type := {
  name : jstring;
  email : option jstring;
  phone : option jstring;
  address : option jstring;
  website : option jstring;
  linkedin : option jstring;
  position : option Position }.

Record Experience : Type := {
  title : jstring;
  company : jstring;
  experience_location : option jstring;
  startDate : jstring;
  endDate : option jstring;
  description : option jstring;
  achievements : option (list jstring) }.

Record Education : Type := {
  degree : jstring;
  field : jstring;
  institution : jstring;
  education_location : option jstring;
  graduationDate : option jstring;
  gpa : option jstring;
  honors : option (list jstring) }.

Record Skill : Type := {
  skill_name : jstring;
  category : option SkillCategory;
  seniority : option SkillLevel;
  yearsOfExperience : option float }.

Record Resume : Type := {
  personalInformation : PersonalInformation;
  experiences : list Experience;
  education : list Education;
  softSkills : option (list jstring);
  skills : option (list Skill) }.

(** ** Resumes as plain objects *)

Definition field_ (k : string) (v : JsValue) : list (string * JsValue) := [(k, v)].

Definition optional {A} (k : string) (f : A -> JsValue) (o : option A)
    : list (string * JsValue) :=
  match o with Some a => [(k, f a)] | None => [] end.

Definition strings (l : list jstring) : JsValue := JArr (JStr <$> l).

Definition positionObject (p : Position) : JsValue :=
  JObj (field_ "title" (JStr (position_title p))
        ++ field_ "seniority" (JStr (js (seniorityName (position_seniority p))))).

Definition personalObject (p : PersonalInformation) : JsValue :=
  JObj (field_ "name" (JStr (name p))
        ++ optional "email" JStr (email p)
        ++ optional "phone" JStr (phone p)
        ++ optional "address" JStr (address p)
        ++ optional "website" JStr (website p)
        ++ optional "linkedin" JStr (linkedin p)
        ++ optional "position" positionObject (position p)).

Definition experienceObject (e : Experience) : JsValue :=
  JObj (field_ "title" (JStr (title e))
        ++ field_ "company" (JStr (company e))
        ++ optional "location" JStr (experience_location e)
        ++ field_ "startDate" (JStr (startDate e))
        ++ optional "endDate" JStr (endDate e)
        ++ optional "description" JStr (description e)
        ++ optional "achievements" strings (achievements e)).

Definition educationObject (e : Education) : JsValue :=
  JObj (field_ "degree" (JStr (degree e))
        ++ field_ "field" (JStr (field e))
        ++ field_ "institution" (JStr (institution e))
        ++ optional "location" JStr (education_location e)
        ++ optional "graduationDate" JStr (graduationDate e)
        ++ optional "gpa" JStr (gpa e)
        ++ optional "honors" strings (honors e)).

Definition skillObject (s : Skill) : JsValue :=
  JObj (field_ "name" (JStr (skill_name s))
        ++ optional "category" (fun c => JStr (js (categoryName c))) (category s)
        ++ optional "seniority" (fun l => JStr (js (levelName l))) (seniority s)
        ++ optional "yearsOfExperience" JNum (yearsOfExperience s)).

(** The own properties of a parsed resume, in schema order. *)
Definition resumeFields (r : Resume) : list (string * JsValue) :=
  field_ "personalInformation" (personalObject (personalInformation r))
  ++ field_ "experiences" (JArr (experienceObject <$> experiences r))
  ++ field_ "education" (JArr (educationObject <$> education r))
  ++ optional "softSkills" strings (softSkills r)
  ++ optional "skills" (fun l => JArr (skillObject <$> l)) (skills r).

Definition resumeObject (r : Resume) : JsValue := JObj (resumeFields r).

(** ** Stored and retrieved records *)

(** A document of the embedding store. *)
Record Document : Type := {
  pageContent : jstring;
  metadata : Metadata }.

Record ResumeData : Type := {
  id : JsValue;
  document : jstring;
  cmetadata : Metadata }.

End Data.

Import Data.

(* ===================================================================== *)
(** * Resume actions: semantic search and ingestion *)
(* ===================================================================== *)

Module ResumeActions.

Import Extraction.

Section Actions.

(** The embedding store and the other collaborators of the actions. *)
Variable Store : Type.
(** [vectorStore.addDocuments(documents, { ids })]. *)
Variable addDocuments : list Document -> list jstring -> Store -> outcome () * Store.
(** [vectorStore.similaritySearchWithScore(query, k)]. *)
Variable similaritySearchWithScore : jstring -> float -> Store -> outcome (list (Document * float)).
(** [getResumes()], the listing of every stored row. *)
Variable getResumes : Store -> outcome (list ResumeData).
(** [parseResume(text)], the language model; [None] when it throws. *)
Variable parseResume : jstring -> option Resume.
(** [JSON.stringify(value)] and [String(number)]. *)
Variable JSON_stringify : JsValue -> jstring.
Variable Number_toString : float -> jstring.
(** The [n]-th [uuidv4()] of a call. *)
Variable uuidv4 : nat -> jstring.

(** What a call reads from its surroundings: the result of [generateId()],
    the text of [new Date().toISOString()], and the id made up for a search
    hit that carries none ([langchain-<time>-<random>]). *)
Record Ambient : Type := {
  generateId : jstring;
  nowISOString : jstring;
  langchainId : nat -> jstring }.

(** The store, with the list of the calls of [addVectors] made so far
    (kept only to state which calls happened). *)
Record World : Type := {
  vectorStore : Store;
  addVectorsCalls : list (list jstring * list Metadata) }.

(** ** [addVectors] and [searchVectorsWithScore] ([src/lib/ai/vectors.ts]) *)

Definition addVectors (chunks : list jstring) (metadata : list Metadata)
    (w : World) : outcome () * World :=
  let documents :=
    imap (fun index chunk =>
            {| pageContent := chunk;
               metadata := match metadata !! index with
                           | Some m => m
                           | None => ∅
                           end |}) chunks in
  let ids := uuidv4 <$> seq 0 (length chunks) in
  let '(res, store') := addDocuments documents ids (vectorStore w) in
  (res, {| vectorStore := store';
           addVectorsCalls := addVectorsCalls w ++ [(chunks, metadata)] |}).

Definition searchVectorsWithScore (query : jstring) (k : float) (w : World)
    : outcome (list (Document * float)) :=
  similaritySearchWithScore query k (vectorStore w).

(** ** [semanticSearchResumes] *)

(** [x.toFixed(f)] for [|x| < 1e21]; larger values print as [String(x)]. *)
Definition toFixed (x : float) (f : nat) : jstring :=
  match Prim2SF x with
  | S754_nan => js "NaN"
  | S754_infinity s => if s then js "-Infinity" else js "Infinity"
  | S754_zero _ => fixedDigits 0 f
  | S754_finite s m e =>
      if PrimFloat.leb 0x1.b1ae4d6e2ef5p+69%float (PrimFloat.abs x)
      then Number_toString x
      else
        let scale := 10 ^ Z.of_nat f in
        let n := if 0 <=? e then Z.pos m * 2 ^ e * scale
                 else (2 * Z.pos m * scale + 2 ^ (- e)) / (2 * 2 ^ (- e)) in
        (if s then [45%N] else []) ++ fixedDigits n f
  end.

(** The [.map(([doc, score]) => ...)] of the search: one hit as a
    [ResumeData] ([freshId] is the id made up when the hit has none). *)
Definition toResumeData (freshId : jstring) (hit : Document * float) : ResumeData :=
  let '(doc, score) := hit in
  let lines := filter (fun line => truthy (trim line) = true)
                      (split 10 (pageContent doc)) in
  let title :=
    match lines with
    | _ :: line1 :: _ => trim (filter (fun c => c ≠ 42%N ∧ c ≠ 35%N) line1)
    | _ => js "No Title"
    end in
  {| id := if truthyValue (prop (metadata doc) "id")
           then prop (metadata doc) "id" else JStr freshId;
     document := pageContent doc;
     cmetadata :=
       (* { name, fileName, title, summary, ...doc.metadata }: the spread
          comes last, so its properties win *)
       metadata doc
       ∪ <["summary" := JStr (js "Score: " ++ toFixed score 3 ++ js " - "
                               ++ substring (pageContent doc) 0 200 ++ js "...")]>
         (<["title" := JStr title]>
         (<["fileName" := prop (metadata doc) "filename"]>
         (<["name" := prop (metadata doc) "name"]> ∅))) |}.

(** The similarity threshold [0.1] of the filter. *)
Definition SCORE_THRESHOLD : float := 0x1.999999999999ap-4%float.

(** [semanticSearchResumes].  For a blank query the promise of
    [getResumes()] is returned without [await]: it settles the call as it
    settles itself, and the [catch] never sees its rejection.  What the
    awaited vector search throws is caught and replaced. *)
Definition semanticSearchResumes (amb : Ambient) (query : jstring) (limit : float)
    (w : World) : outcome (list ResumeData) :=
  if negb (truthy (trim query)) then getResumes (vectorStore w)
  else
    match searchVectorsWithScore query limit w with
    | Thrown _ => Thrown (js "Failed to perform semantic search")
    | Returned vectorResults =>
        let kept := filter (fun hit => PrimFloat.ltb SCORE_THRESHOLD hit.2 = true)
                           vectorResults in
        Returned (imap (fun i hit => toResumeData (langchainId amb i) hit) kept)
    end.

(** ** [addResume] *)

(** The three cleaning [replace] calls: null bytes, the other control
    characters, and U+FFFD. *)
Definition isControl (c : N) : bool :=
  ((c <=? 8) || (c =? 11) || (c =? 12) || (14 <=? c) && (c <=? 31) || (c =? 127))%N.

Definition cleanControl (content : jstring) : jstring :=
  trim (filter (fun c => c ≠ 65533%N)
          (filter (fun c => isControl c = false)
             (filter (fun c => c ≠ 0%N) content))).

(** The placeholder used when the language model fails, as the record
    whose properties the metadata is read from. *)
Definition fallbackResume : Resume :=
  {| personalInformation :=
       {| name := js "Unknown"; email := None; phone := None; address := None;
          website := None; linkedin := None;
          position := Some {| position_title := js "Unknown";
                              position_seniority := mid |} |};
     experiences := [];
     education := [];
     softSkills := Some [];
     skills := Some [] |}.

Definition educationLine (edu : Education) : jstring :=
  degree edu ++ js " in " ++ field edu.

Definition summaryOf (parsedData : Resume) : jstring :=
  let degrees := join (js ", ") (educationLine <$> education parsedData) in
  natToString (length (experiences parsedData))
  ++ js " years of experience. Education: "
  ++ (if truthy degrees then degrees else js "Not specified").

(** [{ name, title, summary, ...parsedData, ...cmetadata, uploadedAt }]:
    a later property replaces an earlier one of the same name. *)
Definition combineCmetadata (parsedData : Resume) (cmetadata : option Metadata)
    (uploadedAt : jstring) : Metadata :=
  let aiParsed : Metadata :=
    <["summary" := JStr (summaryOf parsedData)]>
    (<["title" := match experiences parsedData with
                  | e :: _ => JStr (title e)
                  | [] => JUndefined
                  end]>
    (<["name" := JStr (name (personalInformation parsedData))]> ∅)) in
  let structured : Metadata := list_to_map (resumeFields parsedData) in
  let extra : Metadata := match cmetadata with Some m => m | None => ∅ end in
  <["uploadedAt" := JStr uploadedAt]> (extra ∪ (structured ∪ aiParsed)).

(** The parsed resume, or the placeholder when the language model fails. *)
Definition parseOrFallback (limitedContent : jstring) : Resume :=
  match parseResume limitedContent with
  | Some parsed => parsed
  | None => fallbackResume
  end.

(** The placeholder as the plain object its literal makes: the properties
    in the order they are written, [skills] before [softSkills] (a parsed
    resume has them in schema order, [softSkills] first). *)
Definition fallbackObject : JsValue :=
  JObj (field_ "personalInformation"
          (JObj (field_ "name" (JStr (js "Unknown"))
                 ++ field_ "position"
                      (JObj (field_ "title" (JStr (js "Unknown"))
                             ++ field_ "seniority" (JStr (js "mid"))))))
        ++ field_ "experiences" (JArr [])
        ++ field_ "education" (JArr [])
        ++ field_ "skills" (JArr [])
        ++ field_ "softSkills" (JArr [])).

(** [parseResult.object] as the plain object that [JSON.stringify]
    serializes. *)
Definition parsedObject (limitedContent : jstring) : JsValue :=
  match parseResume limitedContent with
  | Some parsed => resumeObject parsed
  | None => fallbackObject
  end.

(** The body of the [try] block. *)
Definition addResumeBody (amb : Ambient) (content : jstring)
    (cmetadata : option Metadata) (w : World) : outcome ResumeData * World :=
  if negb (truthy (trim content)) then
    (Thrown (js "Resume content cannot be empty"), w)
  else
    let cleanContent := cleanControl content in
    if negb (truthy cleanContent) then
      (Thrown (js "Resume content is empty after cleaning"), w)
    else
      let limitedContent := extractResumeContent cleanContent in
      let parsedData := parseOrFallback limitedContent in
      let combinedCmetadata :=
        combineCmetadata parsedData cmetadata (nowISOString amb) in
      let id := generateId amb in
      let chunks :=
        Chunker.chunkText (JSON_stringify (parsedObject limitedContent)) 20000 150 in
      let chunkMetadata :=
        (fun _ => <["id" := JStr id]> combinedCmetadata) <$> chunks in
      match addVectors chunks chunkMetadata w with
      | (Thrown e, w') => (Thrown e, w')
      | (Returned _, w') =>
          (Returned {| id := JStr id;
                       document := JSON_stringify (parsedObject limitedContent);
                       cmetadata := combinedCmetadata |}, w')
      end.

(** [addResume]: whatever the body throws is logged and replaced by one
    generic error. *)
Definition addResume (amb : Ambient) (content : jstring)
    (cmetadata : option Metadata) (w : World) : outcome ResumeData * World :=
  match addResumeBody amb content cmetadata w with
  | (Thrown _, w') => (Thrown (js "Failed to add resume"), w')
  | (Returned resume, w') => (Returned resume, w')
  end.

End Actions.

End ResumeActions.

(* ===================================================================== *)
(** * The chat route: criteria, match scoring and the [searchResumes] tool *)
(* ===================================================================== *)

Module Route.

(** ** [SearchCriteriaSchema] *)

Record PositionCriteria : Type := {
  wanted_title : option jstring;
  wanted_seniority : option Seniority }.

Record SkillCriteria : Type := {
  wanted_skill : jstring;
  wanted_category : option SkillCategory;
  minSeniority : option SkillLevel }.

Record ExperienceCriteria : Type := {
  minYears : option float;
  maxYears : option float;
  companies : option (list jstring);
  industries : option (list jstring) }.

Record EducationCriteria : Type := {
  wanted_degree : option jstring;
  wanted_field : option jstring;
  wanted_institution : option jstring }.

Record SearchCriteria : Type := {
  criteria_position : option PositionCriteria;
  criteria_skills : option (list SkillCriteria);
  criteria_experience : option ExperienceCriteria;
  criteria_education : option EducationCriteria;
  criteria_location : option jstring;
  criteria_softSkills : option (list jstring) }.

(** ** The result of a match analysis *)

Record MatchDetails : Type := {
  positionMatch : option float;
  seniorityMatch : option float;
  skillsMatch : option float;
  experienceMatch : option float;
  educationMatch : option float;
  locationMatch : option float;
  softSkillsMatch : option float;
  keyStrengths : list jstring;
  potentialConcerns : list jstring }.

Record MatchAnalysis : Type := {
  percentage : float;
  explanation : jstring;
  details : MatchDetails }.

Record ScoredCandidate : Type := {
  candidate_id : JsValue;
  candidate_name : JsValue;
  candidate_title : JsValue;
  candidate_summary : jstring;
  content : jstring;
  confidence : float;
  rawScore : float;
  matchExplanation : jstring;
  matchDetails : MatchDetails }.

Record SearchResult : Type := {
  totalResults : Z;
  averageConfidence : float;
  query : jstring;
  originalQuery : jstring;
  parsedCriteria : option SearchCriteria;
  candidates : list ScoredCandidate }.

(** ** The two patterns applied to a stored summary *)

Definition isDigitOrDot (c : N) : bool := (isDigit c || (c =? 46))%N.

(** [/Score: ([\d.]+)/] *)
Definition scorePattern : regex :=
  Seq (lit "Score: ") (plus (Chr isDigitOrDot)).

(** [/Score: [\d.]+ - /] *)
Definition scorePrefixPattern : regex :=
  Seq (lit "Score: ") (Seq (plus (Chr isDigitOrDot)) (lit " - ")).

Fixpoint takeClass (p : N -> bool) (s : jstring) : jstring :=
  match s with
  | c :: s' => if p c then c :: takeClass p s' else []
  | [] => []
  end.

(** [summary.match(/Score: ([\d.]+)/)]: the first capture group of the
    leftmost match (the greedy [+] takes the whole run of digits and dots
    that follows [Score: ]), or [None] for [null]. *)
Definition matchScore (summary : jstring) : option jstring :=
  let i := search scorePattern summary in
  if i =? -1 then None
  else Some (takeClass isDigitOrDot (drop (Z.to_nat i + 7) summary)).

(** [summary.replace(/Score: [\d.]+ - /, '')]: the leftmost match is cut
    out; it spans [Score: ], the whole run of digits and dots, and [ - ]. *)
Definition stripScore (summary : jstring) : jstring :=
  let i := search scorePrefixPattern summary in
  if i =? -1 then summary
  else
    let run := takeClass isDigitOrDot (drop (Z.to_nat i + 7) summary) in
    take (Z.to_nat i) summary ++ drop (Z.to_nat i + 7 + length run + 3) summary.

(** ** [Promise.all] *)

(** One task settles: a fulfilled task stores its value at its own index,
    a rejected one rejects the whole promise unless it is rejected already. *)
Definition settle {A} (tasks : list (outcome A))
    (st : list (option A) * option jstring) (i : nat)
    : list (option A) * option jstring :=
  match tasks !! i with
  | Some (Returned a) => (<[i := Some a]> st.1, st.2)
  | Some (Thrown e) => (st.1, match st.2 with None => Some e | Some e0 => Some e0 end)
  | None => st
  end.

(** [await Promise.all(tasks)] when the tasks settle in the order
    [completion] (a list of task indices): the values, by task index, once
    every task is fulfilled; the first rejection otherwise; [None] while
    some task has not settled. *)
Definition promiseAll {A} (tasks : list (outcome A)) (completion : list nat)
    : option (outcome (list A)) :=
  let st := fold_left (settle tasks) completion
                      (replicate (length tasks) None, None) in
  match st.2 with
  | Some e => Some (Thrown e)
  | None => Returned <$> mapM (fun slot => slot) st.1
  end.

(** Two invariants of the settling of tasks.  [slotsFaithful]: a slot is
    empty or holds the value its own task returned.  [slotsFilled]: while
    only fulfilled tasks settle, nothing is rejected and the slots of the
    settled tasks are filled. *)
Definition slotsFaithful {A} (tasks : list (outcome A))
    (st : list (option A) * option jstring) : Prop :=
  length st.1 = length tasks
  /\ forall (i : nat) (a : A), st.1 !! i = Some (Some a) -> tasks !! i = Some (Returned a).

Definition slotsFilled {A} (values : list A) (settled : list nat)
    (st : list (option A) * option jstring) : Prop :=
  length st.1 = length values
  /\ st.2 = None
  /\ (forall (i : nat) (a : A), st.1 !! i = Some (Some a) -> values !! i = Some a)
  /\ (forall (i : nat) (a : A), i ∈ settled -> values !! i = Some a ->
                                st.1 !! i = Some (Some a)).

Section Tool.

(** The language-model calls ([None] when [generateObject] throws),
    [JSON.parse] ([None] when it throws), [String(number)] and the
    imported server action. *)
Variable generateCriteria : jstring -> option SearchCriteria.
Variable generateAnalysis :
  option SearchCriteria -> JsValue -> jstring -> float -> option MatchAnalysis.
Variable JSON_parse : jstring -> option JsValue.
Variable Number_toString : float -> jstring.
Variable semanticSearchResumes : jstring -> float -> outcome (list ResumeData).

(** [parseSearchQuery]: the parsed criteria, or [null]. *)
Definition parseSearchQuery (query : jstring) : option SearchCriteria :=
  generateCriteria query.

(** [generateMatchAnalysis] *)
Definition fallbackAnalysis (semanticScore : float) : MatchAnalysis :=
  let fallbackPercentage :=
    Math_min 100 (Math_max 0 (PrimFloat.mul semanticScore 100)) in
  {| percentage := Math_round fallbackPercentage;
     explanation := js "Match based on semantic similarity to your search criteria.";
     details :=
       {| positionMatch := None; seniorityMatch := None; skillsMatch := None;
          experienceMatch := None; educationMatch := None;
          locationMatch := None; softSkillsMatch := None;
          keyStrengths := [js "Semantic similarity to search query"];
          potentialConcerns := [js "Detailed analysis unavailable"] |} |}.

Definition generateMatchAnalysis (parsedCriteria : option SearchCriteria)
    (resumeData : JsValue) (originalQuery : jstring) (semanticScore : float)
    : MatchAnalysis :=
  match generateAnalysis parsedCriteria resumeData originalQuery semanticScore with
  | Some analysis => analysis
  | None => fallbackAnalysis semanticScore
  end.

(** ** The enhanced query *)

(** [if (value) parts.push(render(value))] for an optional string. *)
Definition pushString (value : option jstring) (render : jstring -> jstring)
    : list jstring :=
  match value with
  | Some s => if truthy s then [render s] else []
  | None => []
  end.

(** [if (list?.length) parts.push(render(list))]. *)
Definition pushList {A} (value : option (list A)) (render : list A -> jstring)
    : list jstring :=
  match value with
  | Some (x :: l) => [render (x :: l)]
  | _ => []
  end.

Definition skillText (skill : SkillCriteria) : jstring :=
  wanted_skill skill
  ++ match minSeniority skill with
     | Some l => js " (" ++ js (levelName l) ++ js " level)"
     | None => []
     end
  ++ match wanted_category skill with
     | Some c => js " [" ++ js (categoryName c) ++ js "]"
     | None => []
     end.

Definition enhancedQueryParts (c : SearchCriteria) : list jstring :=
  pushString (criteria_position c ≫= wanted_title)
             (fun t => js "position: " ++ t)
  ++ match criteria_position c ≫= wanted_seniority with
     | Some s => [js "seniority: " ++ js (seniorityName s)]
     | None => []
     end
  ++ pushList (criteria_skills c)
              (fun l => js "skills: " ++ join (js ", ") (skillText <$> l))
  ++ match criteria_experience c ≫= minYears with
     | Some y => if truthyNum y
                 then [js "minimum " ++ Number_toString y ++ js " years experience"]
                 else []
     | None => []
     end
  ++ pushList (criteria_experience c ≫= companies)
              (fun l => js "companies: " ++ join (js ", ") l)
  ++ pushString (criteria_education c ≫= wanted_degree)
                (fun d => js "education: " ++ d)
  ++ pushString (criteria_education c ≫= wanted_field)
                (fun f => js "field: " ++ f)
  ++ pushString (criteria_location c) (fun l => js "location: " ++ l)
  ++ pushList (criteria_softSkills c)
              (fun l => js "soft skills: " ++ join (js ", ") l).

(** The criteria the tool works with: parsed only on request. *)
Definition criteriaFor (query : jstring) (useStructuredSearch : bool)
    : option SearchCriteria :=
  if useStructuredSearch then parseSearchQuery query else None.

(** The query sent to retrieval. *)
Definition searchQueryFor (query : jstring) (useStructuredSearch : bool) : jstring :=
  match criteriaFor query useStructuredSearch with
  | Some c =>
      let parts := enhancedQueryParts c in
      if (0 <? length parts)%nat then join (js " | ") parts else query
  | None => query
  end.

(** ** One candidate *)

(** [resume.cmetadata?.summary], as far as the two uses below go: a string,
    nothing ([undefined] or [null]), or a value that has no [match]. *)
Definition summaryField (resume : ResumeData) : outcome (option jstring) :=
  match cmetadata resume !! "summary" with
  | None | Some JUndefined | Some JNull => Returned None
  | Some (JStr s) => Returned (Some s)
  | Some _ => Thrown (js "resume.cmetadata?.summary?.match is not a function")
  end.

(** [scoreMatch ? parseFloat(scoreMatch[1]) : 0] *)
Definition rawScoreOf (summary : option jstring) : float :=
  match summary ≫= matchScore with
  | Some capture => parseFloat capture
  | None => PrimFloat.zero
  end.

Definition orElse (v : JsValue) (fallback : string) : JsValue :=
  if truthyValue v then v else JStr (js fallback).

(** The body of the per-candidate async task. *)
Definition scoreCandidate (parsedCriteria : option SearchCriteria)
    (query : jstring) (resume : ResumeData) : outcome ScoredCandidate :=
  match summaryField resume with
  | Thrown e => Thrown e
  | Returned summary =>
      let rawScore := rawScoreOf summary in
      let resumeData :=
        match JSON_parse (document resume) with
        | Some v => v
        | None => JObj []
        end in
      let matchAnalysis :=
        generateMatchAnalysis parsedCriteria resumeData query rawScore in
      Returned
        {| candidate_id := id resume;
           candidate_name := orElse (prop (cmetadata resume) "name") "Unknown";
           candidate_title := orElse (prop (cmetadata resume) "title") "No title";
           candidate_summary :=
             (let stripped := match summary with
                              | Some s => stripScore s
                              | None => []
                              end in
              if truthy stripped then stripped else js "No summary");
           content := substring (document resume) 0 500 ++ js "...";
           confidence := percentage matchAnalysis;
           rawScore := rawScore;
           matchExplanation := explanation matchAnalysis;
           matchDetails := details matchAnalysis |}
  end.

(** ** The tool *)

(** [Math.round(results.reduce((sum, r) => sum + r.confidence, 0) / results.length)],
    or [0] for no result. *)
Definition avgConfidence (results : list ScoredCandidate) : float :=
  if (0 <? length results)%nat then
    Math_round
      (PrimFloat.div
         (fold_left (fun sum r => PrimFloat.add sum (confidence r)) results PrimFloat.zero)
         (Z2float (Z.of_nat (length results))))
  else PrimFloat.zero.

Definition DEFAULT_LIMIT : float := 5%float.

(** [execute({ query, limit, useStructuredSearch })]; [completion] is the
    order in which the scoring tasks settle.  [None]: still waiting for a
    task. *)
Definition searchResumes (query : jstring) (limit : float)
    (useStructuredSearch : bool) (completion : list nat)
    : option (outcome SearchResult) :=
  let parsedCriteria := criteriaFor query useStructuredSearch in
  let searchQuery := searchQueryFor query useStructuredSearch in
  match semanticSearchResumes searchQuery limit with
  | Thrown e => Some (Thrown e)
  | Returned resumes =>
      match promiseAll (scoreCandidate parsedCriteria query <$> resumes) completion with
      | None => None
      | Some (Thrown e) => Some (Thrown e)
      | Some (Returned resultsWithConfidence) =>
          Some (Returned
            {| totalResults := Z.of_nat (length resultsWithConfidence);
               averageConfidence := avgConfidence resultsWithConfidence;
               query := searchQuery;
               originalQuery := query;
               parsedCriteria := parsedCriteria;
               candidates := resultsWithConfidence |})
      end
  end.

End Tool.

End Route.

(* ===================================================================== *)
(** * The vocabulary of the specification *)
(* ===================================================================== *)

Module Spec.

Import Route.

(** [clamp(x, lo, hi)]. *)
Definition clamp (x lo hi : float) : float := Math_min hi (Math_max lo x).

(** The category sub-scores a breakdown holds, by key. *)
Definition subScore (key : string) (score : option float) : list (string * float) :=
  match score with Some x => [(key, x)] | None => [] end.

Definition subScores (d : MatchDetails) : list (string * float) :=
  subScore "positionMatch" (positionMatch d)
  ++ subScore "seniorityMatch" (seniorityMatch d)
  ++ subScore "skillsMatch" (skillsMatch d)
  ++ subScore "experienceMatch" (experienceMatch d)
  ++ subScore "educationMatch" (educationMatch d)
  ++ subScore "locationMatch" (locationMatch d)
  ++ subScore "softSkillsMatch" (softSkillsMatch d).

(** The integer-rounded mean of a list of numbers, [0] for no number. *)
Definition mean (xs : list float) : float :=
  PrimFloat.div (fold_left PrimFloat.add xs PrimFloat.zero)
                (Z2float (Z.of_nat (length xs))).

Definition roundedMean (xs : list float) : float :=
  match xs with
  | [] => PrimFloat.zero
  | _ :: _ => Math_round (mean xs)
  end.

(** The summary a stored resume carries: the one its caller supplied, or
    else the one [addResume] generates from the parsed data. *)
Definition storedSummary (parsedData : Resume) (cmetadata : option Metadata)
    : JsValue :=
  match cmetadata ≫= (fun m => m !! "summary") with
  | Some v => v
  | None => JStr (ResumeActions.summaryOf parsedData)
  end.

(** A criteria field that is absent or empty. *)
Definition absent {A} (o : option A) : bool :=
  match o with None => true | Some _ => false end.

Definition blankString (o : option jstring) : bool :=
  match o with None => true | Some s => negb (truthy s) end.

Definition blankList {A} (o : option (list A)) : bool :=
  match o with None | Some [] => true | Some (_ :: _) => false end.

(** Every field the enriched query is built from is absent or empty. *)
Definition criteriaBlank (c : SearchCriteria) : bool :=
  blankString (criteria_position c ≫= wanted_title)
  && absent (criteria_position c ≫= wanted_seniority)
  && blankList (criteria_skills c)
  && absent (criteria_experience c ≫= minYears)
  && blankList (criteria_experience c ≫= companies)
  && blankString (criteria_education c ≫= wanted_degree)
  && blankString (criteria_education c ≫= wanted_field)
  && blankString (criteria_location c)
  && blankList (criteria_softSkills c).

End Spec.

(* ===================================================================== *)
(** * Sample inputs *)
(* ===================================================================== *)

Module Samples.

Import Extraction ResumeActions Route.

(** ** Collaborators with a fixed behaviour *)

(** A language model that always fails. *)
Definition noCriteria : jstring -> option SearchCriteria := fun _ => None.
Definition noAnalysis
    : option SearchCriteria -> JsValue -> jstring -> float -> option MatchAnalysis :=
  fun _ _ _ _ => None.
Definition noResume : jstring -> option Resume := fun _ => None.

(** A language model that parses every query to criteria without content. *)
Definition blankCriteria : SearchCriteria :=
  {| criteria_position := Some {| wanted_title := Some []; wanted_seniority := None |};
     criteria_skills := Some [];
     criteria_experience := None;
     criteria_education := None;
     criteria_location := None;
     criteria_softSkills := None |}.

Definition alwaysBlank : jstring -> option SearchCriteria :=
  fun _ => Some blankCriteria.

(** [JSON.parse] that always throws, a serializer and a number printer
    with a fixed answer. *)
Definition noJson : jstring -> option JsValue := fun _ => None.
Definition fixedJson : JsValue -> jstring := fun _ => js "{}".
Definition fixedNumber : float -> jstring := fun _ => js "0".
Definition fixedUuid : nat -> jstring := fun _ => js "00000000-0000-4000-8000-000000000000".

(** An embedding store kept as the list of its documents; every document
    is returned by a search, with similarity [0.5]. *)
Definition listAddDocuments (documents : list Document) (ids : list jstring)
    (store : list Document) : outcome () * list Document :=
  (Returned (), store ++ documents).

Definition listSearch (query : jstring) (k : float) (store : list Document)
    : outcome (list (Document * float)) :=
  Returned ((fun d => (d, 0x1p-1%float)) <$> store).

Definition listResumes (store : list Document) : outcome (list ResumeData) :=
  Returned [].

Definition emptyWorld : World (list Document) :=
  {| vectorStore := []; addVectorsCalls := [] |}.

Definition ambient : Ambient :=
  {| generateId := js "resume-1";
     nowISOString := js "2025-01-01T00:00:00.000Z";
     langchainId := fun _ => js "langchain-0-0.5" |}.

(** What [addResume] hands to the store for a text, and the raw score the
    search tool then reads from the first hit for a query. *)
Definition ingest (content : jstring) (cmetadata : option Metadata)
    : outcome ResumeData * World (list Document) :=
  addResume (list Document) listAddDocuments noResume fixedJson fixedUuid
            ambient content cmetadata emptyWorld.

Definition rawScoreOfFirstHit (w : World (list Document)) (query : jstring)
    : option float :=
  match semanticSearchResumes (list Document) listSearch listResumes fixedNumber
                              ambient query 5 w with
  | Returned (hit :: _) =>
      match scoreCandidate noAnalysis noJson None query hit with
      | Returned candidate => Some (rawScore candidate)
      | Thrown _ => None
      end
  | _ => None
  end.

(** A caller-supplied summary that reads like a search score. *)
Definition scoreLikeSummary : Metadata :=
  {[ "summary" := JStr (js "Score: 0.9 - strong backend profile") ]}.

(** ** Retrieved resumes *)

Definition retrieved (n : string) (summary : string) : ResumeData :=
  {| id := JStr (js n);
     document := js "{}";
     cmetadata := {[ "name" := JStr (js n); "summary" := JStr (js summary) ]} |}.

Definition threeResumes : list ResumeData :=
  [ retrieved "r1" "5 years of experience. Education: BSc in Physics";
    retrieved "r2" "2 years of experience. Education: Not specified";
    retrieved "r3" "Score: 0.285 - React developer" ].

Definition threeRetrieved : jstring -> float -> outcome (list ResumeData) :=
  fun _ _ => Returned threeResumes.

Definition filler (n : nat) : jstring :=
  mjoin (replicate n (js "lorem ipsum dolor ")).

(** A resume text of exactly 300,000 characters. *)
Definition resume300k : jstring :=
  take 300000
    (js "Jane Doe. Work experience: Acme Corp, 2019 - present. Education: BSc in Computer Science. Skills: TypeScript, SQL. "
     ++ filler 17000).

(** A text of 160,210 characters that names its education and nothing
    else. *)
Definition educationHeavy : jstring := js "Education " ++ filler 8900.

(** A text of 300,000 characters: the letter [a], over and over. *)
Definition letters300k : jstring := replicate 300000 97%N.

End Samples.

(* ===================================================================== *)
(** * What a pattern matches *)
(* ===================================================================== *)

Module RegexSemantics.

(** [Matches r w]: the whole of [w] matches [r]. *)
Inductive Matches : regex -> jstring -> Prop :=
  | MatchEps : Matches Eps []
  | MatchChr (p : N -> bool) (c : N) : p c = true -> Matches (Chr p) [c]
  | MatchSeq (a b : regex) (w1 w2 : jstring) :
      Matches a w1 -> Matches b w2 -> Matches (Seq a b) (w1 ++ w2)
  | MatchAltL (a b : regex) (w : jstring) : Matches a w -> Matches (Alt a b) w
  | MatchAltR (a b : regex) (w : jstring) : Matches b w -> Matches (Alt a b) w
  | MatchStarNil (a : regex) : Matches (Star a) []
  | MatchStarCons (a : regex) (w1 w2 : jstring) :
      Matches a w1 -> Matches (Star a) w2 -> Matches (Star a) (w1 ++ w2).

(** The code units [isWhiteSpace] accepts. *)
Definition whitespaceCodes : list N :=
  [9; 10; 11; 12; 13; 32; 160; 5760; 8192; 8193; 8194; 8195; 8196; 8197;
   8198; 8199; 8200; 8201; 8202; 8232; 8233; 8239; 8287; 12288; 65279]%N.

(** A sufficient test that no match of [r] starts with whitespace. *)
Fixpoint firstsVisible (r : regex) : bool :=
  match r with
  | Void | Eps => true
  | Chr p => forallb (fun c => negb (p c)) whitespaceCodes
  | Seq a b => firstsVisible a && (if nullable a then firstsVisible b else true)
  | Alt a b => firstsVisible a && firstsVisible b
  | Star a => firstsVisible a
  end.

End RegexSemantics.

(* ===================================================================== *)
(** * The search tool over the server action *)
(* ===================================================================== *)

Module Chat.

Import ResumeActions Route.

(** A minimum number of years that adds nothing to the query: none, [0]
    or [NaN]. *)
Definition noMinimum (years : option float) : bool :=
  match years with None => true | Some y => negb (truthyNum y) end.

(** No field of the criteria passes the test that guards its [push]. *)
Definition unconstrained (c : SearchCriteria) : bool :=
  Spec.blankString (criteria_position c ≫= wanted_title)
  && Spec.absent (criteria_position c ≫= wanted_seniority)
  && Spec.blankList (criteria_skills c)
  && noMinimum (criteria_experience c ≫= minYears)
  && Spec.blankList (criteria_experience c ≫= companies)
  && Spec.blankString (criteria_education c ≫= wanted_degree)
  && Spec.blankString (criteria_education c ≫= wanted_field)
  && Spec.blankString (criteria_location c)
  && Spec.blankList (criteria_softSkills c).

(** A string whose first character is not whitespace. *)
Definition visibleStart (s : jstring) : bool :=
  match s with c :: _ => negb (isWhiteSpace c) | [] => false end.

Section EndToEnd.

Variable Store : Type.
Variable similaritySearchWithScore :
  jstring -> float -> Store -> outcome (list (Document * float)).
Variable getResumes : Store -> outcome (list ResumeData).
Variable generateCriteria : jstring -> option SearchCriteria.
Variable generateAnalysis :
  option SearchCriteria -> JsValue -> jstring -> float -> option MatchAnalysis.
Variable JSON_parse : jstring -> option JsValue.
Variable Number_toString : float -> jstring.

(** The [searchResumes] tool of the chat route with the
    [semanticSearchResumes] it imports from the resume actions, run on the
    state [w] of the vector store. *)
Definition searchTool (amb : Ambient) (w : World Store) (query : jstring)
    (limit : float) (useStructuredSearch : bool) (completion : list nat)
    : option (outcome SearchResult) :=
  Route.searchResumes generateCriteria generateAnalysis JSON_parse Number_toString
    (fun searchQuery k =>
       ResumeActions.semanticSearchResumes Store similaritySearchWithScore getResumes
         Number_toString amb searchQuery k w)
    query limit useStructuredSearch completion.

End EndToEnd.

End Chat.

(* ===================================================================== *)
(** * The upload route ([POST], [src/unnamed/part_008]) *)
(* ===================================================================== *)

Module UploadRoute.

Import ResumeActions.

(** The JSON body of a response: an error with its optional details, or
    the [data] of a success. *)
Inductive Body : Type :=
  | ErrorBody (error : jstring) (details : option jstring)
  | SuccessBody (resumeId : JsValue) (fileName : jstring)
                (parsedData : JsValue + Metadata) (resumeMetadata : Metadata)
                (pdfPath : jstring).

Record Response : Type := {
  status : Z;
  body : Body }.

(** A value in a template literal: a string stands for itself,
    [String_other] prints the other values. *)
Definition template (String_other : JsValue -> jstring) (v : JsValue) : jstring :=
  match v with JStr s => s | _ => String_other v end.

(** The text used when the buffer cannot be read as text. *)
Definition placeholderText (fileName : jstring) : jstring :=
  js "Resume content from " ++ fileName
  ++ js " - PDF parsing would be implemented here with a proper PDF parser library like pdf-parse".

Definition PDF_TYPE : jstring := js "application/pdf".

Section Upload.

(** The bytes of an upload and what the route does with them:
    [buffer.toString('utf-8')] ([None] when it throws) and
    [writeFile(path, buffer)]; [join] of [path] and the directory
    [join(process.cwd(), "public", "resumes")]. *)
Variable Buffer : Type.
Variable toUtf8 : Buffer -> option jstring.
Variable writeFile : jstring -> Buffer -> outcome ().
Variable pathJoin : jstring -> jstring -> jstring.
Variable resumesDir : jstring.
Variable String_other : JsValue -> jstring.

(** The collaborators of [addResume]. *)
Variable Store : Type.
Variable addDocuments : list Document -> list jstring -> Store -> outcome () * Store.
Variable parseResume : jstring -> option Resume.
Variable JSON_stringify : JsValue -> jstring.
Variable uuidv4 : nat -> jstring.

(** The [file] entry of the form: its name, its type, and the result of
    [file.arrayBuffer()]. *)
Record UploadedFile : Type := {
  file_name : jstring;
  file_type : jstring;
  arrayBuffer : outcome Buffer }.

(** The vector store with the files written so far ([mkdir] is not
    recorded: the route ignores its failure). *)
Record Server : Type := {
  world : World Store;
  writtenFiles : list (jstring * Buffer) }.

(** The inner [try]: the cleaned text of the buffer, or the placeholder. *)
Definition extractText (file : UploadedFile) (buffer : Buffer) : jstring :=
  match toUtf8 buffer with
  | Some rawText => cleanControl rawText
  | None => placeholderText (file_name file)
  end.

Definition badRequest (error : string) : Response :=
  {| status := 400; body := ErrorBody (js error) None |}.

(** The outer [catch], for a thrown [Error]. *)
Definition failed (message : jstring) : Response :=
  {| status := 500; body := ErrorBody (js "Failed to process resume") (Some message) |}.

(** [POST(request)]: [form] is the result of [request.formData()] followed
    by [get("file")], [requestTime] the route's own
    [new Date().toISOString()]. *)
Definition POST (amb : Ambient) (requestTime : jstring)
    (form : outcome (option UploadedFile)) (s : Server) : Response * Server :=
  match form with
  | Thrown e => (failed e, s)
  | Returned None => (badRequest "No file provided", s)
  | Returned (Some file) =>
      if negb (bool_decide (file_type file = PDF_TYPE)) then
        (badRequest "Only PDF files are supported", s)
      else
        match arrayBuffer file with
        | Thrown e => (failed e, s)
        | Returned buffer =>
            let resumeText := extractText file buffer in
            if negb (truthy (trim resumeText)) then
              (badRequest "Could not extract text from PDF", s)
            else
              let uploadMetadata : Metadata :=
                <["uploadedAt" := JStr requestTime]>
                (<["fileName" := JStr (file_name file)]> ∅) in
              match ResumeActions.addResume Store addDocuments parseResume
                      JSON_stringify uuidv4 amb resumeText (Some uploadMetadata) (world s) with
              | (Thrown e, w') =>
                  (failed e, {| world := w'; writtenFiles := writtenFiles s |})
              | (Returned resume, w') =>
                  let name := template String_other (id resume) ++ js ".pdf" in
                  let filePath := pathJoin resumesDir name in
                  match writeFile filePath buffer with
                  | Thrown e =>
                      (failed e, {| world := w'; writtenFiles := writtenFiles s |})
                  | Returned _ =>
                      ({| status := 200;
                          body :=
                            SuccessBody (id resume) (file_name file)
                              (if truthyValue (prop (cmetadata resume) "parsedData")
                               then inl (prop (cmetadata resume) "parsedData")
                               else inr (cmetadata resume))
                              (cmetadata resume)
                              (js "/resumes/" ++ template String_other (id resume)
                               ++ js ".pdf") |},
                       {| world := w';
                          writtenFiles := writtenFiles s ++ [(filePath, buffer)] |})
                  end
              end
        end
  end.

End Upload.

End UploadRoute.

(* ===================================================================== *)
(** * More sample inputs *)
(* ===================================================================== *)

Module MoreSamples.

Import ResumeActions Route Samples UploadRoute.

(** The metadata the upload route passes to [addResume]. *)
Definition uploadMetadata : Metadata :=
  {[ "fileName" := JStr (js "jane-doe.pdf");
     "uploadedAt" := JStr (js "1999-12-31T23:59:59.000Z") ]}.

(** A store that holds one chunk, with no summary in its metadata. *)
Definition storedChunk : Document :=
  {| pageContent := js "{'personalInformation':{'name':'Jane Doe'}}";
     metadata := {[ "id" := JStr (js "resume-1"); "name" := JStr (js "Jane Doe") ]} |}.

Definition oneChunkWorld : World (list Document) :=
  {| vectorStore := [storedChunk]; addVectorsCalls := [] |}.

(** Criteria whose only content is a minimum of zero years, and a language
    model that parses every query to them. *)
Definition zeroYears : SearchCriteria :=
  {| criteria_position := None;
     criteria_skills := None;
     criteria_experience :=
       Some {| minYears := Some 0%float; maxYears := None;
               companies := None; industries := None |};
     criteria_education := None;
     criteria_location := None;
     criteria_softSkills := None |}.

Definition alwaysZeroYears : jstring -> option SearchCriteria :=
  fun _ => Some zeroYears.

(** Uploads whose bytes are their text, a file system that accepts every
    write, and a server that holds nothing yet. *)
Definition readable : jstring -> option jstring := Some.
Definition writeAlways : jstring -> jstring -> outcome () := fun _ _ => Returned ().
Definition slashJoin (directory name : jstring) : jstring :=
  directory ++ js "/" ++ name.
Definition publicResumes : jstring := js "/app/public/resumes".
Definition printUndefined : JsValue -> jstring := fun _ => js "undefined".

Definition emptyServer : Server jstring (list Document) :=
  {| world := emptyWorld; writtenFiles := [] |}.


Definition textUpload : UploadedFile jstring :=
  {| file_name := js "jane-doe.txt";
     file_type := js "text/plain";
     arrayBuffer := Returned (js "Jane Doe, engineer") |}.

(** The upload route over these. *)
Definition upload (form : outcome (option (UploadedFile jstring)))
    : Response * Server jstring (list Document) :=
  POST jstring readable writeAlways slashJoin publicResumes printUndefined
       (list Document) listAddDocuments noResume fixedJson fixedUuid
       ambient (js "2025-01-01T00:00:00.000Z") form emptyServer.

(** A retrieval whose second resume has a number as stored summary. *)
Definition numberedSummary : ResumeData :=
  {| id := JStr (js "r2");
     document := js "{}";
     cmetadata := {[ "name" := JStr (js "r2"); "summary" := JNum 7%float ]} |}.

Definition oneUnreadable : jstring -> float -> outcome (list ResumeData) :=
  fun _ _ => Returned [retrieved "r1" "5 years of experience"; numberedSummary].

End MoreSamples.

(* ===================================================================== *)
(** * Properties *)
(* ===================================================================== *)

Import Chunker Extraction.


(** ** Lengths of the string operations *)

Lemma len_nonneg (s : jstring) : 0 <= len s.
Proof. unfold len. lia. Qed.

Lemma length_trimStart (s : jstring) : (length (trimStart s) <= length s)%nat.
Proof.
  induction s as [|c s IH]; simpl; [lia|].
  destruct (isWhiteSpace c); simpl; lia.
Qed.

Lemma length_trim (s : jstring) : (length (trim s) <= length s)%nat.
Proof.
  unfold trim, trimEnd. rewrite length_reverse.
  etransitivity; [apply length_trimStart|].
  rewrite length_reverse. apply length_trimStart.
Qed.

Lemma trimStart_nil_iff (s : jstring) :
  trimStart s = [] <-> Forall (fun c => isWhiteSpace c = true) s.
Proof.
  induction s as [|c s IH]; simpl.
  - split; auto.
  - destruct (isWhiteSpace c) eqn:E.
    + rewrite IH. split; [intros H; constructor; auto | intros H; inversion H; auto].
    + split; [discriminate | intros H; inversion H; congruence].
Qed.

Lemma length_substring (s : jstring) (a b : Z) :
  len (substring s a b) <= Z.abs (Z.min (Z.max b 0) (len s) - Z.min (Z.max a 0) (len s)).
Proof.
  unfold substring, len. rewrite length_take. lia.
Qed.

Lemma length_substring_prefix (s : jstring) (k : Z) :
  0 <= k -> len (substring s 0 k) <= k.
Proof.
  intros Hk. pose proof (length_substring s 0 k) as H.
  pose proof (len_nonneg s). lia.
Qed.

Lemma substring_prefix_take (s : jstring) (k : Z) :
  0 <= k -> substring s 0 k = take (Z.to_nat k) s.
Proof.
  intros Hk. unfold substring. pose proof (len_nonneg s) as Hs.
  replace (Z.min (Z.max 0 0) (len s)) with 0 by lia.
  replace (Z.min 0 (Z.min (Z.max k 0) (len s))) with 0 by lia.
  replace (Z.max 0 (Z.min (Z.max k 0) (len s)) - 0) with (Z.min k (len s)) by lia.
  simpl. unfold len. rewrite Z2Nat.inj_min, Nat2Z.id.
  destruct (Nat.le_ge_cases (Z.to_nat k) (length s)) as [Hle|Hge].
  - by rewrite Nat.min_l.
  - rewrite Nat.min_r by done. by rewrite !take_ge.
Qed.

Lemma length_join_app (sep : jstring) (l1 l2 : list jstring) :
  (length (join sep (l1 ++ l2))
   <= length (join sep l1) + length sep + length (join sep l2))%nat.
Proof.
  induction l1 as [|p l1 IH]; [simpl; lia|].
  destruct l1 as [|q l1].
  - destruct l2 as [|r l2]; [simpl; lia|].
    change (join sep (([p] ++ r :: l2))) with (p ++ sep ++ join sep (r :: l2)).
    rewrite !length_app. simpl. lia.
  - change (join sep ((p :: q :: l1) ++ l2)) with (p ++ sep ++ join sep ((q :: l1) ++ l2)).
    change (join sep (p :: q :: l1)) with (p ++ sep ++ join sep (q :: l1)).
    rewrite !length_app. cbn [app] in *. lia.
Qed.

(** ** The chunker *)

Lemma chunkStep_start (text : jstring) (maxChunkSize overlap start : Z)
    (chunks : list jstring) :
  (chunkStep text maxChunkSize overlap (start, chunks)).1
  = Z.max (start + 1) (chunkEnd text maxChunkSize start - overlap).
Proof. reflexivity. Qed.

Lemma chunkLoop_enough_fuel (text : jstring) (maxChunkSize overlap : Z) :
  forall (fuel : nat) (st : Z * list jstring),
    len text - st.1 <= Z.of_nat fuel ->
    exists chunks, chunkLoop fuel text maxChunkSize overlap st = Some chunks.
Proof.
  induction fuel as [|fuel IH]; intros [start chunks] Hfuel;
    cbn [chunkLoop fst snd] in *.
  - destruct (start <? len text) eqn:E; [apply Z.ltb_lt in E; lia | eauto].
  - destruct (start <? len text) eqn:E; [|eauto].
    apply Z.ltb_lt in E.
    apply IH. rewrite chunkStep_start. lia.
Qed.

Lemma chunkLoop_fuel_irrelevant (text : jstring) (maxChunkSize overlap : Z) :
  forall (fuel1 fuel2 : nat) (st : Z * list jstring) (c1 c2 : list jstring),
    chunkLoop fuel1 text maxChunkSize overlap st = Some c1 ->
    chunkLoop fuel2 text maxChunkSize overlap st = Some c2 ->
    c1 = c2.
Proof.
  induction fuel1 as [|fuel1 IH]; intros fuel2 st c1 c2 H1 H2.
  - simpl in H1. destruct (st.1 <? len text) eqn:E; [discriminate|].
    destruct fuel2; simpl in H2; rewrite E in H2; congruence.
  - simpl in H1. destruct (st.1 <? len text) eqn:E.
    + destruct fuel2; simpl in H2; rewrite E in H2; [discriminate|].
      eapply IH; eauto.
    + destruct fuel2; simpl in H2; rewrite E in H2; congruence.
Qed.

Lemma chunkTextFuel_enough (text : jstring) (maxChunkSize overlap : Z) (fuel : nat) :
  (length text <= fuel)%nat ->
  exists chunks, chunkTextFuel fuel text maxChunkSize overlap = Some chunks.
Proof.
  intros Hfuel. unfold chunkTextFuel.
  destruct (negb (truthy text) || (len text <=? maxChunkSize)); [eauto|].
  apply chunkLoop_enough_fuel. unfold len. simpl. lia.
Qed.

Lemma chunkText_total (text : jstring) (maxChunkSize overlap : Z) (fuel : nat) :
  (length text <= fuel)%nat ->
  chunkTextFuel fuel text maxChunkSize overlap
  = Some (chunkText text maxChunkSize overlap).
Proof.
  intros Hfuel.
  destruct (chunkTextFuel_enough text maxChunkSize overlap fuel Hfuel) as [c Hc].
  destruct (chunkTextFuel_enough text maxChunkSize overlap (length text) (le_n _)) as [c' Hc'].
  unfold chunkText. rewrite Hc, Hc'. f_equal.
  unfold chunkTextFuel in Hc, Hc'.
  destruct (negb (truthy text) || (len text <=? maxChunkSize)); [congruence|].
  eapply chunkLoop_fuel_irrelevant; eauto.
Qed.

Lemma truthy_nonempty (s : jstring) : truthy s = true <-> s <> [].
Proof. destruct s; simpl; split; congruence. Qed.

Lemma chunkStep_chunks_nonempty (text : jstring) (maxChunkSize overlap : Z)
    (st : Z * list jstring) :
  Forall (fun c => c <> []) st.2 ->
  Forall (fun c => c <> []) (chunkStep text maxChunkSize overlap st).2.
Proof.
  destruct st as [start chunks]. unfold chunkStep. simpl. intros H.
  destruct (truthy (trim (slice text start (chunkEnd text maxChunkSize start)))) eqn:E;
    [|exact H].
  apply Forall_app. split; [exact H|].
  constructor; [|constructor]. by apply truthy_nonempty.
Qed.

Lemma chunkLoop_chunks_nonempty (text : jstring) (maxChunkSize overlap : Z) :
  forall (fuel : nat) (st : Z * list jstring) (chunks : list jstring),
    Forall (fun c => c <> []) st.2 ->
    chunkLoop fuel text maxChunkSize overlap st = Some chunks ->
    Forall (fun c => c <> []) chunks.
Proof.
  induction fuel as [|fuel IH]; intros st chunks Hst Hloop; simpl in Hloop;
    destruct (st.1 <? len text); try discriminate.
  - congruence.
  - eapply IH; [|exact Hloop]. by apply chunkStep_chunks_nonempty.
  - congruence.
Qed.

(** C7, as amended.  For every non-empty text and every [maxChunkSize] and
    [overlap], every element of [chunkText(text, maxChunkSize, overlap)] is
    a non-empty string; and for the empty text the result is, for every
    [maxChunkSize] and [overlap], the one-element list holding the empty
    string. *)
Theorem chunkText_chunks_nonempty (text : jstring) (maxChunkSize overlap : Z) :
  (text <> [] ->
   Forall (fun chunk => chunk <> []) (chunkText text maxChunkSize overlap))
  /\ chunkText [] maxChunkSize overlap = [[]].
Proof.
  split; [|reflexivity].
  intros Htext.
  pose proof (chunkText_total text maxChunkSize overlap (length text) (le_n _)) as Htot.
  unfold chunkTextFuel in Htot.
  destruct (negb (truthy text) || (len text <=? maxChunkSize)).
  - injection Htot as <-. constructor; [exact Htext | constructor].
  - eapply chunkLoop_chunks_nonempty; [|exact Htot]. constructor.
Qed.

Lemma chunkText_chunks_nonempty_witness :
  js "One. Two? Three!" <> []
  /\ Forall (fun chunk => chunk <> []) (chunkText (js "One. Two? Three!") 6 2)
  /\ chunkText [] 6 2 = [[]].
Proof.
  assert (H : js "One. Two? Three!" <> []) by (vm_compute; discriminate).
  destruct (chunkText_chunks_nonempty (js "One. Two? Three!") 6 2) as [Hchunks Hempty].
  split; [exact H|]. split; [exact (Hchunks H) | exact Hempty].
Defined.

(** C7, as stated, fails on the empty text: the guard [!text] returns
    [[text]], a list whose only element is the empty string. *)
Lemma chunkText_empty_text :
  chunkText [] DEFAULT_MAX_CHUNK_SIZE DEFAULT_OVERLAP = [[]]
  /\ ~ (forall (text : jstring) (maxChunkSize overlap : Z),
          Forall (fun chunk => chunk <> []) (chunkText text maxChunkSize overlap)).
Proof.
  assert (E : chunkText [] DEFAULT_MAX_CHUNK_SIZE DEFAULT_OVERLAP = [[]])
    by reflexivity.
  split; [exact E|].
  intros H. specialize (H [] DEFAULT_MAX_CHUNK_SIZE DEFAULT_OVERLAP).
  rewrite E in H. apply Forall_cons in H as [Hne _]. by apply Hne.
Qed.

(** C8.  For every text, every [maxChunkSize >= 1] and every [overlap >= 0]
    (also [overlap >= maxChunkSize]), [chunkText] terminates: an iteration
    that starts at [start] continues at [max(start + 1, end - overlap)],
    at least one character further, so the loop exits within one iteration
    per character of the text and returns its chunks. *)
Theorem chunkText_terminates (text : jstring) (maxChunkSize overlap : Z) :
  1 <= maxChunkSize -> 0 <= overlap ->
  (forall (start : Z) (chunks : list jstring),
      let start' := (chunkStep text maxChunkSize overlap (start, chunks)).1 in
      start' = Z.max (start + 1) (chunkEnd text maxChunkSize start - overlap)
      /\ start + 1 <= start')
  /\ (forall fuel : nat, (length text <= fuel)%nat ->
        chunkTextFuel fuel text maxChunkSize overlap
        = Some (chunkText text maxChunkSize overlap)).
Proof.
  intros _ _. split.
  - intros start chunks. simpl. lia.
  - intros fuel Hfuel. by apply chunkText_total.
Qed.

Lemma chunkText_terminates_witness :
  1 <= 3 /\ 0 <= 5
  /\ chunkTextFuel (length (js "aaaaaaa")) (js "aaaaaaa") 3 5
     = Some (chunkText (js "aaaaaaa") 3 5).
Proof.
  split; [lia|]. split; [lia|].
  apply (chunkText_terminates (js "aaaaaaa") 3 5); [lia | lia | apply le_n].
Defined.

(** ** Section-aware extraction *)

Lemma length_js (s : string) : length (js s) = String.length s.
Proof. induction s; simpl; congruence. Qed.

Lemma searchFrom_range (r : regex) (s : jstring) :
  forall i : Z, searchFrom r s i = -1 \/ i <= searchFrom r s i.
Proof.
  induction s as [|c s IH]; intros i; cbn [searchFrom].
  - destruct (matchesPrefix r []); [right; lia | left; reflexivity].
  - destruct (matchesPrefix r (c :: s)); [right; lia|].
    destruct (IH (i + 1)) as [H|H]; [left; exact H | right; lia].
Qed.

Lemma search_found_nonneg (r : regex) (s : jstring) :
  search r s <> -1 -> 0 <= search r s.
Proof. intros H. destruct (searchFrom_range r s 0) as [E|E]; [contradiction | exact E]. Qed.

Lemma len_extractSection (content : jstring) (start maxLength : Z) :
  0 <= start -> 0 <= maxLength ->
  len (extractSection content start maxLength) <= maxLength.
Proof.
  intros Hs Hm. unfold extractSection.
  pose proof (length_trim (substring content start (Z.min (start + maxLength) (len content)))) as Ht.
  pose proof (length_substring content start (Z.min (start + maxLength) (len content))) as Hsub.
  pose proof (len_nonneg content) as Hc. unfold len in *.
  set (window := substring _ _ _) in *. clearbody window.
  set (trimmed := length (trim window)) in *. clearbody trimmed.
  set (total := length content) in *. clearbody total. lia.
Qed.

Lemma len_sectionByPatterns (patterns : list regex) (content section : jstring)
    (maxLength : Z) :
  0 <= maxLength ->
  sectionByPatterns patterns content maxLength = Some section ->
  len section <= maxLength.
Proof.
  intros Hm. induction patterns as [|p ps IH]; simpl; [discriminate|].
  destruct (search p content =? -1) eqn:E; simpl; [exact IH|].
  intros [= <-]. apply len_extractSection; [|exact Hm].
  apply search_found_nonneg. by apply Z.eqb_neq.
Qed.

Lemma len_extractEducationSection (content : jstring) :
  len (extractEducationSection content) <= 3000.
Proof.
  unfold extractEducationSection.
  destruct (sectionByPatterns educationPatterns content 3000) as [sec|] eqn:E.
  - eapply len_sectionByPatterns; [|exact E]. lia.
  - unfold len. simpl. lia.
Qed.

Lemma len_extractSkillsSection (content : jstring) :
  len (extractSkillsSection content) <= 3000.
Proof.
  unfold extractSkillsSection.
  destruct (sectionByPatterns skillsPatterns content 3000) as [sec|] eqn:E.
  - eapply len_sectionByPatterns; [|exact E]. lia.
  - unfold len. simpl. lia.
Qed.

Lemma len_extractExperienceSection (content : jstring) :
  len (extractExperienceSection content) <= 4000.
Proof.
  unfold extractExperienceSection.
  destruct (sectionByPatterns experiencePatterns content 4000) as [sec|] eqn:E.
  - eapply len_sectionByPatterns; [|exact E]. lia.
  - destruct (negb (search datePattern content =? -1)).
    + apply len_extractSection; lia.
    + unfold len. simpl. lia.
Qed.

Lemma len_join_pushSection (section : jstring) (header : string) (body : jstring) :
  len (join NEWLINES (pushSection section header body))
  <= Z.of_nat (String.length header) + 2 + len body.
Proof.
  unfold pushSection, len. destruct (truthy section); simpl.
  - rewrite length_app, length_js. simpl. lia.
  - lia.
Qed.

Lemma len_sectionsOf (cleanedContent : jstring) :
  len (join NEWLINES (sectionsOf cleanedContent)) <= 8096.
Proof.
  unfold sectionsOf.
  pose proof (length_join_app NEWLINES (personalInfoPart cleanedContent)
                (experiencePart cleanedContent ++ educationPart cleanedContent
                 ++ skillsPart cleanedContent)) as H1.
  pose proof (length_join_app NEWLINES (experiencePart cleanedContent)
                (educationPart cleanedContent ++ skillsPart cleanedContent)) as H2.
  pose proof (length_join_app NEWLINES (educationPart cleanedContent)
                (skillsPart cleanedContent)) as H3.
  pose proof (len_join_pushSection (extractSection cleanedContent 0 1000)
                "=== PERSONAL INFORMATION ===" (extractSection cleanedContent 0 1000)) as P1.
  pose proof (len_join_pushSection (extractExperienceSection cleanedContent)
                "=== WORK EXPERIENCE ==="
                (substring (extractExperienceSection cleanedContent) 0 5000)) as P2.
  pose proof (len_join_pushSection (extractEducationSection cleanedContent)
                "=== EDUCATION ==="
                (substring (extractEducationSection cleanedContent) 0 1500)) as P3.
  pose proof (len_join_pushSection (extractSkillsSection cleanedContent)
                "=== SKILLS ==="
                (substring (extractSkillsSection cleanedContent) 0 1500)) as P4.
  pose proof (len_extractSection cleanedContent 0 1000 ltac:(lia) ltac:(lia)) as B1.
  pose proof (length_substring (extractExperienceSection cleanedContent) 0 5000) as B2.
  pose proof (len_extractExperienceSection cleanedContent) as B2'.
  pose proof (len_nonneg (extractExperienceSection cleanedContent)) as B2''.
  pose proof (length_substring_prefix (extractEducationSection cleanedContent) 1500 ltac:(lia)) as B3.
  pose proof (length_substring_prefix (extractSkillsSection cleanedContent) 1500 ltac:(lia)) as B4.
  fold (personalInfoPart cleanedContent) in P1.
  fold (experiencePart cleanedContent) in P2.
  fold (educationPart cleanedContent) in P3.
  fold (skillsPart cleanedContent) in P4.
  simpl String.length in *. unfold len in *. simpl (length NEWLINES) in *. lia.
Qed.

Lemma extractKeySections_join (cleanedContent : jstring) :
  extractKeySections cleanedContent = join NEWLINES (sectionsOf cleanedContent).
Proof.
  unfold extractKeySections.
  pose proof (len_sectionsOf cleanedContent) as H.
  destruct (maxChars <? len (join NEWLINES (sectionsOf cleanedContent))) eqn:E;
    [|reflexivity].
  apply Z.ltb_lt in E. unfold maxChars, maxTokens, avgCharsPerToken in E. lia.
Qed.

Lemma len_extractResumeContent (content : jstring) :
  len (extractResumeContent content) <= maxChars.
Proof.
  unfold extractResumeContent.
  destruct (len content <=? maxChars) eqn:E1; [by apply Z.leb_le|].
  destruct (maxChars <? len (cleanPdfArtifacts content)) eqn:E2;
    [|by apply Z.ltb_ge].
  unfold extractKeySections.
  match goal with |- context [maxChars <? len ?c] =>
    destruct (maxChars <? len c) eqn:E3; [|by apply Z.ltb_ge] end.
  match goal with |- len (substring ?c 0 ?k ++ _) <= _ =>
    pose proof (length_substring_prefix c k) as H end.
  unfold len in *. rewrite length_app.
  unfold maxChars, maxTokens, avgCharsPerToken in *.
  change (length TRUNCATION_MARKER) with 39%nat. lia.
Qed.

(** C10, as amended.  For every input string the output of
    [extractResumeContent] has at most 160,000 characters.  A text longer
    than that is cleaned first, and the section-aware extraction is taken
    exactly when the cleaned form still exceeds the ceiling: the output is
    then the extracted sections joined by blank lines, of at most 8,096
    characters; when the cleaned form is within the ceiling, the output is
    the cleaned form, and no section is extracted. *)
Theorem extractResumeContent_within_ceiling (content : jstring) :
  len (extractResumeContent content) <= 160000
  /\ (maxChars < len content ->
      maxChars < len (cleanPdfArtifacts content) ->
      extractResumeContent content
      = join NEWLINES (sectionsOf (cleanPdfArtifacts content))
      /\ len (extractResumeContent content) <= 8096)
  /\ (maxChars < len content ->
      len (cleanPdfArtifacts content) <= maxChars ->
      extractResumeContent content = cleanPdfArtifacts content).
Proof.
  split; [exact (len_extractResumeContent content)|]. split.
  - intros H1 H2.
    assert (E : extractResumeContent content
                = join NEWLINES (sectionsOf (cleanPdfArtifacts content))).
    { unfold extractResumeContent.
      apply Z.leb_gt in H1. rewrite H1.
      apply Z.ltb_lt in H2. rewrite H2.
      apply extractKeySections_join. }
    split; [exact E|]. rewrite E. apply len_sectionsOf.
  - intros H1 H2. unfold extractResumeContent.
    apply Z.leb_gt in H1. rewrite H1.
    apply Z.ltb_ge in H2. by rewrite H2.
Qed.

Lemma resume300k_reduced :
  len Samples.resume300k = 300000
  /\ maxChars < len Samples.resume300k
  /\ maxChars < len (cleanPdfArtifacts Samples.resume300k)
  /\ extractResumeContent Samples.resume300k
     = join NEWLINES (sectionsOf (cleanPdfArtifacts Samples.resume300k))
  /\ len (extractResumeContent Samples.resume300k) <= 8096.
Proof.
  assert (H0 : len Samples.resume300k = 300000) by (vm_compute; reflexivity).
  assert (H1 : maxChars < len Samples.resume300k) by (vm_compute; reflexivity).
  assert (H2 : maxChars < len (cleanPdfArtifacts Samples.resume300k))
    by (vm_compute; reflexivity).
  split; [exact H0|]. split; [exact H1|]. split; [exact H2|].
  exact (proj1 (proj2 (extractResumeContent_within_ceiling Samples.resume300k)) H1 H2).
Defined.

Lemma letters300k_run :
  (len Samples.letters300k =? 300000)
  && bool_decide (cleanPdfArtifacts Samples.letters300k = js "aaa")
  && bool_decide (extractResumeContent Samples.letters300k = js "aaa")
  && (len (join NEWLINES (sectionsOf (cleanPdfArtifacts Samples.letters300k))) =? 33)
  = true.
Proof. vm_compute. reflexivity. Qed.

(** C10, as stated, fails on a text of 300,000 characters whose cleaned
    form is short: 300,000 times the letter [a] is cleaned to [aaa], which
    is returned as it is; no section is extracted (the section-aware
    reduction of [aaa] would put a header before it). *)
Lemma letters300k_counterexample :
  len Samples.letters300k = 300000
  /\ cleanPdfArtifacts Samples.letters300k = js "aaa"
  /\ extractResumeContent Samples.letters300k = js "aaa"
  /\ extractResumeContent Samples.letters300k
     <> join NEWLINES (sectionsOf (cleanPdfArtifacts Samples.letters300k))
  /\ ~ (forall content : jstring,
          len content = 300000 ->
          extractResumeContent content
          = join NEWLINES (sectionsOf (cleanPdfArtifacts content))).
Proof.
  pose proof letters300k_run as Hrun.
  apply andb_prop in Hrun as [Hrun Hsections].
  apply andb_prop in Hrun as [Hrun Hout].
  apply andb_prop in Hrun as [Hrun Hclean].
  apply Z.eqb_eq in Hrun. apply Z.eqb_eq in Hsections.
  apply bool_decide_eq_true_1 in Hout. apply bool_decide_eq_true_1 in Hclean.
  assert (Hne : extractResumeContent Samples.letters300k
                <> join NEWLINES (sectionsOf (cleanPdfArtifacts Samples.letters300k))).
  { intros E. rewrite <- E, Hout in Hsections. discriminate Hsections. }
  split; [exact Hrun|]. split; [exact Hclean|]. split; [exact Hout|].
  split; [exact Hne|].
  intros Hall. exact (Hne (Hall _ Hrun)).
Qed.

Lemma pushSection_take (section : jstring) (header : string) (k : Z) :
  0 <= k ->
  pushSection section header (substring section 0 k)
  = if truthy section then [js header; take (Z.to_nat k) section] else [].
Proof.
  intros Hk. unfold pushSection. by rewrite substring_prefix_take.
Qed.

(** C6, as amended.  During section-aware extraction the education section
    and the skills section are each located as a window of at most 3,000
    characters, and the first 1,500 characters of that window (all of it
    when it is shorter) are what the reduced content includes. *)
Theorem section_caps (content : jstring) :
  maxChars < len content ->
  maxChars < len (cleanPdfArtifacts content) ->
  let cleaned := cleanPdfArtifacts content in
  let educationSection := extractEducationSection cleaned in
  let skillsSection := extractSkillsSection cleaned in
  extractResumeContent content
  = join NEWLINES (personalInfoPart cleaned ++ experiencePart cleaned
                   ++ educationPart cleaned ++ skillsPart cleaned)
  /\ educationPart cleaned
     = (if truthy educationSection
        then [js "=== EDUCATION ==="; take 1500 educationSection] else [])
  /\ skillsPart cleaned
     = (if truthy skillsSection
        then [js "=== SKILLS ==="; take 1500 skillsSection] else [])
  /\ len educationSection <= 3000
  /\ len skillsSection <= 3000.
Proof.
  intros H1 H2 cleaned educationSection skillsSection.
  split.
  { unfold extractResumeContent.
    apply Z.leb_gt in H1. rewrite H1.
    apply Z.ltb_lt in H2. rewrite H2.
    apply extractKeySections_join. }
  split; [apply (pushSection_take _ _ 1500); lia|].
  split; [apply (pushSection_take _ _ 1500); lia|].
  split; [apply len_extractEducationSection | apply len_extractSkillsSection].
Qed.

Lemma section_caps_witness :
  maxChars < len Samples.resume300k
  /\ maxChars < len (cleanPdfArtifacts Samples.resume300k)
  /\ educationPart (cleanPdfArtifacts Samples.resume300k)
     = (if truthy (extractEducationSection (cleanPdfArtifacts Samples.resume300k))
        then [js "=== EDUCATION ===";
              take 1500 (extractEducationSection (cleanPdfArtifacts Samples.resume300k))]
        else []).
Proof.
  assert (H1 : maxChars < len Samples.resume300k) by (vm_compute; reflexivity).
  assert (H2 : maxChars < len (cleanPdfArtifacts Samples.resume300k))
    by (vm_compute; reflexivity).
  split; [exact H1|]. split; [exact H2|].
  exact (proj1 (proj2 (section_caps Samples.resume300k H1 H2))).
Defined.

Lemma educationHeavy_run :
  ((maxChars <? len Samples.educationHeavy)
   && (maxChars <? len (cleanPdfArtifacts Samples.educationHeavy))
   && (len (extractEducationSection (cleanPdfArtifacts Samples.educationHeavy)) =? 3000)
   && (len (extractResumeContent Samples.educationHeavy) =? 2550)) = true.
Proof. vm_compute. reflexivity. Qed.

Lemma too_short_to_include (output section : jstring) :
  len section = 3000 -> len output = 2550 ->
  ~ (exists before after : jstring, output = before ++ take 3000 section ++ after).
Proof.
  intros Hs Ho (before & after & Heq).
  apply (f_equal len) in Heq. rewrite Ho in Heq.
  unfold len in Heq, Hs. rewrite !length_app, length_take in Heq. lia.
Qed.

(** C6, as stated, fails: on a text whose education window holds 3,000
    characters the whole reduced content has 2,550 characters (the
    education block contributes 1,500), so 3,000 characters of the section
    cannot appear in it. *)
Lemma education_cap_counterexample :
  maxChars < len Samples.educationHeavy
  /\ maxChars < len (cleanPdfArtifacts Samples.educationHeavy)
  /\ len (extractEducationSection (cleanPdfArtifacts Samples.educationHeavy)) = 3000
  /\ len (extractResumeContent Samples.educationHeavy) = 2550
  /\ ~ (exists before after : jstring,
          extractResumeContent Samples.educationHeavy
          = before ++ take 3000 (extractEducationSection
                                   (cleanPdfArtifacts Samples.educationHeavy))
            ++ after).
Proof.
  pose proof educationHeavy_run as E.
  apply andb_prop in E as [E E4]. apply andb_prop in E as [E E3].
  apply andb_prop in E as [E1 E2].
  apply Z.ltb_lt in E1. apply Z.ltb_lt in E2.
  apply Z.eqb_eq in E3. apply Z.eqb_eq in E4.
  split; [exact E1|]. split; [exact E2|]. split; [exact E3|]. split; [exact E4|].
  exact (too_short_to_include _ _ E3 E4).
Qed.

(** ** [Promise.all] *)

Import Route.

Section PromiseAll.

Context {A : Type}.
Implicit Types (tasks : list (outcome A)) (completion : list nat).
Implicit Types (st : list (option A) * option jstring).

Lemma settle_faithful tasks st (i : nat) :
  slotsFaithful tasks st -> slotsFaithful tasks (settle tasks st i).
Proof.
  intros [Hlen Hslots]. unfold settle, slotsFaithful.
  destruct (tasks !! i) as [[a|e]|] eqn:Ei; simpl; [|by split|by split].
  split; [by rewrite length_insert|].
  intros j b Hj. destruct (decide (i = j)) as [->|Hne].
  - rewrite list_lookup_insert_eq in Hj; [congruence|].
    rewrite Hlen. by eapply lookup_lt_Some.
  - rewrite list_lookup_insert_ne in Hj by done. by apply Hslots.
Qed.

Lemma fold_settle_faithful tasks completion :
  forall st, slotsFaithful tasks st ->
             slotsFaithful tasks (fold_left (settle tasks) completion st).
Proof.
  induction completion as [|i completion IH]; intros st Hst; simpl; [done|].
  apply IH. by apply settle_faithful.
Qed.

Lemma mapM_slots (slots : list (option A)) (values : list A) :
  mapM (fun slot => slot) slots = Some values -> slots = Some <$> values.
Proof.
  intros H. apply mapM_Some in H.
  induction H as [|slot v slots values Hv _ IH]; [done|].
  simpl. by rewrite Hv, IH.
Qed.

(** Whatever the completion order, the values [Promise.all] resolves to
    are the values of the tasks, index by index. *)
Lemma promiseAll_by_index tasks completion (values : list A) :
  promiseAll tasks completion = Some (Returned values) ->
  tasks = Returned <$> values.
Proof.
  unfold promiseAll. intros H.
  destruct (fold_settle_faithful tasks completion (replicate (length tasks) None, None))
    as [Hlen Hslots].
  { split; simpl; [by rewrite length_replicate|].
    intros i a Hi. apply lookup_replicate in Hi as [? _]. done. }
  destruct (fold_left (settle tasks) completion (replicate (length tasks) None, None))
    as [slots rejected]; simpl in *.
  destruct rejected; [discriminate|].
  destruct (mapM (fun slot => slot) slots) as [vs|] eqn:Em; [|discriminate].
  injection H as ->. apply mapM_slots in Em. subst slots.
  rewrite length_fmap in Hlen.
  apply list_eq. intros i. rewrite list_lookup_fmap.
  destruct (values !! i) as [a|] eqn:Ei; simpl.
  - apply Hslots. by rewrite list_lookup_fmap, Ei.
  - apply lookup_ge_None. apply lookup_ge_None in Ei. lia.
Qed.

Lemma fold_settle_filled (values : list A) completion :
  forall (settled : list nat) st,
    slotsFilled values settled st ->
    slotsFilled values (settled ++ completion)
                (fold_left (settle (Returned <$> values)) completion st).
Proof.
  induction completion as [|i completion IH]; intros settled st Hst; simpl.
  - by rewrite app_nil_r.
  - replace (settled ++ i :: completion) with ((settled ++ [i]) ++ completion)
      by (by rewrite <- app_assoc).
    apply IH. destruct Hst as (Hlen & Hrej & Hsound & Hfilled).
    unfold settle, slotsFilled. rewrite list_lookup_fmap.
    destruct (values !! i) as [a|] eqn:Ei; simpl.
    + split; [by rewrite length_insert|]. split; [done|]. split.
      * intros j b Hj. destruct (decide (i = j)) as [->|Hne].
        -- rewrite list_lookup_insert_eq in Hj; [congruence|].
           rewrite Hlen. by eapply lookup_lt_Some.
        -- rewrite list_lookup_insert_ne in Hj by done. by apply Hsound.
      * intros j b Hj Hb. destruct (decide (i = j)) as [->|Hne].
        -- rewrite list_lookup_insert_eq; [congruence|].
           rewrite Hlen. by eapply lookup_lt_Some.
        -- rewrite list_lookup_insert_ne by done. apply Hfilled; [|done].
           apply elem_of_app in Hj as [Hj|Hj]; [done|].
           apply list_elem_of_singleton in Hj. congruence.
    + split; [done|]. split; [done|]. split; [done|].
      intros j b Hj Hb. apply elem_of_app in Hj as [Hj|Hj]; [by apply Hfilled|].
      apply list_elem_of_singleton in Hj. congruence.
Qed.

(** When every task is fulfilled and every task settles, [Promise.all]
    resolves, to the values in task order. *)
Lemma promiseAll_fulfilled (values : list A) completion :
  completion ≡ₚ seq 0 (length values) ->
  promiseAll (Returned <$> values) completion = Some (Returned values).
Proof.
  intros Hperm. unfold promiseAll.
  destruct (fold_settle_filled values completion []
              (replicate (length (Returned <$> values)) None, None))
    as (Hlen & Hrej & Hsound & Hfilled).
  { split; simpl; [by rewrite length_replicate, length_fmap|].
    split; [done|]. split.
    - intros i a Hi. apply lookup_replicate in Hi as [? _]. done.
    - intros i a Hi. by apply elem_of_nil in Hi. }
  simpl in Hfilled.
  destruct (fold_left (settle (Returned <$> values)) completion
              (replicate (length (Returned <$> values)) None, None))
    as [slots rejected]; simpl in *.
  subst rejected.
  assert (Hslots : slots = Some <$> values).
  { apply list_eq. intros i. rewrite list_lookup_fmap.
    destruct (values !! i) as [a|] eqn:Ei; simpl.
    - apply Hfilled; [|done]. rewrite Hperm. apply elem_of_seq.
      apply lookup_lt_Some in Ei. lia.
    - apply lookup_ge_None. apply lookup_ge_None in Ei. lia. }
  subst slots.
  assert (Hm : mapM (fun slot : option A => slot) (Some <$> values) = Some values).
  { apply mapM_Some. clear. induction values; constructor; auto. }
  by rewrite Hm.
Qed.

End PromiseAll.

(** ** The match scorer and the search tool *)

Section ToolProperties.

Variable generateCriteria : jstring -> option SearchCriteria.
Variable generateAnalysis :
  option SearchCriteria -> JsValue -> jstring -> float -> option MatchAnalysis.
Variable JSON_parse : jstring -> option JsValue.
Variable Number_toString : float -> jstring.
Variable semanticSearchResumes : jstring -> float -> outcome (list ResumeData).

Local Abbreviation generateMatchAnalysis := (Route.generateMatchAnalysis generateAnalysis).
Local Abbreviation criteriaFor := (Route.criteriaFor generateCriteria).
Local Abbreviation searchQueryFor := (Route.searchQueryFor generateCriteria Number_toString).
Local Abbreviation scoreCandidate := (Route.scoreCandidate generateAnalysis JSON_parse).
Local Abbreviation searchResumes :=
  (Route.searchResumes generateCriteria generateAnalysis JSON_parse
                       Number_toString semanticSearchResumes).

(** C1.  When structured scoring fails for a candidate, the scorer returns,
    for every value of [semanticScore], the percentage
    [round(clamp(semanticScore * 100, 0, 100))], the generic explanation,
    and details with no category sub-score: only [keyStrengths] and
    [potentialConcerns]. *)
Theorem fallback_score_exact (criteria : option SearchCriteria)
    (resumeData : JsValue) (originalQuery : jstring) (semanticScore : float) :
  generateAnalysis criteria resumeData originalQuery semanticScore = None ->
  let analysis :=
    generateMatchAnalysis criteria resumeData originalQuery semanticScore in
  percentage analysis
  = Math_round (Spec.clamp (PrimFloat.mul semanticScore 100) 0 100)
  /\ explanation analysis
     = js "Match based on semantic similarity to your search criteria."
  /\ Spec.subScores (details analysis) = []
  /\ keyStrengths (details analysis) = [js "Semantic similarity to search query"]
  /\ potentialConcerns (details analysis) = [js "Detailed analysis unavailable"].
Proof.
  intros Hfail. unfold Route.generateMatchAnalysis. rewrite Hfail.
  repeat split.
Qed.

(** The enriched query has no part when the criteria are blank. *)
Lemma enhancedQueryParts_blank (c : SearchCriteria) :
  Spec.criteriaBlank c = true -> enhancedQueryParts Number_toString c = [].
Proof.
  unfold Spec.criteriaBlank, enhancedQueryParts. intros H.
  repeat (apply andb_prop in H as [H ?]).
  destruct (criteria_position c ≫= wanted_title) as [[|]|]; try discriminate;
  destruct (criteria_position c ≫= wanted_seniority); try discriminate;
  destruct (criteria_skills c) as [[|]|]; try discriminate;
  destruct (criteria_experience c ≫= minYears); try discriminate;
  destruct (criteria_experience c ≫= companies) as [[|]|]; try discriminate;
  destruct (criteria_education c ≫= wanted_degree) as [[|]|]; try discriminate;
  destruct (criteria_education c ≫= wanted_field) as [[|]|]; try discriminate;
  destruct (criteria_location c) as [[|]|]; try discriminate;
  destruct (criteria_softSkills c) as [[|]|]; try discriminate;
  reflexivity.
Qed.

(** C5.  For every query, if criteria parsing returns [null], or criteria
    in which every field used to build the enriched query is absent or
    empty, then the query passed to retrieval is the raw query, and so is
    the [query] the result reports. *)
Theorem blank_criteria_keep_raw_query (query : jstring)
    (useStructuredSearch : bool) :
  (parseSearchQuery generateCriteria query = None
   \/ exists c, parseSearchQuery generateCriteria query = Some c
                /\ Spec.criteriaBlank c = true) ->
  searchQueryFor query useStructuredSearch = query
  /\ forall (limit : float) (completion : list nat),
       searchResumes query limit useStructuredSearch completion
       = match semanticSearchResumes query limit with
         | Thrown e => Some (Thrown e)
         | Returned resumes =>
             match promiseAll (scoreCandidate (criteriaFor query useStructuredSearch)
                                              query <$> resumes) completion with
             | None => None
             | Some (Thrown e) => Some (Thrown e)
             | Some (Returned results) =>
                 Some (Returned
                   {| totalResults := Z.of_nat (length results);
                      averageConfidence := avgConfidence results;
                      query := query;
                      originalQuery := query;
                      parsedCriteria := criteriaFor query useStructuredSearch;
                      candidates := results |})
             end
         end.
Proof.
  intros Hparse.
  assert (Hq : searchQueryFor query useStructuredSearch = query).
  { unfold Route.searchQueryFor, Route.criteriaFor.
    destruct useStructuredSearch; [|reflexivity].
    destruct Hparse as [-> | (c & -> & Hblank)]; [reflexivity|].
    by rewrite enhancedQueryParts_blank. }
  split; [exact Hq|].
  intros limit completion. unfold Route.searchResumes. by rewrite Hq.
Qed.

(** A resume whose stored summary is a string, or nothing. *)
Lemma scoreCandidate_returned (criteria : option SearchCriteria)
    (query : jstring) (resume : ResumeData) (c : ScoredCandidate) :
  scoreCandidate criteria query resume = Returned c ->
  candidate_id c = id resume
  /\ content c = substring (document resume) 0 500 ++ js "...".
Proof.
  unfold Route.scoreCandidate.
  destruct (summaryField resume) as [summary|e]; [|discriminate].
  intros [= <-]. by split.
Qed.

Lemma scoreCandidate_readable (criteria : option SearchCriteria)
    (query : jstring) (resume : ResumeData) :
  (exists summary, summaryField resume = Returned summary) ->
  exists c, scoreCandidate criteria query resume = Returned c.
Proof.
  intros [summary Hs]. unfold Route.scoreCandidate. rewrite Hs. eauto.
Qed.

(** C3.  For every search invocation the candidates keep the order of
    retrieval: whatever the order in which the scoring tasks complete,
    [candidates[i]] is the record scored from the [i]-th retrieved resume
    (same id, content cut from its document), without any sorting; and the
    search does return such a result once every task has completed, when
    the stored summaries are strings (or missing). *)
Theorem candidates_keep_retrieval_order (query : jstring) (limit : float)
    (useStructuredSearch : bool) (completion : list nat)
    (resumes : list ResumeData) :
  semanticSearchResumes (searchQueryFor query useStructuredSearch) limit
  = Returned resumes ->
  (forall result : SearchResult,
      searchResumes query limit useStructuredSearch completion
      = Some (Returned result) ->
      length (candidates result) = length resumes
      /\ forall (i : nat) (resume : ResumeData),
           resumes !! i = Some resume ->
           exists c : ScoredCandidate,
             candidates result !! i = Some c
             /\ scoreCandidate (criteriaFor query useStructuredSearch) query resume
                = Returned c
             /\ candidate_id c = id resume
             /\ content c = substring (document resume) 0 500 ++ js "...")
  /\ (Forall (fun resume => exists summary, summaryField resume = Returned summary)
             resumes ->
      completion ≡ₚ seq 0 (length resumes) ->
      exists result : SearchResult,
        searchResumes query limit useStructuredSearch completion
        = Some (Returned result)).
Proof.
  intros Hret. unfold Route.searchResumes. rewrite Hret. split.
  - intros result Hres.
    destruct (promiseAll _ completion) as [[results|e]|] eqn:Hall;
      try discriminate.
    injection Hres as <-. simpl.
    apply promiseAll_by_index in Hall.
    split.
    + apply (f_equal length) in Hall. by rewrite !length_fmap in Hall.
    + intros i resume Hi.
      apply (f_equal (fun l => l !! i)) in Hall.
      rewrite !list_lookup_fmap, Hi in Hall. simpl in Hall.
      destruct (results !! i) as [c|] eqn:Hc; [|discriminate].
      simpl in Hall. injection Hall as Hscore.
      exists c. split; [done|]. split; [done|].
      by apply scoreCandidate_returned in Hscore.
  - intros Hreadable Hperm.
    assert (Hvalues : exists values : list ScoredCandidate,
               scoreCandidate (criteriaFor query useStructuredSearch) query <$> resumes
               = Returned <$> values).
    { clear Hret Hperm. induction Hreadable as [|resume rest Hr _ [values IH]].
      - by exists [].
      - destruct (scoreCandidate_readable (criteriaFor query useStructuredSearch)
                    query resume Hr) as [c Hc].
        exists (c :: values). by rewrite !fmap_cons, Hc, IH. }
    destruct Hvalues as [values Hvalues]. rewrite Hvalues.
    assert (Hlen : length values = length resumes).
    { apply (f_equal length) in Hvalues. by rewrite !length_fmap in Hvalues. }
    rewrite promiseAll_fulfilled by (by rewrite Hlen).
    eauto.
Qed.

Lemma fold_confidence (results : list ScoredCandidate) (start : float) :
  fold_left (fun sum r => PrimFloat.add sum (confidence r)) results start
  = fold_left PrimFloat.add (confidence <$> results) start.
Proof.
  revert start. induction results as [|r results IH]; intros start; simpl; [done|].
  apply IH.
Qed.

Lemma avgConfidence_roundedMean (results : list ScoredCandidate) :
  avgConfidence results = Spec.roundedMean (confidence <$> results).
Proof.
  unfold avgConfidence, Spec.roundedMean, Spec.mean.
  rewrite fold_confidence, length_fmap.
  by destruct results as [|r results].
Qed.

(** C4.  For every search invocation, [averageConfidence] is the
    integer-rounded mean of the confidences of all returned candidates, and
    [0] when there is no candidate. *)
Theorem averageConfidence_is_rounded_mean (query : jstring) (limit : float)
    (useStructuredSearch : bool) (completion : list nat) (result : SearchResult) :
  searchResumes query limit useStructuredSearch completion = Some (Returned result) ->
  averageConfidence result = Spec.roundedMean (confidence <$> candidates result)
  /\ (candidates result = [] -> averageConfidence result = PrimFloat.zero)
  /\ totalResults result = Z.of_nat (length (candidates result)).
Proof.
  unfold Route.searchResumes. intros Hres.
  destruct (semanticSearchResumes _ limit) as [resumes|e]; [|discriminate].
  destruct (promiseAll _ completion) as [[results|e]|]; try discriminate.
  injection Hres as <-. simpl.
  split; [apply avgConfidence_roundedMean|].
  split; [|reflexivity]. by intros ->.
Qed.

End ToolProperties.

Lemma fallback_score_exact_witness :
  Samples.noAnalysis None (JObj []) (js "react developer") 0x1.23d70a3d70a3dp-2%float
  = None
  /\ percentage (Route.generateMatchAnalysis Samples.noAnalysis None (JObj [])
                   (js "react developer") 0x1.23d70a3d70a3dp-2%float)
     = Math_round (Spec.clamp (PrimFloat.mul 0x1.23d70a3d70a3dp-2%float 100) 0 100).
Proof.
  split; [reflexivity|].
  exact (proj1 (fallback_score_exact Samples.noAnalysis None (JObj [])
                  (js "react developer") 0x1.23d70a3d70a3dp-2%float eq_refl)).
Defined.

(** The fallback on a few scores: [0.285] gives 28 (the product is
    28.499999999999996 in binary64), scores outside [0, 1] are clamped, and
    a score that is not a number stays so. *)
Example fallback_percentages :
  percentage (fallbackAnalysis 0x1.23d70a3d70a3dp-2%float) = 28%float
  /\ percentage (fallbackAnalysis 0x1.b333333333333p+0%float) = 100%float
  /\ percentage (fallbackAnalysis (-0x1.999999999999ap-3)%float) = 0%float
  /\ PrimFloat.is_nan (percentage (fallbackAnalysis PrimFloat.nan)) = true.
Proof. repeat split; vm_compute; reflexivity. Qed.

Lemma blank_criteria_keep_raw_query_witness :
  (parseSearchQuery Samples.alwaysBlank (js "someone good") = None
   \/ exists c, parseSearchQuery Samples.alwaysBlank (js "someone good") = Some c
                /\ Spec.criteriaBlank c = true)
  /\ Route.searchQueryFor Samples.alwaysBlank Samples.fixedNumber
       (js "someone good") true
     = js "someone good".
Proof.
  assert (H : parseSearchQuery Samples.alwaysBlank (js "someone good") = None
              \/ exists c, parseSearchQuery Samples.alwaysBlank (js "someone good") = Some c
                           /\ Spec.criteriaBlank c = true).
  { right. exists Samples.blankCriteria. split; reflexivity. }
  split; [exact H|].
  exact (proj1 (blank_criteria_keep_raw_query Samples.alwaysBlank Samples.noAnalysis
                  Samples.noJson Samples.fixedNumber Samples.threeRetrieved
                  (js "someone good") true H)).
Defined.

Lemma summaryOf_retrieved (n summary : string) :
  Route.summaryField (Samples.retrieved n summary) = Returned (Some (js summary)).
Proof. reflexivity. Qed.

Lemma candidates_keep_retrieval_order_witness :
  Samples.threeRetrieved
    (Route.searchQueryFor Samples.noCriteria Samples.fixedNumber
       (js "react developer") true) 5%float
  = Returned Samples.threeResumes
  /\ Forall (fun resume => exists summary, Route.summaryField resume = Returned summary)
            Samples.threeResumes
  /\ [2; 0; 1]%nat ≡ₚ seq 0 (length Samples.threeResumes)
  /\ exists result : SearchResult,
       Route.searchResumes Samples.noCriteria Samples.noAnalysis Samples.noJson
         Samples.fixedNumber Samples.threeRetrieved
         (js "react developer") 5%float true [2; 0; 1]%nat
       = Some (Returned result)
       /\ length (candidates result) = length Samples.threeResumes.
Proof.
  assert (Hret : Samples.threeRetrieved
                   (Route.searchQueryFor Samples.noCriteria Samples.fixedNumber
                      (js "react developer") true) 5%float
                 = Returned Samples.threeResumes) by reflexivity.
  assert (Hreadable : Forall (fun resume => exists summary,
                                  Route.summaryField resume = Returned summary)
                             Samples.threeResumes).
  { repeat constructor; eexists; apply summaryOf_retrieved. }
  assert (Hperm : [2; 0; 1]%nat ≡ₚ seq 0 (length Samples.threeResumes)).
  { exact (Permutation_cons_append [0; 1]%nat 2%nat). }
  split; [exact Hret|]. split; [exact Hreadable|]. split; [exact Hperm|].
  destruct (candidates_keep_retrieval_order Samples.noCriteria Samples.noAnalysis
              Samples.noJson Samples.fixedNumber Samples.threeRetrieved
              (js "react developer") 5%float true [2; 0; 1]%nat
              Samples.threeResumes Hret) as [Horder Hexists].
  destruct (Hexists Hreadable Hperm) as [result Hresult].
  exists result. split; [exact Hresult|].
  exact (proj1 (Horder result Hresult)).
Defined.

(** The same search, with the tasks completing in two different orders:
    the ids come out in retrieval order both times. *)
Example three_candidates_in_order :
  (fun r => candidate_id <$> candidates r)
    <$> (Route.searchResumes Samples.noCriteria Samples.noAnalysis Samples.noJson
           Samples.fixedNumber Samples.threeRetrieved
           (js "react developer") 5%float true [2; 0; 1]%nat
         ≫= (fun o => match o with Returned r => Some r | Thrown _ => None end))
  = Some [JStr (js "r1"); JStr (js "r2"); JStr (js "r3")]
  /\ Route.searchResumes Samples.noCriteria Samples.noAnalysis Samples.noJson
       Samples.fixedNumber Samples.threeRetrieved
       (js "react developer") 5%float true [2; 0; 1]%nat
     = Route.searchResumes Samples.noCriteria Samples.noAnalysis Samples.noJson
         Samples.fixedNumber Samples.threeRetrieved
         (js "react developer") 5%float true [0; 1; 2]%nat.
Proof. split; vm_compute; reflexivity. Qed.

Lemma averageConfidence_is_rounded_mean_witness :
  exists result : SearchResult,
    Route.searchResumes Samples.noCriteria Samples.noAnalysis Samples.noJson
      Samples.fixedNumber Samples.threeRetrieved
      (js "react developer") 5%float true [0; 1; 2]%nat
    = Some (Returned result)
    /\ averageConfidence result
       = Spec.roundedMean (confidence <$> candidates result).
Proof.
  destruct (Route.searchResumes Samples.noCriteria Samples.noAnalysis Samples.noJson
              Samples.fixedNumber Samples.threeRetrieved
              (js "react developer") 5%float true [0; 1; 2]%nat)
    as [[result|e]|] eqn:E; [|vm_compute in E; discriminate..].
  exists result. split; [reflexivity|].
  exact (proj1 (averageConfidence_is_rounded_mean Samples.noCriteria Samples.noAnalysis
                  Samples.noJson Samples.fixedNumber Samples.threeRetrieved
                  (js "react developer") 5%float true [0; 1; 2]%nat result E)).
Defined.

(** Confidences 0, 0 and 28 average to 9 (28/3 rounded); no candidate
    averages to 0. *)
Example three_candidates_average :
  averageConfidence
    <$> (Route.searchResumes Samples.noCriteria Samples.noAnalysis Samples.noJson
           Samples.fixedNumber Samples.threeRetrieved
           (js "react developer") 5%float true [0; 1; 2]%nat
         ≫= (fun o => match o with Returned r => Some r | Thrown _ => None end))
  = Some 9%float
  /\ avgConfidence [] = 0%float.
Proof. split; vm_compute; reflexivity. Qed.

(** ** Ingestion and the stored summary *)

Import ResumeActions.

Lemma resumeFields_no_summary (parsedData : Resume) :
  (list_to_map (resumeFields parsedData) : Metadata) !! "summary" = None.
Proof.
  apply not_elem_of_list_to_map_1. unfold resumeFields.
  destruct (softSkills parsedData), (skills parsedData); cbn;
    intros H;
    repeat (apply elem_of_cons in H as [H|H]; [discriminate|]);
    by apply elem_of_nil in H.
Qed.

Lemma combineCmetadata_summary (parsedData : Resume) (cmetadata : option Metadata)
    (uploadedAt : jstring) :
  combineCmetadata parsedData cmetadata uploadedAt !! "summary"
  = Some (Spec.storedSummary parsedData cmetadata).
Proof.
  unfold combineCmetadata, Spec.storedSummary.
  rewrite lookup_insert_ne by done.
  assert (Hai : (list_to_map (resumeFields parsedData)
                 ∪ <["summary" := JStr (summaryOf parsedData)]>
                     (<["title" := match experiences parsedData with
                                   | e :: _ => JStr (title e)
                                   | [] => JUndefined
                                   end]>
                     (<["name" := JStr (name (personalInformation parsedData))]> ∅))
                 : Metadata) !! "summary"
                = Some (JStr (summaryOf parsedData))).
  { rewrite lookup_union_r by apply resumeFields_no_summary.
    apply lookup_insert_eq. }
  destruct cmetadata as [m|]; simpl.
  - destruct (m !! "summary") as [v|] eqn:Em.
    + by apply lookup_union_Some_l.
    + by rewrite lookup_union_r.
  - by rewrite lookup_union_r by apply lookup_empty.
Qed.

Section ActionsProperties.

Variable Store : Type.
Variable addDocuments : list Document -> list jstring -> Store -> outcome () * Store.
Variable parseResume : jstring -> option Resume.
Variable JSON_stringify : JsValue -> jstring.
Variable Number_toString : float -> jstring.
Variable uuidv4 : nat -> jstring.

Local Abbreviation addResume :=
  (ResumeActions.addResume Store addDocuments parseResume JSON_stringify uuidv4).
Local Abbreviation addResumeBody :=
  (ResumeActions.addResumeBody Store addDocuments parseResume JSON_stringify uuidv4).
Local Abbreviation toResumeData := (ResumeActions.toResumeData Number_toString).

(** C9, as amended.  For every content that is empty or whitespace-only,
    or that becomes empty after the control characters are removed,
    [addResume] fails before any store write occurs: the world is left as
    it was, with no call of [addVectors] and no change of the embedding
    store.  The error its caller receives is the generic
    [Failed to add resume], not a validation error: the error of the
    check ([Resume content cannot be empty] or
    [Resume content is empty after cleaning]) is thrown inside the [try]
    block and replaced by the [catch]. *)
Theorem addResume_rejects_blank (amb : Ambient) (content : jstring)
    (cmetadata : option Metadata) (w : World Store) :
  trim content = [] \/ cleanControl content = [] ->
  addResume amb content cmetadata w = (Thrown (js "Failed to add resume"), w)
  /\ addVectorsCalls Store (addResume amb content cmetadata w).2
     = addVectorsCalls Store w
  /\ vectorStore Store (addResume amb content cmetadata w).2 = vectorStore Store w
  /\ exists reason : jstring,
       addResumeBody amb content cmetadata w = (Thrown reason, w)
       /\ (reason = js "Resume content cannot be empty"
           \/ reason = js "Resume content is empty after cleaning").
Proof.
  intros Hblank.
  cut (addResume amb content cmetadata w = (Thrown (js "Failed to add resume"), w)
       /\ exists reason : jstring,
            addResumeBody amb content cmetadata w = (Thrown reason, w)
            /\ (reason = js "Resume content cannot be empty"
                \/ reason = js "Resume content is empty after cleaning")).
  { intros [Hadd Hbody]. split; [exact Hadd|]. rewrite Hadd. by repeat split. }
  assert (Hbody : exists reason : jstring,
             addResumeBody amb content cmetadata w = (Thrown reason, w)
             /\ (reason = js "Resume content cannot be empty"
                 \/ reason = js "Resume content is empty after cleaning")).
  { unfold ResumeActions.addResumeBody.
    destruct (truthy (trim content)) eqn:Et; simpl.
    - destruct Hblank as [Hb|Hb]; [by rewrite Hb in Et|].
      rewrite Hb. simpl. eauto.
    - eauto. }
  split; [|exact Hbody].
  destruct Hbody as (reason & Hbody & _).
  unfold ResumeActions.addResume. by rewrite Hbody.
Qed.

(** C2, as amended.  For every record produced by [addResume], each
    metadata object handed to the store has a [summary]: the caller's when
    one is supplied, the generated one otherwise.  In a search hit built
    from it, the spread of the stored metadata replaces the [Score: ...]
    summary, so the orchestrator reads the raw score from the stored
    summary: when that is a string, the candidate is scored with
    [rawScore] the number after the first [Score: ] in it, and [0] when
    the string has no such match. *)
Theorem stored_summary_replaces_score (amb : Ambient) (content : jstring)
    (cmetadata : option Metadata) (w w' : World Store) (resume : ResumeData) :
  addResume amb content cmetadata w = (Returned resume, w') ->
  let parsedData :=
    parseOrFallback parseResume (extractResumeContent (cleanControl content)) in
  let stored := Spec.storedSummary parsedData cmetadata in
  exists (chunks : list jstring) (metas : list Metadata),
    addVectorsCalls Store w' = addVectorsCalls Store w ++ [(chunks, metas)]
    /\ length metas = length chunks
    /\ forall m : Metadata, m ∈ metas ->
         m !! "summary" = Some stored
         /\ forall (freshId pageContent : jstring) (score : float),
              let hit := toResumeData freshId
                           ({| pageContent := pageContent; metadata := m |}, score) in
              Data.cmetadata hit !! "summary" = Some stored
              /\ forall s : jstring, stored = JStr s ->
                   forall generateAnalysis JSON_parse criteria query,
                   exists c : ScoredCandidate,
                     scoreCandidate generateAnalysis JSON_parse criteria query hit
                     = Returned c
                     /\ rawScore c = rawScoreOf (Some s)
                     /\ (matchScore s = None -> rawScore c = PrimFloat.zero).
Proof.
  intros Hadd parsedData stored.
  unfold ResumeActions.addResume in Hadd.
  destruct (addResumeBody amb content cmetadata w) as [[r|e] w1] eqn:Hbody;
    [|discriminate].
  injection Hadd as -> ->.
  unfold ResumeActions.addResumeBody in Hbody.
  destruct (negb (truthy (trim content))); [discriminate|].
  destruct (negb (truthy (cleanControl content))); [discriminate|].
  fold parsedData in Hbody.
  set (combined := combineCmetadata parsedData cmetadata (nowISOString amb)) in *.
  set (chunks := chunkText (JSON_stringify _) 20000 150) in *.
  set (metas := (fun _ : jstring => <["id" := JStr (generateId amb)]> combined) <$> chunks) in *.
  unfold addVectors in Hbody.
  destruct (addDocuments _ _ (vectorStore Store w)) as [res store'].
  destruct res as [[]|e]; [|discriminate].
  injection Hbody as _ <-. cbn [addVectorsCalls].
  exists chunks, metas. split; [reflexivity|].
  split; [by unfold metas; rewrite length_fmap|].
  intros m Hm. unfold metas in Hm.
  apply list_elem_of_fmap in Hm as (chunk & -> & _).
  assert (Hsum : <["id" := JStr (generateId amb)]> combined !! "summary" = Some stored).
  { rewrite lookup_insert_ne by done. apply combineCmetadata_summary. }
  split; [exact Hsum|].
  intros freshId content0 score.
  set (hit := ResumeActions.toResumeData _ _ _).
  assert (Hhit : Data.cmetadata hit !! "summary" = Some stored).
  { unfold hit, ResumeActions.toResumeData. cbn [Data.cmetadata Data.metadata].
    by apply lookup_union_Some_l. }
  split; [exact Hhit|].
  intros s Hs generateAnalysis JSON_parse criteria query.
  unfold scoreCandidate, Route.summaryField. rewrite Hhit, Hs.
  eexists. split; [reflexivity|]. cbn [rawScore].
  split; [reflexivity|].
  intros Hnone. unfold rawScoreOf. simpl. by rewrite Hnone.
Qed.

End ActionsProperties.

(** C9, as stated, fails: the caller of [addResume] never sees a
    validation error.  For the empty string the error thrown is the
    generic one, which is neither of the two validation messages. *)
Lemma addResume_generic_error :
  (Samples.ingest [] None).1 = Thrown (js "Failed to add resume")
  /\ (Samples.ingest [] None).1 <> Thrown (js "Resume content cannot be empty")
  /\ (Samples.ingest [] None).1
     <> Thrown (js "Resume content is empty after cleaning")
  /\ ~ (forall content : jstring,
          trim content = [] ->
          (Samples.ingest content None).1
          = Thrown (js "Resume content cannot be empty")).
Proof.
  assert (E : (Samples.ingest [] None).1 = Thrown (js "Failed to add resume"))
    by reflexivity.
  split; [exact E|]. rewrite E.
  split; [discriminate|]. split; [discriminate|].
  intros Hall. specialize (Hall [] eq_refl). rewrite E in Hall. discriminate Hall.
Qed.

Lemma addResume_rejects_blank_witness :
  (trim [32%N; 9%N; 10%N] = [] \/ cleanControl [32%N; 9%N; 10%N] = [])
  /\ Samples.ingest [32%N; 9%N; 10%N] None
     = (Thrown (js "Failed to add resume"), Samples.emptyWorld).
Proof.
  assert (H : trim [32%N; 9%N; 10%N] = [] \/ cleanControl [32%N; 9%N; 10%N] = [])
    by (left; reflexivity).
  split; [exact H|].
  exact (proj1 (addResume_rejects_blank (list Document) Samples.listAddDocuments
                  Samples.noResume Samples.fixedJson Samples.fixedUuid
                  Samples.ambient [32%N; 9%N; 10%N] None Samples.emptyWorld H)).
Defined.

(** A text made of a null byte and U+FFFD only is not blank before the
    cleaning but is empty after it, and is rejected all the same. *)
Example addResume_rejects_control_only :
  trim [0%N; 65533%N] <> []
  /\ cleanControl [0%N; 65533%N] = []
  /\ Samples.ingest [0%N; 65533%N] None
     = (Thrown (js "Failed to add resume"), Samples.emptyWorld).
Proof. repeat split; vm_compute; [discriminate | reflexivity..]. Qed.

Lemma stored_summary_replaces_score_witness :
  exists (resume : ResumeData) (w' : World (list Document))
         (chunks : list jstring) (metas : list Metadata),
    Samples.ingest (js "Jane Doe, backend engineer") None = (Returned resume, w')
    /\ addVectorsCalls (list Document) w' = [(chunks, metas)]
    /\ length metas = length chunks.
Proof.
  destruct (Samples.ingest (js "Jane Doe, backend engineer") None)
    as [[resume|e] w'] eqn:E; [|vm_compute in E; discriminate].
  destruct (stored_summary_replaces_score (list Document) Samples.listAddDocuments
              Samples.noResume Samples.fixedJson Samples.fixedNumber Samples.fixedUuid
              Samples.ambient (js "Jane Doe, backend engineer") None
              Samples.emptyWorld w' resume E)
    as (chunks & metas & Hcalls & Hlen & _).
  exists resume, w', chunks, metas.
  split; [reflexivity|]. split; [exact Hcalls | exact Hlen].
Defined.

(** An ingested resume with no caller summary is found with raw score 0:
    its generated summary has no [Score: ]. *)
Example generated_summary_scores_zero :
  Samples.rawScoreOfFirstHit (Samples.ingest (js "Jane Doe, backend engineer") None).2
                             (js "backend engineer")
  = Some 0%float.
Proof. vm_compute. reflexivity. Qed.

(** C2, as stated, fails: a resume ingested with a caller-supplied summary
    that itself reads [Score: 0.9 - ...] is found with raw score 0.9, not
    0; the regex matches the stored summary. *)
Lemma caller_summary_counterexample :
  (exists resume, (Samples.ingest (js "Jane Doe, backend engineer")
                                  (Some Samples.scoreLikeSummary)).1
                  = Returned resume)
  /\ Samples.rawScoreOfFirstHit
       (Samples.ingest (js "Jane Doe, backend engineer")
                       (Some Samples.scoreLikeSummary)).2
       (js "backend engineer")
     = Some 0x1.ccccccccccccdp-1%float
  /\ PrimFloat.eqb 0x1.ccccccccccccdp-1%float 0%float = false.
Proof.
  split; [|split; vm_compute; reflexivity].
  destruct (Samples.ingest (js "Jane Doe, backend engineer")
                           (Some Samples.scoreLikeSummary)).1 as [resume|e] eqn:E;
    [by exists resume | vm_compute in E; discriminate].
Qed.

(* ===================================================================== *)
(** * Further properties of the code *)
(* ===================================================================== *)

(** ** More on the string operations *)

Lemma trimStart_suffix (s : jstring) :
  exists blanks : jstring, s = blanks ++ trimStart s.
Proof.
  induction s as [|c s [blanks IH]]; [by exists []|].
  simpl. destruct (isWhiteSpace c).
  - exists (c :: blanks). simpl. by rewrite <- IH.
  - by exists [].
Qed.

Lemma trimEnd_prefix (s : jstring) :
  exists blanks : jstring, s = trimEnd s ++ blanks.
Proof.
  unfold trimEnd. destruct (trimStart_suffix (reverse s)) as [blanks H].
  exists (reverse blanks).
  rewrite <- reverse_app, <- H. by rewrite reverse_involutive.
Qed.

Lemma trim_infix (s : jstring) :
  exists before after : jstring, s = before ++ trim s ++ after.
Proof.
  unfold trim.
  destruct (trimStart_suffix s) as [before Hb].
  destruct (trimEnd_prefix (trimStart s)) as [after Ha].
  exists before, after. by rewrite <- Ha.
Qed.

Lemma Forall_trim (P : N -> Prop) (s : jstring) : Forall P s -> Forall P (trim s).
Proof.
  intros H. destruct (trim_infix s) as (before & after & E).
  rewrite E in H. apply Forall_app in H as [_ H]. by apply Forall_app in H as [H _].
Qed.

(** A string with no whitespace at its start. *)
Lemma trimStart_head (s : jstring) :
  match trimStart s with [] => True | c :: _ => isWhiteSpace c = false end.
Proof.
  induction s as [|c s IH]; simpl; [done|].
  destruct (isWhiteSpace c) eqn:E; [exact IH | exact E].
Qed.

Lemma trimStart_fixed (s : jstring) :
  match s with [] => True | c :: _ => isWhiteSpace c = false end ->
  trimStart s = s.
Proof. destruct s as [|c s]; simpl; [done|]. by intros ->. Qed.

Lemma trimStart_idem (s : jstring) : trimStart (trimStart s) = trimStart s.
Proof. apply trimStart_fixed, trimStart_head. Qed.

Lemma trimEnd_idem (s : jstring) : trimEnd (trimEnd s) = trimEnd s.
Proof.
  unfold trimEnd. by rewrite reverse_involutive, trimStart_idem.
Qed.

Lemma trimEnd_keeps_head (s : jstring) :
  match s with [] => True | c :: _ => isWhiteSpace c = false end ->
  match trimEnd s with [] => True | c :: _ => isWhiteSpace c = false end.
Proof.
  intros H. destruct (trimEnd_prefix s) as [blanks E].
  destruct (trimEnd s) as [|c t]; [done|].
  rewrite E in H. exact H.
Qed.

Lemma trim_head (s : jstring) :
  match trim s with [] => True | c :: _ => isWhiteSpace c = false end.
Proof. apply trimEnd_keeps_head, trimStart_head. Qed.

Lemma trim_idem (s : jstring) : trim (trim s) = trim s.
Proof.
  unfold trim at 1. rewrite (trimStart_fixed (trim s)) by apply trim_head.
  unfold trim. apply trimEnd_idem.
Qed.

Lemma trimEnd_nil_iff (s : jstring) :
  trimEnd s = [] <-> Forall (fun c => isWhiteSpace c = true) s.
Proof.
  unfold trimEnd. rewrite <- (Forall_reverse _ s), <- trimStart_nil_iff.
  split; intros H.
  - apply (f_equal reverse) in H. by rewrite reverse_involutive in H.
  - by rewrite H.
Qed.

(** A string that starts with a character that is not whitespace does not
    trim to the empty string. *)
Lemma trim_nonempty (c : N) (s : jstring) :
  isWhiteSpace c = false -> trim (c :: s) <> [].
Proof.
  intros Hc H. unfold trim in H. simpl in H. rewrite Hc in H.
  apply trimEnd_nil_iff in H. apply Forall_cons in H as [H _]. congruence.
Qed.

Lemma filter_all {A} (P : A -> Prop) `{forall x, Decision (P x)} (l : list A) :
  Forall P l -> filter P l = l.
Proof.
  induction 1 as [|x l Hx _ IH]; [done|].
  by rewrite filter_cons_True, IH.
Qed.

Lemma Forall_filter_keeps {A} (P Q : A -> Prop) `{forall x, Decision (P x)}
    (l : list A) :
  Forall Q l -> Forall Q (filter P l).
Proof.
  intros HQ. apply Forall_forall. intros x Hx.
  apply list_elem_of_filter in Hx as [_ Hx].
  by eapply Forall_forall in HQ.
Qed.

Lemma Forall_filter_holds {A} (P : A -> Prop) `{forall x, Decision (P x)}
    (l : list A) :
  Forall P (filter P l).
Proof.
  apply Forall_forall. intros x Hx. by apply list_elem_of_filter in Hx as [Hx _].
Qed.

Lemma slice_infix (s : jstring) (a b : Z) :
  exists before after : jstring, s = before ++ slice s a b ++ after.
Proof.
  unfold slice. cbv zeta.
  match goal with |- context [take ?n (drop ?k s)] =>
    exists (take k s), (drop n (drop k s)) end.
  by rewrite take_drop, take_drop.
Qed.

(** ** More on the chunker *)

Lemma chunkLoop_Forall (P : jstring -> Prop) (text : jstring)
    (maxChunkSize overlap : Z) :
  (forall a b : Z, P (trim (slice text a b))) ->
  forall (fuel : nat) (st : Z * list jstring) (chunks : list jstring),
    Forall P st.2 ->
    chunkLoop fuel text maxChunkSize overlap st = Some chunks ->
    Forall P chunks.
Proof.
  intros HP. induction fuel as [|fuel IH]; intros [start acc] chunks Hst Hloop;
    cbn [chunkLoop fst snd] in Hloop; destruct (start <? len text);
    try discriminate; try (by injection Hloop as <-).
  eapply IH; [|exact Hloop]. unfold chunkStep. cbn [snd].
  destruct (truthy _); [|exact Hst].
  apply Forall_app. split; [exact Hst|]. constructor; [apply HP | constructor].
Qed.

Lemma chunkText_Forall (P : jstring -> Prop) (text : jstring)
    (maxChunkSize overlap : Z) :
  (forall a b : Z, P (trim (slice text a b))) ->
  (negb (truthy text) || (len text <=? maxChunkSize) = true -> P text) ->
  Forall P (chunkText text maxChunkSize overlap).
Proof.
  intros HP Hshort.
  pose proof (chunkText_total text maxChunkSize overlap (length text) (le_n _)) as Htot.
  unfold chunkTextFuel in Htot.
  destruct (negb (truthy text) || (len text <=? maxChunkSize)).
  - injection Htot as <-. constructor; [by apply Hshort | constructor].
  - eapply chunkLoop_Forall; [exact HP | | exact Htot]. constructor.
Qed.


(** X1.  Every chunk is a contiguous piece of the text; and when the text is
    longer than [maxChunkSize], every chunk is trimmed: it neither starts
    nor ends with whitespace. *)
Theorem chunks_are_trimmed_pieces (text : jstring) (maxChunkSize overlap : Z) :
  Forall (fun chunk => exists before after : jstring,
                          text = before ++ chunk ++ after)
         (chunkText text maxChunkSize overlap)
  /\ (maxChunkSize < len text ->
      Forall (fun chunk => trim chunk = chunk)
             (chunkText text maxChunkSize overlap)).
Proof.
  split.
  - apply chunkText_Forall.
    + intros a b.
      destruct (slice_infix text a b) as (b1 & a1 & E1).
      destruct (trim_infix (slice text a b)) as (b2 & a2 & E2).
      exists (b1 ++ b2), (a2 ++ a1).
      rewrite E1 at 1. rewrite E2 at 1. by rewrite !app_assoc.
    + intros _. exists [], []. by rewrite app_nil_r.
  - intros Hlong. apply chunkText_Forall.
    + intros a b. apply trim_idem.
    + intros Hshort. apply orb_prop in Hshort as [Hempty|Hle].
      * destruct text; [done | discriminate].
      * apply Z.leb_le in Hle. lia.
Qed.

Lemma chunks_are_trimmed_pieces_witness :
  2 < len (js " ab  cd ")
  /\ Forall (fun chunk => trim chunk = chunk) (chunkText (js " ab  cd ") 2 0).
Proof.
  assert (H : 2 < len (js " ab  cd ")) by (vm_compute; reflexivity).
  split; [exact H|].
  exact (proj2 (chunks_are_trimmed_pieces (js " ab  cd ") 2 0) H).
Defined.

Lemma chunkLoop_count (text : jstring) (maxChunkSize overlap : Z) :
  forall (fuel : nat) (st : Z * list jstring) (chunks : list jstring),
    chunkLoop fuel text maxChunkSize overlap st = Some chunks ->
    Z.of_nat (length chunks)
    <= Z.of_nat (length st.2) + Z.max 0 (len text - st.1).
Proof.
  induction fuel as [|fuel IH]; intros [start acc] chunks Hloop;
    cbn [chunkLoop fst snd] in *; destruct (start <? len text) eqn:E;
    try discriminate; try (injection Hloop as <-; lia).
  apply Z.ltb_lt in E. apply IH in Hloop.
  rewrite chunkStep_start in Hloop.
  assert (Hacc : (length (chunkStep text maxChunkSize overlap (start, acc)).2
                  <= S (length acc))%nat).
  { unfold chunkStep. cbn [snd]. destruct (truthy _); [|lia].
    rewrite length_app. simpl. lia. }
  lia.
Qed.


(** X2.  [chunkText] returns at most one chunk per character of the text
    (and exactly one chunk, the text itself, when the text is not longer
    than [maxChunkSize]). *)
Theorem chunk_count_bounded (text : jstring) (maxChunkSize overlap : Z) :
  (length (chunkText text maxChunkSize overlap) <= Nat.max 1 (length text))%nat
  /\ (len text <= maxChunkSize -> chunkText text maxChunkSize overlap = [text]).
Proof.
  pose proof (chunkText_total text maxChunkSize overlap (length text) (le_n _)) as Htot.
  unfold chunkTextFuel in Htot. split.
  - destruct (negb (truthy text) || (len text <=? maxChunkSize)).
    + injection Htot as <-. simpl. lia.
    + apply chunkLoop_count in Htot. cbn [fst snd length] in Htot.
      unfold len in Htot. lia.
  - intros Hle. apply Z.leb_le in Hle. rewrite Hle, orb_true_r in Htot.
    by injection Htot.
Qed.

Lemma chunk_count_bounded_witness :
  len (js "short text") <= 2000
  /\ chunkText (js "short text") 2000 200 = [js "short text"].
Proof.
  assert (H : len (js "short text") <= 2000) by (vm_compute; discriminate).
  split; [exact H|].
  exact (proj2 (chunk_count_bounded (js "short text") 2000 200) H).
Defined.

(** ** More on the cleaning and the section extraction *)

Lemma collapseWhitespace_chars (s : jstring) :
  forall inRun : bool,
    Forall (fun c => c = 32%N \/ isWhiteSpace c = false) (collapseWhitespace s inRun).
Proof.
  induction s as [|c s IH]; intros inRun; simpl; [constructor|].
  destruct (isWhiteSpace c) eqn:E.
  - destruct inRun; [apply IH | constructor; [by left | apply IH]].
  - constructor; [by right | apply IH].
Qed.

Lemma length_collapseWhitespace (s : jstring) :
  forall inRun : bool, (length (collapseWhitespace s inRun) <= length s)%nat.
Proof.
  induction s as [|c s IH]; intros inRun; simpl; [lia|].
  pose proof (IH true). pose proof (IH false).
  destruct (isWhiteSpace c); [destruct inRun|]; simpl; lia.
Qed.

Lemma runLength_le (c : N) (s : jstring) : (runLength c s <= length s)%nat.
Proof.
  induction s as [|c' s IH]; simpl; [lia|].
  destruct (c' =? c)%N; lia.
Qed.

Lemma collapseRepeats_Forall (P : N -> Prop) (s : jstring) :
  Forall P s -> forall skip : nat, Forall P (collapseRepeats s skip).
Proof.
  induction 1 as [|c s Hc _ IH]; intros skip; cbn [collapseRepeats];
    [constructor|].
  destruct skip; [|apply IH].
  destruct (isLineTerminator c); [constructor; [done | apply IH]|].
  destruct (10 <=? runLength c s)%nat; repeat constructor; try done; apply IH.
Qed.

Lemma length_collapseRepeats (s : jstring) :
  forall skip : nat,
    (skip <= length s -> length (collapseRepeats s skip) + skip <= length s)%nat.
Proof.
  induction s as [|c s IH]; intros skip Hskip;
    cbn [collapseRepeats length] in *; [lia|].
  destruct skip as [|k].
  - destruct (isLineTerminator c).
    + cbn [length]. specialize (IH O). lia.
    + destruct (10 <=? runLength c s)%nat eqn:E.
      * apply Nat.leb_le in E. pose proof (runLength_le c s) as Hr.
        specialize (IH (runLength c s) Hr). cbn [length]. lia.
      * cbn [length]. specialize (IH O). lia.
  - specialize (IH k). lia.
Qed.

Lemma printable_not_blank (c : N) :
  isPrintable c = true -> c = 32%N \/ isWhiteSpace c = false ->
  (32 <= c <= 126)%N.
Proof.
  intros Hp [->|Hw]; [lia|].
  unfold isWhiteSpace in Hw.
  repeat (apply orb_false_iff in Hw as [Hw _]).
  unfold isPrintable in Hp.
  assert (Hrange : (c < 9 \/ 13 < c)%N).
  { apply andb_false_iff in Hw as [Hw|Hw]; apply N.leb_gt in Hw; lia. }
  repeat (apply orb_true_iff in Hp as [Hp|Hp]).
  - apply andb_true_iff in Hp as [H1 H2].
    apply N.leb_le in H1. apply N.leb_le in H2. lia.
  - apply N.eqb_eq in Hp. lia.
  - apply N.eqb_eq in Hp. lia.
  - apply N.eqb_eq in Hp. lia.
Qed.

(** X3.  The cleaned form of a text holds printable ASCII only (codes 32 to
    126: no newline, no tab, nothing beyond ASCII), is trimmed, and is
    never longer than the text. *)
Theorem cleanPdfArtifacts_printable (content : jstring) :
  Forall (fun c => (32 <= c <= 126)%N) (cleanPdfArtifacts content)
  /\ trim (cleanPdfArtifacts content) = cleanPdfArtifacts content
  /\ (length (cleanPdfArtifacts content) <= length content)%nat.
Proof.
  unfold cleanPdfArtifacts. split; [|split].
  - apply Forall_trim, collapseRepeats_Forall.
    apply Forall_forall. intros c Hc.
    apply list_elem_of_filter in Hc as [Hp Hc].
    apply printable_not_blank; [exact Hp|].
    pose proof (collapseWhitespace_chars content false) as Hall.
    by eapply Forall_forall in Hall.
  - apply trim_idem.
  - etransitivity; [apply length_trim|].
    pose proof (length_collapseRepeats
                  (filter (fun c => isPrintable c = true)
                          (collapseWhitespace content false)) O) as H1.
    pose proof (length_filter (fun c => isPrintable c = true)
                              (collapseWhitespace content false)) as H2.
    pose proof (length_collapseWhitespace content false) as H3.
    lia.
Qed.

(** X4.  The work-experience section is a window of at most 4,000
    characters, so the [substring(0, 5000)] applied to it removes nothing:
    the experience block of the reduced content is the whole section. *)
Theorem experience_block_is_whole_section (cleanedContent : jstring) :
  len (extractExperienceSection cleanedContent) <= 4000
  /\ experiencePart cleanedContent
     = if truthy (extractExperienceSection cleanedContent)
       then [js "=== WORK EXPERIENCE ==="; extractExperienceSection cleanedContent]
       else [].
Proof.
  pose proof (len_extractExperienceSection cleanedContent) as Hlen.
  split; [exact Hlen|].
  unfold experiencePart. rewrite pushSection_take by lia.
  rewrite take_ge; [done|]. unfold len in Hlen. lia.
Qed.

(** X5.  Reducing a text twice is the same as reducing it once, and a text
    within the ceiling is returned as it is, uncleaned. *)
Theorem extractResumeContent_idempotent (content : jstring) :
  extractResumeContent (extractResumeContent content) = extractResumeContent content
  /\ (len content <= maxChars -> extractResumeContent content = content).
Proof.
  assert (Hshort : forall c, len c <= maxChars -> extractResumeContent c = c).
  { intros c Hc. unfold extractResumeContent. apply Z.leb_le in Hc. by rewrite Hc. }
  split; [|apply Hshort].
  apply Hshort, len_extractResumeContent.
Qed.

Lemma extractResumeContent_idempotent_witness :
  len (js "Jane Doe") <= maxChars
  /\ extractResumeContent (js "Jane Doe") = js "Jane Doe".
Proof.
  assert (H : len (js "Jane Doe") <= maxChars) by (vm_compute; discriminate).
  split; [exact H|].
  exact (proj2 (extractResumeContent_idempotent (js "Jane Doe")) H).
Defined.

(** ** More on ingestion *)

Lemma cleanControl_chars (content : jstring) :
  Forall (fun c => c <> 0%N /\ isControl c = false /\ c <> 65533%N)
         (cleanControl content).
Proof.
  unfold cleanControl. apply Forall_trim.
  apply Forall_forall. intros c Hc.
  apply list_elem_of_filter in Hc as [H1 Hc].
  apply list_elem_of_filter in Hc as [H2 Hc].
  apply list_elem_of_filter in Hc as [H3 _]. done.
Qed.

Lemma cleanControl_trimmed (content : jstring) :
  trim (cleanControl content) = cleanControl content.
Proof. apply trim_idem. Qed.

Lemma cleanControl_idem (content : jstring) :
  cleanControl (cleanControl content) = cleanControl content.
Proof.
  pose proof (cleanControl_chars content) as Hall.
  unfold cleanControl at 1.
  rewrite (filter_all (fun c => c <> 0%N)), (filter_all (fun c => isControl c = false)),
    (filter_all (fun c => c <> 65533%N)).
  - apply trim_idem.
  - eapply Forall_impl; [exact Hall|]. by intros c (? & ? & ?).
  - eapply Forall_impl; [exact Hall|]. by intros c (? & ? & ?).
  - eapply Forall_impl; [exact Hall|]. by intros c (? & ? & ?).
Qed.

(** X6.  The text [addResume] keeps after its cleaning holds no null byte,
    no control character (tab, line feed and carriage return apart) and no
    U+FFFD, is trimmed, and is left as it is by a second cleaning (the
    upload route and the import script clean the same way before they
    call [addResume]). *)
Theorem cleanControl_clean (content : jstring) :
  Forall (fun c => c <> 0%N /\ isControl c = false /\ c <> 65533%N)
         (cleanControl content)
  /\ trim (cleanControl content) = cleanControl content
  /\ cleanControl (cleanControl content) = cleanControl content.
Proof.
  split; [apply cleanControl_chars|].
  split; [apply cleanControl_trimmed | apply cleanControl_idem].
Qed.

(** The two views of the placeholder agree: the plain object of the
    literal has the properties of the record, in another order. *)
Lemma fallbackObject_fields :
  exists fields : list (string * JsValue),
    fallbackObject = JObj fields
    /\ fields ≡ₚ resumeFields fallbackResume
    /\ (list_to_map fields : Metadata) = list_to_map (resumeFields fallbackResume).
Proof.
  eexists. split; [reflexivity|]. split.
  - cbn. do 3 apply Permutation_skip. apply Permutation_swap.
  - apply map_eq. intros k. vm_compute list_to_map.
    reflexivity.
Qed.

Section IngestionProperties.

Variable Store : Type.
Variable addDocuments : list Document -> list jstring -> Store -> outcome () * Store.
Variable parseResume : jstring -> option Resume.
Variable JSON_stringify : JsValue -> jstring.
Variable uuidv4 : nat -> jstring.

Local Abbreviation addResume :=
  (ResumeActions.addResume Store addDocuments parseResume JSON_stringify uuidv4).
Local Abbreviation addVectors := (ResumeActions.addVectors Store addDocuments uuidv4).

Lemma addResume_nonblank (amb : Ambient) (content : jstring)
    (cmetadata : option Metadata) (w : World Store) :
  trim content <> [] -> cleanControl content <> [] ->
  let limitedContent := extractResumeContent (cleanControl content) in
  let document := JSON_stringify (parsedObject parseResume limitedContent) in
  let combined :=
    combineCmetadata (parseOrFallback parseResume limitedContent) cmetadata
                     (nowISOString amb) in
  let chunks := chunkText document 20000 150 in
  let metas := (fun _ : jstring => <["id" := JStr (generateId amb)]> combined) <$> chunks in
  addVectorsCalls Store (addResume amb content cmetadata w).2
  = addVectorsCalls Store w ++ [(chunks, metas)]
  /\ addResume amb content cmetadata w
     = match addVectors chunks metas w with
       | (Returned _, w') =>
           (Returned {| id := JStr (generateId amb);
                        document := document;
                        cmetadata := combined |}, w')
       | (Thrown _, w') => (Thrown (js "Failed to add resume"), w')
       end.
Proof.
  intros Ht Hc limitedContent document combined chunks metas.
  assert (Hadd : addResume amb content cmetadata w
                 = match addVectors chunks metas w with
                   | (Returned _, w') =>
                       (Returned {| id := JStr (generateId amb);
                                    document := document;
                                    cmetadata := combined |}, w')
                   | (Thrown _, w') => (Thrown (js "Failed to add resume"), w')
                   end).
  { unfold ResumeActions.addResume, addResumeBody.
    apply truthy_nonempty in Ht. apply truthy_nonempty in Hc.
    rewrite Ht, Hc. cbn [negb].
    fold limitedContent. fold document. fold combined. fold chunks. fold metas.
    by destruct (addVectors chunks metas w) as [[[]|e] w']. }
  split; [|exact Hadd].
  rewrite Hadd. unfold ResumeActions.addVectors.
  destruct (addDocuments _ _ (vectorStore Store w)) as [[[]|e] store']; reflexivity.
Qed.


(** X8.  The upload timestamp is always the one [addResume] takes, and the
    id in the stored metadata is always the generated one, also when the
    caller's metadata has an [uploadedAt] or an [id] of its own (the upload
    route passes an [uploadedAt]); every other property the caller
    supplies is stored as supplied, over the parsed data. *)
Theorem caller_metadata_precedence (amb : Ambient) (content : jstring)
    (extra : Metadata) (w w' : World Store) (resume : ResumeData) :
  addResume amb content (Some extra) w = (Returned resume, w') ->
  cmetadata resume !! "uploadedAt" = Some (JStr (nowISOString amb))
  /\ (forall (k : string) (v : JsValue),
        k <> "uploadedAt" -> extra !! k = Some v -> cmetadata resume !! k = Some v)
  /\ id resume = JStr (generateId amb)
  /\ exists chunks metas,
       addVectorsCalls Store w' = addVectorsCalls Store w ++ [(chunks, metas)]
       /\ Forall (fun m : Metadata =>
                    m !! "id" = Some (JStr (generateId amb))
                    /\ m !! "uploadedAt" = Some (JStr (nowISOString amb))
                    /\ forall (k : string) (v : JsValue),
                         k <> "uploadedAt" -> k <> "id" -> extra !! k = Some v ->
                         m !! k = Some v) metas.
Proof.
  intros Hadd.
  assert (Ht : trim content <> []).
  { intros E. unfold ResumeActions.addResume, addResumeBody in Hadd.
    rewrite E in Hadd. discriminate. }
  assert (Hc : cleanControl content <> []).
  { intros E. unfold ResumeActions.addResume, addResumeBody in Hadd.
    rewrite E in Hadd. by destruct (negb (truthy (trim content))). }
  destruct (addResume_nonblank amb content (Some extra) w Ht Hc)
    as (Hcalls & Hres).
  rewrite Hadd in Hcalls. cbn [snd] in Hcalls.
  rewrite Hadd in Hres.
  destruct (addVectors _ _ w) as [[[]|e] w1]; [|discriminate].
  injection Hres as -> ->.
  cbn [cmetadata id].
  assert (Hup : forall parsed,
             combineCmetadata parsed (Some extra) (nowISOString amb) !! "uploadedAt"
             = Some (JStr (nowISOString amb))).
  { intros parsed. unfold combineCmetadata. apply lookup_insert_eq. }
  assert (Hextra : forall parsed (k : string) (v : JsValue),
             k <> "uploadedAt" -> extra !! k = Some v ->
             combineCmetadata parsed (Some extra) (nowISOString amb) !! k = Some v).
  { intros parsed k v Hk Hv. unfold combineCmetadata.
    rewrite lookup_insert_ne by done. by apply lookup_union_Some_l. }
  split; [apply Hup|]. split; [apply Hextra|]. split; [reflexivity|].
  eexists _, _. split; [exact Hcalls|].
  apply Forall_fmap, Forall_true. intros chunk. cbn.
  split; [apply lookup_insert_eq|]. split.
  - rewrite lookup_insert_ne by done. apply Hup.
  - intros k v Hk Hid Hv. rewrite lookup_insert_ne by done. by apply Hextra.
Qed.

(** X9.  A failure of the language model does not fail the ingestion: for
    content that is not blank and a store that accepts the documents,
    [addResume] returns a record made from the placeholder resume.  Its
    document is the serialization of the placeholder literal, with
    [skills] before [softSkills]; its metadata names it [Unknown], with no
    title and the summary of an empty resume. *)
Theorem parse_failure_gives_placeholder (amb : Ambient) (content : jstring)
    (w : World Store) :
  trim content <> [] -> cleanControl content <> [] ->
  parseResume (extractResumeContent (cleanControl content)) = None ->
  (forall documents ids, exists store',
      addDocuments documents ids (vectorStore Store w) = (Returned (), store')) ->
  exists (resume : ResumeData) (w' : World Store),
    addResume amb content None w = (Returned resume, w')
    /\ document resume
       = JSON_stringify
           (JObj [("personalInformation",
                   JObj [("name", JStr (js "Unknown"));
                         ("position", JObj [("title", JStr (js "Unknown"));
                                            ("seniority", JStr (js "mid"))])]);
                  ("experiences", JArr []);
                  ("education", JArr []);
                  ("skills", JArr []);
                  ("softSkills", JArr [])])
    /\ cmetadata resume !! "name" = Some (JStr (js "Unknown"))
    /\ cmetadata resume !! "title" = Some JUndefined
    /\ cmetadata resume !! "summary"
       = Some (JStr (js "0 years of experience. Education: Not specified"))
    /\ cmetadata resume !! "skills" = Some (JArr [])
    /\ cmetadata resume !! "softSkills" = Some (JArr []).
Proof.
  intros Ht Hc Hparse Hstore.
  destruct (addResume_nonblank amb content None w Ht Hc) as (_ & Hres).
  unfold parseOrFallback, parsedObject in Hres. rewrite Hparse in Hres.
  unfold ResumeActions.addVectors in Hres.
  match type of Hres with context [addDocuments ?d ?i _] =>
    destruct (Hstore d i) as [store' Hs] end.
  rewrite Hs in Hres.
  eexists _, _. split; [exact Hres|]. cbn [document cmetadata].
  split; [reflexivity|].
  split; [|split; [|split; [|split]]].
  - unfold combineCmetadata. rewrite lookup_insert_ne by done.
    rewrite lookup_union_r by apply lookup_empty. reflexivity.
  - unfold combineCmetadata. rewrite lookup_insert_ne by done.
    rewrite lookup_union_r by apply lookup_empty. reflexivity.
  - rewrite combineCmetadata_summary. reflexivity.
  - unfold combineCmetadata. rewrite lookup_insert_ne by done.
    rewrite lookup_union_r by apply lookup_empty. reflexivity.
  - unfold combineCmetadata. rewrite lookup_insert_ne by done.
    rewrite lookup_union_r by apply lookup_empty. reflexivity.
Qed.

End IngestionProperties.

(** ** The ingestion properties on a sample resume *)


Lemma caller_metadata_precedence_witness :
  exists (resume : ResumeData) (w' : World (list Document)),
    Samples.ingest (js "Jane Doe, engineer") (Some MoreSamples.uploadMetadata)
    = (Returned resume, w')
    /\ cmetadata resume !! "uploadedAt" = Some (JStr (js "2025-01-01T00:00:00.000Z"))
    /\ cmetadata resume !! "fileName" = Some (JStr (js "jane-doe.pdf")).
Proof.
  destruct (Samples.ingest (js "Jane Doe, engineer") (Some MoreSamples.uploadMetadata))
    as [[resume|e] w'] eqn:E; [|vm_compute in E; discriminate].
  exists resume, w'. split; [reflexivity|].
  destruct (caller_metadata_precedence (list Document) Samples.listAddDocuments
              Samples.noResume Samples.fixedJson Samples.fixedUuid Samples.ambient
              (js "Jane Doe, engineer") MoreSamples.uploadMetadata Samples.emptyWorld
              w' resume E) as (Hup & Hkeep & _).
  split; [exact Hup|].
  apply Hkeep; [discriminate | reflexivity].
Defined.

Lemma parse_failure_gives_placeholder_witness :
  exists (resume : ResumeData) (w' : World (list Document)),
    Samples.ingest (js "Jane Doe, engineer") None = (Returned resume, w')
    /\ cmetadata resume !! "name" = Some (JStr (js "Unknown")).
Proof.
  destruct (parse_failure_gives_placeholder (list Document) Samples.listAddDocuments
              Samples.noResume Samples.fixedJson Samples.fixedUuid Samples.ambient
              (js "Jane Doe, engineer") Samples.emptyWorld)
    as (resume & w' & Hadd & _ & Hname & _).
  - vm_compute; discriminate.
  - vm_compute; discriminate.
  - reflexivity.
  - intros documents ids. eexists. reflexivity.
  - exists resume, w'. split; [exact Hadd | exact Hname].
Defined.

(** ** The pattern matcher against what a pattern matches *)

Import RegexSemantics.

Lemma isVoid_no_match (r : regex) (w : jstring) :
  Matches r w -> isVoid r = false.
Proof.
  induction 1; simpl; try done.
  - by rewrite IHMatches1, IHMatches2.
  - by rewrite IHMatches.
  - rewrite IHMatches. apply andb_false_r.
Qed.

Lemma seq_inv (a b : regex) (s : jstring) :
  Matches (Seq a b) s ->
  exists w1 w2 : jstring, s = w1 ++ w2 /\ Matches a w1 /\ Matches b w2.
Proof. intros H. inversion H; subst. eauto. Qed.

Lemma alt_inv (a b : regex) (s : jstring) :
  Matches (Alt a b) s -> Matches a s \/ Matches b s.
Proof. intros H. inversion H; subst; auto. Qed.

Lemma nullable_matches (r : regex) : nullable r = true <-> Matches r [].
Proof.
  split.
  - induction r; simpl; try discriminate; intros H.
    + constructor.
    + apply andb_prop in H as [H1 H2].
      change (@nil N) with (@nil N ++ []). constructor; auto.
    + apply orb_prop in H as [H|H]; [apply MatchAltL | apply MatchAltR]; auto.
    + constructor.
  - intros H. remember (@nil N) as w eqn:Hw.
    induction H; simpl; subst; try done.
    + apply app_eq_nil in Hw as [-> ->]. by rewrite IHMatches1, IHMatches2.
    + by rewrite IHMatches.
    + rewrite IHMatches by done. apply orb_true_r.
Qed.

Lemma mkSeq_matches (a b : regex) (w : jstring) :
  Matches (mkSeq a b) w <-> Matches (Seq a b) w.
Proof.
  unfold mkSeq. destruct (isVoid a || isVoid b) eqn:Hv.
  - split; intros H; [inversion H|].
    apply seq_inv in H as (w1 & w2 & _ & Ha & Hb).
    apply isVoid_no_match in Ha. apply isVoid_no_match in Hb.
    rewrite Ha, Hb in Hv. discriminate.
  - destruct a; try done. split; intros H.
    + change w with ([] ++ w). constructor; [constructor | done].
    + apply seq_inv in H as (w1 & w2 & -> & Ha & Hb).
      inversion Ha; subst. done.
Qed.

Lemma mkAlt_matches (a b : regex) (w : jstring) :
  Matches (mkAlt a b) w <-> Matches (Alt a b) w.
Proof.
  unfold mkAlt. destruct (isVoid a) eqn:Ha.
  - split; intros H; [by apply MatchAltR|].
    apply alt_inv in H as [H|H]; [|done].
    apply isVoid_no_match in H. congruence.
  - destruct (isVoid b) eqn:Hb; [|done].
    split; intros H; [by apply MatchAltL|].
    apply alt_inv in H as [H|H]; [done|].
    apply isVoid_no_match in H. congruence.
Qed.

Lemma star_unfold (a : regex) (c : N) (w : jstring) :
  Matches (Star a) (c :: w) ->
  exists w1 w2 : jstring, w = w1 ++ w2 /\ Matches a (c :: w1) /\ Matches (Star a) w2.
Proof.
  intros H. remember (Star a) as r eqn:Hr. remember (c :: w) as s eqn:Hs.
  revert w Hs. induction H; intros w' Hs; try discriminate.
  injection Hr as ->.
  destruct w1 as [|c1 w1].
  - simpl in Hs. by apply IHMatches2.
  - injection Hs as -> <-. by exists w1, w2.
Qed.

Lemma deriv_matches (r : regex) :
  forall (c : N) (w : jstring), Matches (deriv c r) w <-> Matches r (c :: w).
Proof.
  induction r as [| |p|a IHa b IHb|a IHa b IHb|a IHa]; intros c w; simpl.
  - split; intros H; inversion H.
  - split; intros H; inversion H.
  - destruct (p c) eqn:Hp; split; intros H; inversion H; subst.
    + by constructor.
    + constructor.
    + congruence.
  - rewrite mkAlt_matches. split.
    + intros H. apply alt_inv in H as [H|H].
      * apply mkSeq_matches, seq_inv in H as (w1 & w2 & -> & Ha & Hb).
        apply IHa in Ha. change (c :: w1 ++ w2) with ((c :: w1) ++ w2).
        by constructor.
      * destruct (nullable a) eqn:Hn; [|inversion H].
        apply IHb in H. apply nullable_matches in Hn.
        change (c :: w) with ([] ++ c :: w). by constructor.
    + intros H. apply seq_inv in H as (w1 & w2 & Heq & Ha & Hb).
      destruct w1 as [|c1 w1].
      * simpl in Heq. subst w2. apply MatchAltR.
        apply nullable_matches in Ha. rewrite Ha. by apply IHb.
      * injection Heq as -> ->. apply MatchAltL, mkSeq_matches.
        constructor; [by apply IHa | done].
  - rewrite mkAlt_matches. split; intros H; apply alt_inv in H as [H|H].
    + apply MatchAltL. by apply IHa.
    + apply MatchAltR. by apply IHb.
    + apply MatchAltL. by apply IHa.
    + apply MatchAltR. by apply IHb.
  - rewrite mkSeq_matches. split.
    + intros H. apply seq_inv in H as (w1 & w2 & -> & Ha & Hs).
      apply IHa in Ha. change (c :: w1 ++ w2) with ((c :: w1) ++ w2).
      by constructor.
    + intros H. apply star_unfold in H as (w1 & w2 & -> & Ha & Hs).
      constructor; [by apply IHa | done].
Qed.

(** [matchesPrefix] decides whether some prefix of the string matches. *)
Lemma matchesPrefix_spec (s : jstring) :
  forall r : regex,
    matchesPrefix r s = true
    <-> exists w rest : jstring, s = w ++ rest /\ Matches r w.
Proof.
  induction s as [|c s IH]; intros r; simpl.
  - rewrite orb_false_r, nullable_matches. split.
    + intros H. by exists [], [].
    + intros (w & rest & Hs & H). symmetry in Hs.
      apply app_eq_nil in Hs as [-> _]. done.
  - split.
    + intros H. apply orb_prop in H as [H|H].
      * apply nullable_matches in H. by exists [], (c :: s).
      * destruct (isVoid (deriv c r)); [discriminate|].
        apply IH in H as (w & rest & -> & H).
        apply deriv_matches in H. by exists (c :: w), rest.
    + intros (w & rest & Hs & H). destruct w as [|c' w].
      * apply nullable_matches in H. by rewrite H.
      * injection Hs as <- ->. apply deriv_matches in H.
        rewrite (isVoid_no_match _ _ H).
        apply orb_true_iff. right. apply IH. by exists w, rest.
Qed.

Lemma search_at_start (r : regex) (w rest : jstring) :
  Matches r w -> search r (w ++ rest) = 0.
Proof.
  intros H. unfold search.
  assert (Hm : matchesPrefix r (w ++ rest) = true)
    by (apply matchesPrefix_spec; by exists w, rest).
  destruct (w ++ rest); simpl in *; by rewrite Hm.
Qed.

(** Where [search] finds the pattern, some prefix of the rest of the string
    matches it. *)
Lemma searchFrom_found (r : regex) (s : jstring) :
  forall i : Z,
    searchFrom r s i <> -1 -> 0 <= i ->
    exists w rest : jstring,
      drop (Z.to_nat (searchFrom r s i - i)) s = w ++ rest /\ Matches r w.
Proof.
  induction s as [|c s IH]; intros i Hfound Hi; cbn [searchFrom] in *.
  - destruct (matchesPrefix r []) eqn:E; [|done].
    rewrite Z.sub_diag. by apply matchesPrefix_spec.
  - destruct (matchesPrefix r (c :: s)) eqn:E.
    + rewrite Z.sub_diag. by apply matchesPrefix_spec.
    + destruct (IH (i + 1) Hfound ltac:(lia)) as (w & rest & Hd & Hw).
      exists w, rest. split; [|done].
      destruct (searchFrom_range r s (i + 1)) as [Hr|Hr]; [done|].
      replace (Z.to_nat (searchFrom r s (i + 1) - i))
        with (S (Z.to_nat (searchFrom r s (i + 1) - (i + 1)))) by lia.
      exact Hd.
Qed.

Lemma search_found (r : regex) (s : jstring) :
  search r s <> -1 ->
  exists w rest : jstring,
    drop (Z.to_nat (search r s)) s = w ++ rest /\ Matches r w.
Proof.
  intros H. destruct (searchFrom_found r s 0 H ltac:(lia)) as (w & rest & Hd & Hw).
  rewrite Z.sub_0_r in Hd. by exists w, rest.
Qed.

Lemma searchFrom_none (r : regex) (s : jstring) :
  forall i : Z,
    searchFrom r s i = -1 -> 0 <= i ->
    forall k : nat, matchesPrefix r (drop k s) = false.
Proof.
  induction s as [|c s IH]; intros i Hnone Hi k; cbn [searchFrom] in *.
  - rewrite drop_nil. destruct (matchesPrefix r []); [lia | done].
  - destruct (matchesPrefix r (c :: s)) eqn:E; [lia|].
    destruct k as [|k]; [done|]. simpl. eapply IH; [exact Hnone | lia].
Qed.

Lemma whitespace_listed (c : N) :
  isWhiteSpace c = true -> c ∈ whitespaceCodes.
Proof.
  unfold isWhiteSpace. intros H.
  assert (Hc : (9 <= c <= 13 \/ c = 32 \/ c = 160 \/ c = 5760 \/ 8192 <= c <= 8202
                \/ c = 8232 \/ c = 8233 \/ c = 8239 \/ c = 8287 \/ c = 12288
                \/ c = 65279)%N).
  { repeat (apply orb_prop in H as [H|H]);
      try (apply andb_prop in H as [H1 H2]; apply N.leb_le in H1; apply N.leb_le in H2);
      try apply N.eqb_eq in H; lia. }
  unfold whitespaceCodes.
  assert (Hlist : (c = 9 \/ c = 10 \/ c = 11 \/ c = 12 \/ c = 13 \/ c = 32 \/ c = 160
                   \/ c = 5760 \/ c = 8192 \/ c = 8193 \/ c = 8194 \/ c = 8195
                   \/ c = 8196 \/ c = 8197 \/ c = 8198 \/ c = 8199 \/ c = 8200
                   \/ c = 8201 \/ c = 8202 \/ c = 8232 \/ c = 8233 \/ c = 8239
                   \/ c = 8287 \/ c = 12288 \/ c = 65279)%N) by lia.
  apply list_elem_of_In.
  repeat (destruct Hlist as [->|Hlist]; [cbn; tauto|]). subst. cbn. tauto.
Qed.

Lemma firstsVisible_sound (r : regex) (s : jstring) :
  Matches r s -> firstsVisible r = true ->
  forall (c : N) (w : jstring), s = c :: w -> isWhiteSpace c = false.
Proof.
  induction 1 as [|p c0 Hp|a b w1 w2 Ha IHa Hb IHb|a b w0 Ha IHa|a b w0 Hb IHb
                  |a|a w1 w2 Ha IHa Hs IHs]; cbn [firstsVisible];
    intros Hv c w Hs'; cbn [app] in Hs'.
  - discriminate.
  - injection Hs' as <- <-.
    destruct (isWhiteSpace c0) eqn:Hw; [|done].
    apply whitespace_listed in Hw.
    rewrite forallb_forall in Hv.
    apply list_elem_of_In, Hv in Hw. rewrite Hp in Hw. discriminate.
  - apply andb_prop in Hv as [Hva Hvb]. destruct w1 as [|c1 w1].
    + apply nullable_matches in Ha. rewrite Ha in Hvb. by eapply IHb.
    + injection Hs' as -> _. by eapply IHa.
  - apply andb_prop in Hv as [Hva _]. by eapply IHa.
  - apply andb_prop in Hv as [_ Hvb]. by eapply IHb.
  - discriminate.
  - destruct w1 as [|c1 w1].
    + by eapply IHs.
    + injection Hs' as -> _. by eapply IHa.
Qed.

(** ** Which sections the reduced content has *)

Lemma substring_window (s : jstring) (a b : Z) :
  0 <= a <= b -> b <= len s ->
  substring s a b = take (Z.to_nat (b - a)) (drop (Z.to_nat a) s).
Proof.
  intros Ha Hb. unfold substring.
  replace (Z.min (Z.max a 0) (len s)) with a by lia.
  replace (Z.min (Z.max b 0) (len s)) with b by lia.
  by replace (Z.min a b) with a by lia; replace (Z.max a b) with b by lia.
Qed.

Lemma extractSection_at_visible (content : jstring) (start maxLength : Z)
    (c : N) (rest : jstring) :
  0 <= start -> 0 < maxLength ->
  drop (Z.to_nat start) content = c :: rest ->
  isWhiteSpace c = false ->
  extractSection content start maxLength <> [].
Proof.
  intros Hs Hm Hdrop Hc. unfold extractSection.
  assert (Hlen : start < len content).
  { apply (f_equal length) in Hdrop. rewrite length_drop in Hdrop.
    simpl in Hdrop. unfold len. lia. }
  rewrite substring_window by lia. rewrite Hdrop.
  destruct (Z.to_nat (Z.min (start + maxLength) (len content) - start)) as [|n] eqn:En;
    [lia|].
  simpl. by apply trim_nonempty.
Qed.

Lemma sectionByPatterns_none (patterns : list regex) (content : jstring)
    (maxLength : Z) :
  sectionByPatterns patterns content maxLength = None
  <-> Forall (fun p => search p content = -1) patterns.
Proof.
  induction patterns as [|p ps IH]; simpl; [by split; [constructor|]|].
  destruct (search p content =? -1) eqn:E; simpl.
  - apply Z.eqb_eq in E. rewrite IH. split.
    + by constructor.
    + by intros [_ H]%Forall_cons.
  - apply Z.eqb_neq in E. split; [discriminate|].
    by intros [H _]%Forall_cons.
Qed.

Lemma sectionByPatterns_visible (patterns : list regex) (content section : jstring)
    (maxLength : Z) :
  Forall (fun p => firstsVisible p = true /\ nullable p = false) patterns ->
  0 < maxLength ->
  sectionByPatterns patterns content maxLength = Some section ->
  section <> [].
Proof.
  intros Hps Hm. induction Hps as [|p ps [Hv Hn] _ IH]; simpl; [discriminate|].
  destruct (search p content =? -1) eqn:E; simpl; [exact IH|].
  apply Z.eqb_neq in E. intros [= <-].
  destruct (search_found p content E) as (w & rest & Hdrop & Hw).
  destruct w as [|c w].
  - apply nullable_matches in Hw. congruence.
  - eapply extractSection_at_visible; [by apply search_found_nonneg | done | exact Hdrop |].
    by eapply firstsVisible_sound.
Qed.

Lemma educationPatterns_visible :
  Forall (fun p => firstsVisible p = true /\ nullable p = false) educationPatterns.
Proof. repeat constructor; vm_compute; reflexivity. Qed.

Lemma skillsPatterns_visible :
  Forall (fun p => firstsVisible p = true /\ nullable p = false) skillsPatterns.
Proof. repeat constructor; vm_compute; reflexivity. Qed.

(** X10.  The reduced content has an education block exactly when one of
    the education patterns occurs in the cleaned text, and a skills block
    exactly when one of the skills patterns does; without an occurrence
    the block, header included, is left out. *)
Theorem section_blocks_follow_patterns (cleanedContent : jstring) :
  (educationPart cleanedContent = []
   <-> Forall (fun p => search p cleanedContent = -1) educationPatterns)
  /\ (skillsPart cleanedContent = []
      <-> Forall (fun p => search p cleanedContent = -1) skillsPatterns).
Proof.
  split.
  - unfold educationPart, extractEducationSection, pushSection.
    rewrite <- (sectionByPatterns_none _ _ 3000).
    destruct (sectionByPatterns educationPatterns cleanedContent 3000) as [sec|] eqn:E;
      [|done].
    apply (sectionByPatterns_visible _ _ _ _ educationPatterns_visible) in E; [|lia].
    apply truthy_nonempty in E. rewrite E. done.
  - unfold skillsPart, extractSkillsSection, pushSection.
    rewrite <- (sectionByPatterns_none _ _ 3000).
    destruct (sectionByPatterns skillsPatterns cleanedContent 3000) as [sec|] eqn:E;
      [|done].
    apply (sectionByPatterns_visible _ _ _ _ skillsPatterns_visible) in E; [|lia].
    apply truthy_nonempty in E. rewrite E. done.
Qed.

(** ** More on the semantic search *)

Lemma Forall2_imap_same {A B} (R : B -> A -> Prop) (l : list A) :
  forall f : nat -> A -> B,
    (forall i x, x ∈ l -> R (f i x) x) -> Forall2 R (imap f l) l.
Proof.
  induction l as [|x l IH]; intros f Hf; simpl; constructor.
  - apply Hf. by left.
  - apply IH. intros i y Hy. apply Hf. by right.
Qed.

Section SearchProperties.

Variable Store : Type.
Variable similaritySearchWithScore :
  jstring -> float -> Store -> outcome (list (Document * float)).
Variable getResumes : Store -> outcome (list ResumeData).
Variable Number_toString : float -> jstring.

Local Abbreviation semanticSearchResumes :=
  (ResumeActions.semanticSearchResumes Store similaritySearchWithScore getResumes
                                       Number_toString).
Local Abbreviation toResumeData := (ResumeActions.toResumeData Number_toString).

(** X11.  For a query that is not blank, the records [semanticSearchResumes]
    returns are the store's hits of similarity above [0.1], in the store's
    order: each record has the page content of its hit as document and
    every property of the hit's metadata, as stored; and when the vector
    search fails, the error thrown is [Failed to perform semantic search].
    For a blank query no vector search is made and the call settles as
    [getResumes] does: with its listing, or with its own error, which the
    [catch] does not replace. *)
Theorem semanticSearch_keeps_good_hits (amb : Ambient) (query : jstring)
    (limit : float) (w : World Store) :
  (trim query <> [] ->
   match similaritySearchWithScore query limit (vectorStore Store w) with
   | Returned hits =>
       exists results : list ResumeData,
         semanticSearchResumes amb query limit w = Returned results
         /\ (length results <= length hits)%nat
         /\ Forall2 (fun (r : ResumeData) (hit : Document * float) =>
                       document r = pageContent hit.1
                       /\ PrimFloat.ltb SCORE_THRESHOLD hit.2 = true
                       /\ forall (k : string) (v : JsValue),
                            metadata hit.1 !! k = Some v -> cmetadata r !! k = Some v)
                    results
                    (filter (fun hit => PrimFloat.ltb SCORE_THRESHOLD hit.2 = true) hits)
   | Thrown _ =>
       semanticSearchResumes amb query limit w
       = Thrown (js "Failed to perform semantic search")
   end)
  /\ (trim query = [] ->
      semanticSearchResumes amb query limit w = getResumes (vectorStore Store w)).
Proof.
  split.
  - intros Hq. unfold ResumeActions.semanticSearchResumes.
    apply truthy_nonempty in Hq. rewrite Hq. cbn [negb].
    unfold searchVectorsWithScore.
    destruct (similaritySearchWithScore query limit (vectorStore Store w))
      as [hits|e]; [|reflexivity].
    eexists. split; [reflexivity|]. split.
    + rewrite length_imap. apply length_filter.
    + apply Forall2_imap_same. intros i [doc score] Hin.
      apply list_elem_of_filter in Hin as [Hscore _].
      cbn [fst snd ResumeActions.toResumeData document cmetadata].
      split; [done|]. split; [done|].
      intros k v Hk. by apply lookup_union_Some_l.
  - intros Hq. unfold ResumeActions.semanticSearchResumes. by rewrite Hq.
Qed.

End SearchProperties.

(** ** The search properties on a sample store *)

Lemma semanticSearch_keeps_good_hits_witness :
  trim (js "engineer") <> []
  /\ exists results : list ResumeData,
       semanticSearchResumes (list Document) Samples.listSearch Samples.listResumes
         Samples.fixedNumber Samples.ambient (js "engineer") 5 MoreSamples.oneChunkWorld
       = Returned results
       /\ (length results <= 1)%nat.
Proof.
  assert (Hq : trim (js "engineer") <> []) by (vm_compute; discriminate).
  split; [exact Hq|].
  destruct (semanticSearch_keeps_good_hits (list Document) Samples.listSearch
              Samples.listResumes Samples.fixedNumber Samples.ambient (js "engineer")
              5 MoreSamples.oneChunkWorld) as (Hgood & _).
  specialize (Hgood Hq). cbn [Samples.listSearch] in Hgood.
  destruct Hgood as (results & Hres & Hlen & _).
  exists results. split; [exact Hres | exact Hlen].
Defined.

Lemma section_blocks_follow_patterns_witness :
  educationPart (js "Jane Doe, engineer") = []
  /\ skillsPart (js "Jane Doe, engineer") = [].
Proof.
  destruct (section_blocks_follow_patterns (js "Jane Doe, engineer"))
    as [[_ Heducation] [_ Hskills]].
  split.
  - apply Heducation. repeat (constructor; [vm_compute; reflexivity|]). constructor.
  - apply Hskills. repeat (constructor; [vm_compute; reflexivity|]). constructor.
Defined.

(** ** The score written into a summary, and read back *)

Lemma above_threshold_positive (score : float) :
  PrimFloat.ltb SCORE_THRESHOLD score = true ->
  Prim2SF score = S754_infinity false
  \/ exists (m : positive) (e : Z), Prim2SF score = S754_finite false m e.
Proof.
  intros H. rewrite ltb_spec in H.
  let v := eval vm_compute in (Prim2SF SCORE_THRESHOLD) in
  change (Prim2SF SCORE_THRESHOLD) with v in H.
  destruct (Prim2SF score) as [s|s| |s m e]; try destruct s;
    try discriminate; eauto.
Qed.

Lemma digit_code (n : Z) : 0 <= n -> isDigit (Z.to_N (48 + n mod 10)) = true.
Proof.
  intros Hn. pose proof (Z.mod_pos_bound n 10 ltac:(lia)) as Hm.
  unfold isDigit. apply andb_true_iff. split; apply N.leb_le; lia.
Qed.

Lemma digitsFuel_digits (fuel : nat) :
  forall (n : Z) (acc : jstring),
    0 <= n -> Forall (fun c => isDigit c = true) acc ->
    Forall (fun c => isDigit c = true) (digitsFuel fuel n acc).
Proof.
  induction fuel as [|fuel IH]; intros n acc Hn Hacc; simpl; [done|].
  assert (Hacc' : Forall (fun c => isDigit c = true) (Z.to_N (48 + n mod 10) :: acc))
    by (constructor; [by apply digit_code | done]).
  destruct (n <? 10); [done|].
  apply IH; [|done]. apply Z.div_pos; lia.
Qed.

Lemma digitsFuel_nonempty (fuel : nat) (n : Z) (acc : jstring) :
  digitsFuel (S fuel) n acc <> [].
Proof.
  revert n acc. induction fuel as [|fuel IH]; intros n acc.
  - simpl. by destruct (n <? 10).
  - change (digitsFuel (S (S fuel)) n acc)
      with (if n <? 10 then Z.to_N (48 + n mod 10) :: acc
            else digitsFuel (S fuel) (n / 10) (Z.to_N (48 + n mod 10) :: acc)).
    destruct (n <? 10); [done | apply IH].
Qed.

Lemma fixedDigits_chars (n : Z) (f : nat) :
  0 <= n ->
  Forall (fun c => isDigitOrDot c = true) (fixedDigits n f)
  /\ fixedDigits n f <> [].
Proof.
  intros Hn. unfold fixedDigits.
  set (ds := replicate _ 48%N ++ decimal n).
  assert (Hds : Forall (fun c => isDigit c = true) ds).
  { apply Forall_app. split.
    - by apply Forall_replicate.
    - unfold decimal. apply digitsFuel_digits; [done | constructor]. }
  assert (Hne : ds <> []).
  { unfold ds, decimal. intros E. apply app_eq_nil in E as [_ E].
    by apply digitsFuel_nonempty in E. }
  assert (Hdd : Forall (fun c => isDigitOrDot c = true) ds).
  { eapply Forall_impl; [exact Hds|]. intros c Hc. unfold isDigitOrDot.
    by rewrite Hc. }
  destruct f as [|f]; [done|]. split.
  - apply Forall_app. split; [by apply Forall_take|].
    constructor; [done | by apply Forall_drop].
  - intros E. apply app_eq_nil in E as [_ E]. discriminate.
Qed.

Section ScoreText.

Variable Number_toString : float -> jstring.

Lemma toFixed_digits (score : float) (f : nat) :
  PrimFloat.ltb SCORE_THRESHOLD score = true ->
  PrimFloat.leb 0x1.b1ae4d6e2ef5p+69%float (PrimFloat.abs score) = false ->
  exists n : Z, 0 <= n /\ toFixed Number_toString score f = fixedDigits n f.
Proof.
  intros Hpos Hsmall. unfold toFixed.
  destruct (above_threshold_positive score Hpos) as [Hinf|(m & e & Hfin)].
  - rewrite leb_spec, abs_spec, Hinf in Hsmall. vm_compute in Hsmall. discriminate.
  - rewrite Hfin, Hsmall. cbn [app].
    eexists. split; [|reflexivity].
    assert (Hscale : 0 < 10 ^ Z.of_nat f) by (apply Z.pow_pos_nonneg; lia).
    destruct (0 <=? e) eqn:He.
    + apply Z.leb_le in He.
      assert (0 < 2 ^ e) by (apply Z.pow_pos_nonneg; lia). nia.
    + apply Z.leb_gt in He.
      assert (0 < 2 ^ (- e)) by (apply Z.pow_pos_nonneg; lia).
      apply Z.div_pos; nia.
Qed.

End ScoreText.

Lemma Matches_lit (s : string) : Matches (lit s) (js s).
Proof.
  induction s as [|a s IH]; simpl; [constructor|].
  change (N_of_ascii a :: js s) with ([N_of_ascii a] ++ js s).
  constructor; [|done]. constructor. apply N.eqb_refl.
Qed.

Lemma Matches_star_class (p : N -> bool) (run : jstring) :
  Forall (fun c => p c = true) run -> Matches (Star (Chr p)) run.
Proof.
  induction 1 as [|c run Hc _ IH]; [constructor|].
  change (c :: run) with ([c] ++ run). constructor; [by constructor | done].
Qed.

Lemma Matches_plus_class (p : N -> bool) (run : jstring) :
  run <> [] -> Forall (fun c => p c = true) run -> Matches (plus (Chr p)) run.
Proof.
  intros Hne Hall. destruct run as [|c run]; [done|].
  apply Forall_cons in Hall as [Hc Hall].
  change (c :: run) with ([c] ++ run). unfold plus.
  constructor; [by constructor | by apply Matches_star_class].
Qed.

Lemma takeClass_run (p : N -> bool) (run : jstring) (c : N) (rest : jstring) :
  Forall (fun x => p x = true) run -> p c = false ->
  takeClass p (run ++ c :: rest) = run.
Proof.
  intros Hall Hc. induction Hall as [|x run Hx _ IH]; simpl.
  - by rewrite Hc.
  - by rewrite Hx, IH.
Qed.

(** A summary [Score: <run> - <rest>], with a run of digits and dots:
    the match captures the run, the replacement leaves the rest. *)
Lemma score_summary_read_back (run rest : jstring) :
  run <> [] -> Forall (fun c => isDigitOrDot c = true) run ->
  matchScore (js "Score: " ++ run ++ js " - " ++ rest) = Some run
  /\ stripScore (js "Score: " ++ run ++ js " - " ++ rest) = rest.
Proof.
  intros Hne Hall.
  assert (Hrun : takeClass isDigitOrDot (run ++ js " - " ++ rest) = run)
    by (by apply takeClass_run).
  split.
  - unfold matchScore.
    assert (Hs : search scorePattern (js "Score: " ++ run ++ js " - " ++ rest) = 0).
    { rewrite (app_assoc (js "Score: ")). apply search_at_start.
      unfold scorePattern. constructor; [apply Matches_lit|].
      by apply Matches_plus_class. }
    rewrite Hs. cbn [Z.eqb].
    change (Z.to_nat 0 + 7)%nat with (length (js "Score: ")).
    by rewrite drop_app_length, Hrun.
  - unfold stripScore.
    assert (Hs : search scorePrefixPattern (js "Score: " ++ run ++ js " - " ++ rest) = 0).
    { replace (js "Score: " ++ run ++ js " - " ++ rest)
        with ((js "Score: " ++ run ++ js " - ") ++ rest)
        by (by rewrite <- !app_assoc).
      apply search_at_start. unfold scorePrefixPattern.
      constructor; [apply Matches_lit|].
      constructor; [by apply Matches_plus_class | apply Matches_lit]. }
    rewrite Hs. cbn [Z.eqb].
    change (Z.to_nat 0) with O. cbn [take app].
    change (0 + 7)%nat with (length (js "Score: ")).
    rewrite drop_app_length, Hrun.
    replace (length (js "Score: ") + length run + 3)%nat
      with (length (js "Score: ") + (length run + length (js " - ")))%nat
      by (simpl; lia).
    rewrite <- drop_drop, drop_app_length.
    rewrite <- drop_drop, drop_app_length.
    apply drop_app_length.
Qed.

Section LegacyScore.

Variable generateAnalysis :
  option SearchCriteria -> JsValue -> jstring -> float -> option MatchAnalysis.
Variable JSON_parse : jstring -> option JsValue.
Variable Number_toString : float -> jstring.

Local Abbreviation scoreCandidate := (Route.scoreCandidate generateAnalysis JSON_parse).
Local Abbreviation toResumeData := (ResumeActions.toResumeData Number_toString).
Local Abbreviation toFixed := (ResumeActions.toFixed Number_toString).

(** X12.  For a search hit whose stored metadata has no [summary] (and a
    similarity above the threshold and below 1e21), the summary that
    [semanticSearchResumes] writes is read back by the chat tool: the
    candidate's raw score is the similarity as printed with three
    decimals, and the summary shown is the first 200 characters of the
    document followed by [...], without the [Score: ] prefix. *)
Theorem legacy_score_round_trip (freshId : jstring) (doc : Document)
    (score : float) (criteria : option SearchCriteria) (query : jstring) :
  metadata doc !! "summary" = None ->
  PrimFloat.ltb SCORE_THRESHOLD score = true ->
  PrimFloat.leb 0x1.b1ae4d6e2ef5p+69%float (PrimFloat.abs score) = false ->
  exists c : ScoredCandidate,
    scoreCandidate criteria query (toResumeData freshId (doc, score)) = Returned c
    /\ rawScore c = parseFloat (toFixed score 3)
    /\ candidate_summary c = substring (pageContent doc) 0 200 ++ js "...".
Proof.
  intros Hnone Hpos Hsmall.
  destruct (toFixed_digits Number_toString score 3 Hpos Hsmall) as (n & Hn & Hfixed).
  destruct (fixedDigits_chars n 3 Hn) as [Hall Hne].
  rewrite <- Hfixed in Hall, Hne.
  destruct (score_summary_read_back (toFixed score 3)
              (substring (pageContent doc) 0 200 ++ js "...") Hne Hall)
    as [Hmatch Hstrip].
  unfold Route.scoreCandidate, summaryField, ResumeActions.toResumeData.
  cbn [cmetadata document metadata pageContent].
  rewrite lookup_union_r by done. rewrite lookup_insert_eq.
  eexists. split; [reflexivity|].
  cbn [rawScore candidate_summary]. unfold rawScoreOf. cbn [mbind option_bind].
  rewrite Hmatch, Hstrip. split; [reflexivity|].
  by destruct (substring (pageContent doc) 0 200).
Qed.

End LegacyScore.

Lemma legacy_score_round_trip_witness :
  exists c : ScoredCandidate,
    scoreCandidate Samples.noAnalysis Samples.noJson None (js "engineer")
      (toResumeData Samples.fixedNumber (js "resume-1")
         (MoreSamples.storedChunk, 0x1p-1%float))
    = Returned c
    /\ rawScore c = 0x1p-1%float.
Proof.
  destruct (legacy_score_round_trip Samples.noAnalysis Samples.noJson Samples.fixedNumber
              (js "resume-1") MoreSamples.storedChunk 0x1p-1%float None (js "engineer"))
    as (c & Hc & Hraw & _).
  - reflexivity.
  - reflexivity.
  - reflexivity.
  - exists c. split; [exact Hc|]. rewrite Hraw. vm_compute. reflexivity.
Defined.

(** ** The enriched query *)

Lemma visible_pushString (value : option jstring) (render : jstring -> jstring) :
  (forall s, Chat.visibleStart (render s) = true) ->
  Forall (fun part => Chat.visibleStart part = true) (pushString value render).
Proof.
  intros Hr. unfold pushString. destruct value as [s|]; [|constructor].
  destruct (truthy s); repeat constructor. apply Hr.
Qed.

Lemma visible_pushList {A} (value : option (list A)) (render : list A -> jstring) :
  (forall l, Chat.visibleStart (render l) = true) ->
  Forall (fun part => Chat.visibleStart part = true) (pushList value render).
Proof.
  intros Hr. unfold pushList. destruct value as [[|x l]|]; repeat constructor. apply Hr.
Qed.

Lemma join_visible (sep : jstring) (parts : list jstring) :
  parts <> [] ->
  Forall (fun part => Chat.visibleStart part = true) parts ->
  trim (join sep parts) <> [].
Proof.
  destruct parts as [|p rest]; [done|]. intros _ Hall.
  apply Forall_cons in Hall as [Hp _].
  destruct p as [|c p]; [discriminate|]. cbn in Hp.
  apply negb_true_iff in Hp.
  destruct rest as [|q rest]; cbn [join app]; by apply trim_nonempty.
Qed.

Lemma pushString_nil_iff (value : option jstring) (render : jstring -> jstring) :
  pushString value render = [] <-> Spec.blankString value = true.
Proof.
  unfold pushString, Spec.blankString. destruct value as [s|]; [|done].
  by destruct (truthy s).
Qed.

Lemma pushList_nil_iff {A} (value : option (list A)) (render : list A -> jstring) :
  pushList value render = [] <-> Spec.blankList value = true.
Proof. by destruct value as [[|x l]|]. Qed.

Section QueryProperties.

Variable generateCriteria : jstring -> option SearchCriteria.
Variable Number_toString : float -> jstring.

Local Abbreviation enhancedQueryParts := (Route.enhancedQueryParts Number_toString).
Local Abbreviation searchQueryFor :=
  (Route.searchQueryFor generateCriteria Number_toString).

Lemma enhancedQueryParts_nil_iff (c : SearchCriteria) :
  enhancedQueryParts c = [] <-> Chat.unconstrained c = true.
Proof.
  unfold Chat.unconstrained, Route.enhancedQueryParts.
  rewrite !app_nil, !andb_true_iff, !pushString_nil_iff, !pushList_nil_iff.
  assert (Hs : match criteria_position c ≫= wanted_seniority with
               | Some s => [js "seniority: " ++ js (seniorityName s)]
               | None => []
               end = []
               <-> Spec.absent (criteria_position c ≫= wanted_seniority) = true).
  { by destruct (criteria_position c ≫= wanted_seniority). }
  assert (Hy : match criteria_experience c ≫= minYears with
               | Some y => if truthyNum y
                           then [js "minimum " ++ Number_toString y
                                 ++ js " years experience"]
                           else []
               | None => []
               end = []
               <-> Chat.noMinimum (criteria_experience c ≫= minYears) = true).
  { destruct (criteria_experience c ≫= minYears) as [y|]; [|done].
    cbn. by destruct (truthyNum y). }
  rewrite Hs, Hy. tauto.
Qed.

Lemma enhancedQueryParts_visible (c : SearchCriteria) :
  Forall (fun part => Chat.visibleStart part = true) (enhancedQueryParts c).
Proof.
  unfold Route.enhancedQueryParts.
  repeat apply Forall_app_2;
    try (apply visible_pushString; intros s; reflexivity);
    try (apply visible_pushList; intros l; reflexivity).
  - destruct (criteria_position c ≫= wanted_seniority); repeat constructor.
  - destruct (criteria_experience c ≫= minYears) as [y|]; [|constructor].
    destruct (truthyNum y); repeat constructor.
Qed.

(** X13.  The enriched query has no part exactly when no field of the
    criteria passes its guard, a minimum of [0] years (or [NaN]) counting
    as none; every part starts with its label.  So with parsed criteria
    the query sent to retrieval is the raw query when nothing is
    constrained and else the parts joined by [ | ], which is never blank,
    whatever the raw query is. *)
Theorem enriched_query_shape (c : SearchCriteria) (query : jstring) :
  generateCriteria query = Some c ->
  (enhancedQueryParts c = [] <-> Chat.unconstrained c = true)
  /\ Forall (fun part => Chat.visibleStart part = true) (enhancedQueryParts c)
  /\ searchQueryFor query true
     = (if Chat.unconstrained c then query
        else join (js " | ") (enhancedQueryParts c))
  /\ (Chat.unconstrained c = false -> trim (searchQueryFor query true) <> []).
Proof.
  intros Hc.
  pose proof (enhancedQueryParts_nil_iff c) as Hnil.
  pose proof (enhancedQueryParts_visible c) as Hvis.
  assert (Hq : searchQueryFor query true
               = (if Chat.unconstrained c then query
                  else join (js " | ") (enhancedQueryParts c))).
  { unfold Route.searchQueryFor, criteriaFor, parseSearchQuery. rewrite Hc. cbv zeta.
    destruct (Chat.unconstrained c) eqn:Eu.
    - destruct Hnil as [_ Hnil]. by rewrite Hnil.
    - destruct (enhancedQueryParts c) as [|p rest]; [|reflexivity].
      destruct Hnil as [Hnil _]. specialize (Hnil eq_refl). congruence. }
  split; [exact Hnil|]. split; [exact Hvis|]. split; [exact Hq|].
  intros Eu. rewrite Hq, Eu. apply join_visible; [|exact Hvis].
  intros E. apply Hnil in E. congruence.
Qed.

End QueryProperties.

Lemma enriched_query_shape_witness :
  Route.searchQueryFor MoreSamples.alwaysZeroYears Samples.fixedNumber
                       (js "anyone at all") true
  = js "anyone at all".
Proof.
  destruct (enriched_query_shape MoreSamples.alwaysZeroYears Samples.fixedNumber
              MoreSamples.zeroYears (js "anyone at all") eq_refl)
    as (_ & _ & Hq & _).
  rewrite Hq. reflexivity.
Defined.

(** ** The candidates of the search tool *)

Lemma mapped_tasks_returned {A B} (f : A -> outcome B) (l : list A) :
  Forall (fun x => exists y, f x = Returned y) l ->
  exists values : list B,
    f <$> l = Returned <$> values
    /\ Forall2 (fun y x => f x = Returned y) values l.
Proof.
  induction 1 as [|x l [y Hy] _ (values & Hv & Hall)].
  - exists []. split; [reflexivity | constructor].
  - exists (y :: values). split.
    + rewrite !fmap_cons. by rewrite Hy, Hv.
    + by constructor.
Qed.

Lemma prop_toResumeData_name (Number_toString : float -> jstring)
    (freshId : jstring) (hit : Document * float) :
  prop (cmetadata (ResumeActions.toResumeData Number_toString freshId hit)) "name"
  = prop (metadata hit.1) "name".
Proof.
  destruct hit as [doc score]. cbn [fst ResumeActions.toResumeData cmetadata].
  unfold prop. destruct (metadata doc !! "name") as [v|] eqn:E.
  - by erewrite lookup_union_Some_l.
  - rewrite lookup_union_r by done. reflexivity.
Qed.

Section CandidateProperties.

Variable generateAnalysis :
  option SearchCriteria -> JsValue -> jstring -> float -> option MatchAnalysis.
Variable JSON_parse : jstring -> option JsValue.

Local Abbreviation scoreCandidate := (Route.scoreCandidate generateAnalysis JSON_parse).

(** X14.  A scored candidate never shows an empty field: its name and its
    title are truthy values ([Unknown] and [No title] stand in for missing
    ones), its summary is not the empty string ([No summary] stands in),
    and its content has at most 503 characters.  A resume whose metadata
    holds no summary scores [0]. *)
Theorem candidate_fields_never_blank (criteria : option SearchCriteria)
    (query : jstring) (resume : ResumeData) (c : ScoredCandidate) :
  scoreCandidate criteria query resume = Returned c ->
  truthyValue (candidate_name c) = true
  /\ truthyValue (candidate_title c) = true
  /\ candidate_summary c <> []
  /\ len (content c) <= 503
  /\ (cmetadata resume !! "summary" = None ->
      rawScore c = PrimFloat.zero /\ candidate_summary c = js "No summary").
Proof.
  unfold Route.scoreCandidate.
  destruct (summaryField resume) as [summary|e] eqn:Es; [|discriminate].
  intros [= <-].
  cbn [candidate_name candidate_title candidate_summary content rawScore].
  split; [|split; [|split; [|split]]].
  - unfold orElse. by destruct (truthyValue (prop (cmetadata resume) "name")) eqn:E.
  - unfold orElse. by destruct (truthyValue (prop (cmetadata resume) "title")) eqn:E.
  - cbv zeta.
    destruct (truthy match summary with Some s => stripScore s | None => [] end) eqn:E;
      [|discriminate].
    intros E'. rewrite E' in E. discriminate.
  - unfold len. rewrite length_app.
    pose proof (length_substring_prefix (document resume) 500) as H.
    unfold len in H. cbn [length js]. change (length (js "...")) with 3%nat. lia.
  - intros Hnone. unfold summaryField in Es. rewrite Hnone in Es.
    injection Es as <-. by split.
Qed.

End CandidateProperties.

Lemma candidate_fields_never_blank_witness :
  exists c : ScoredCandidate,
    Route.scoreCandidate Samples.noAnalysis Samples.noJson None (js "engineer")
      (Samples.retrieved "r1" "5 years of experience")
    = Returned c
    /\ truthyValue (candidate_title c) = true
    /\ candidate_summary c <> [].
Proof.
  destruct (Route.scoreCandidate Samples.noAnalysis Samples.noJson None (js "engineer")
              (Samples.retrieved "r1" "5 years of experience")) as [c|e] eqn:E;
    [|vm_compute in E; discriminate].
  exists c. split; [reflexivity|].
  destruct (candidate_fields_never_blank Samples.noAnalysis Samples.noJson None
              (js "engineer") (Samples.retrieved "r1" "5 years of experience") c E)
    as (_ & Htitle & Hsummary & _).
  split; [exact Htitle | exact Hsummary].
Defined.

(** ** The search tool over the store *)

Section EndToEndProperties.

Variable Store : Type.
Variable similaritySearchWithScore :
  jstring -> float -> Store -> outcome (list (Document * float)).
Variable getResumes : Store -> outcome (list ResumeData).
Variable generateCriteria : jstring -> option SearchCriteria.
Variable generateAnalysis :
  option SearchCriteria -> JsValue -> jstring -> float -> option MatchAnalysis.
Variable JSON_parse : jstring -> option JsValue.
Variable Number_toString : float -> jstring.

Local Abbreviation searchTool :=
  (Chat.searchTool Store similaritySearchWithScore getResumes generateCriteria
                   generateAnalysis JSON_parse Number_toString).
Local Abbreviation searchQueryFor :=
  (Route.searchQueryFor generateCriteria Number_toString).

(** X15.  From the store to the answer: when the query sent to retrieval is
    not blank and the stored summaries of the hits of similarity above
    [0.1] are strings (or missing), the tool answers, once every scoring
    task has completed and in whatever order they do, with exactly one
    candidate per such hit, in the store's order; the candidate shows the
    first 500 characters of the hit's page content and the hit's stored
    name.  Hits of similarity [0.1] or less never become candidates. *)
Theorem search_tool_end_to_end (amb : Ambient) (w : World Store) (query : jstring)
    (limit : float) (useStructuredSearch : bool) (completion : list nat)
    (hits : list (Document * float)) :
  let searchQuery := searchQueryFor query useStructuredSearch in
  let good := filter (fun hit => PrimFloat.ltb SCORE_THRESHOLD hit.2 = true) hits in
  trim searchQuery <> [] ->
  similaritySearchWithScore searchQuery limit (vectorStore Store w) = Returned hits ->
  Forall (fun hit : Document * float =>
            metadata hit.1 !! "summary" = None
            \/ exists s, metadata hit.1 !! "summary" = Some (JStr s)) good ->
  completion ≡ₚ seq 0 (length good) ->
  exists result : SearchResult,
    searchTool amb w query limit useStructuredSearch completion = Some (Returned result)
    /\ totalResults result = Z.of_nat (length good)
    /\ Route.query result = searchQuery
    /\ Forall2 (fun (c : ScoredCandidate) (hit : Document * float) =>
                  content c = substring (pageContent hit.1) 0 500 ++ js "..."
                  /\ candidate_name c = orElse (prop (metadata hit.1) "name") "Unknown")
               (candidates result) good.
Proof.
  intros searchQuery good Hq Hhits Hsummaries Hperm.
  unfold Chat.searchTool, Route.searchResumes. cbv zeta. fold searchQuery.
  unfold ResumeActions.semanticSearchResumes.
  apply truthy_nonempty in Hq. rewrite Hq. cbn [negb].
  unfold searchVectorsWithScore. rewrite Hhits. fold good.
  set (resumes := imap (fun i hit => toResumeData Number_toString (langchainId amb i) hit)
                       good).
  set (task := Route.scoreCandidate generateAnalysis JSON_parse
                 (criteriaFor generateCriteria query useStructuredSearch) query).
  assert (Hrel : Forall2 (fun (r : ResumeData) (hit : Document * float) =>
                            document r = pageContent hit.1
                            /\ prop (cmetadata r) "name" = prop (metadata hit.1) "name"
                            /\ exists summary, summaryField r = Returned summary)
                         resumes good).
  { apply Forall2_imap_same. intros i hit Hin.
    split; [by destruct hit|]. split; [apply prop_toResumeData_name|].
    eapply Forall_forall in Hsummaries; [|exact Hin].
    destruct hit as [doc score]. cbn [fst] in Hsummaries.
    unfold summaryField. cbn [ResumeActions.toResumeData cmetadata].
    destruct Hsummaries as [Hnone | [s Hs]].
    - rewrite lookup_union_r by done. rewrite lookup_insert_eq. eauto.
    - erewrite lookup_union_Some_l by exact Hs. eauto. }
  destruct (mapped_tasks_returned task resumes) as (values & Htasks & Hvalues).
  { eapply Forall2_Forall_l; [exact Hrel|]. apply Forall_true.
    intros hit r (_ & _ & summary & Hs).
    unfold task, Route.scoreCandidate. rewrite Hs. eauto. }
  rewrite Htasks.
  assert (Hlen : length values = length good).
  { rewrite (Forall2_length _ _ _ Hvalues). unfold resumes. apply length_imap. }
  rewrite promiseAll_fulfilled by (by rewrite Hlen).
  eexists. split; [reflexivity|].
  cbn [totalResults Route.query candidates].
  split; [by rewrite Hlen|]. split; [reflexivity|].
  clear Htasks Hlen Hperm Hsummaries Hhits. clearbody resumes good.
  revert good Hrel.
  induction Hvalues as [|c r values resumes' Hc _ IH]; intros good Hrel.
  - inversion Hrel. constructor.
  - inversion Hrel as [|r' hit resumes'' good' (Hdoc & Hname & _) Hrest]; subst.
    constructor.
    + unfold task, Route.scoreCandidate in Hc.
      destruct (summaryField r) as [summary|e]; [|discriminate].
      injection Hc as <-. cbn [content candidate_name].
      by rewrite Hdoc, Hname.
    + apply (IH good'). exact Hrest.
Qed.

End EndToEndProperties.

Lemma search_tool_end_to_end_witness :
  exists result : SearchResult,
    Chat.searchTool (list Document) Samples.listSearch Samples.listResumes
      Samples.noCriteria Samples.noAnalysis Samples.noJson Samples.fixedNumber
      Samples.ambient MoreSamples.oneChunkWorld (js "engineer") 5 false [0%nat]
    = Some (Returned result)
    /\ totalResults result = 1.
Proof.
  pose proof (search_tool_end_to_end (list Document) Samples.listSearch
                Samples.listResumes Samples.noCriteria Samples.noAnalysis
                Samples.noJson Samples.fixedNumber Samples.ambient
                MoreSamples.oneChunkWorld (js "engineer") 5 false [0%nat]
                [(MoreSamples.storedChunk, 0x1p-1%float)]) as H.
  cbv zeta in H.
  destruct H as (result & Hres & Htotal & _).
  - vm_compute. discriminate.
  - reflexivity.
  - repeat constructor.
  - reflexivity.
  - exists result. split; [exact Hres | exact Htotal].
Defined.

(** ** The upload route *)

Lemma cleanControl_visible_head (c : N) (s : jstring) :
  c <> 0%N -> isControl c = false -> c <> 65533%N -> isWhiteSpace c = false ->
  cleanControl (c :: s) <> [].
Proof.
  intros H0 Hc Hr Hw. unfold cleanControl.
  rewrite (filter_cons_True (fun c => c <> 0%N)) by done.
  rewrite (filter_cons_True (fun c => isControl c = false)) by done.
  rewrite (filter_cons_True (fun c => c <> 65533%N)) by done.
  by apply trim_nonempty.
Qed.

Lemma placeholderText_kept (fileName : jstring) :
  trim (UploadRoute.placeholderText fileName) <> []
  /\ cleanControl (UploadRoute.placeholderText fileName) <> [].
Proof.
  unfold UploadRoute.placeholderText.
  change (js "Resume content from ") with (82%N :: js "esume content from ").
  cbn [app]. split.
  - by apply trim_nonempty.
  - by apply cleanControl_visible_head.
Qed.

Section UploadProperties.

Variable Buffer : Type.
Variable toUtf8 : Buffer -> option jstring.
Variable writeFile : jstring -> Buffer -> outcome ().
Variable pathJoin : jstring -> jstring -> jstring.
Variable resumesDir : jstring.
Variable String_other : JsValue -> jstring.
Variable Store : Type.
Variable addDocuments : list Document -> list jstring -> Store -> outcome () * Store.
Variable parseResume : jstring -> option Resume.
Variable JSON_stringify : JsValue -> jstring.
Variable uuidv4 : nat -> jstring.

Local Abbreviation POST :=
  (UploadRoute.POST Buffer toUtf8 writeFile pathJoin resumesDir String_other
                    Store addDocuments parseResume JSON_stringify uuidv4).
Local Abbreviation extractText := (UploadRoute.extractText Buffer toUtf8).
Local Abbreviation UploadedFile := (UploadRoute.UploadedFile Buffer).
Local Abbreviation Server := (UploadRoute.Server Buffer Store).
Local Abbreviation file_name := (UploadRoute.file_name Buffer).
Local Abbreviation file_type := (UploadRoute.file_type Buffer).
Local Abbreviation arrayBuffer := (UploadRoute.arrayBuffer Buffer).
Local Abbreviation world := (UploadRoute.world Buffer Store).
Local Abbreviation writtenFiles := (UploadRoute.writtenFiles Buffer Store).


(** X16.  A response of status [400] is given before anything is done: the
    vector store and the written files are as they were.  It is given for
    a form without a file, for a file whose type is not
    [application/pdf], and for a buffer whose text is empty once cleaned;
    the placeholder text of an unreadable buffer is never rejected. *)
Theorem upload_rejection_touches_nothing (amb : Ambient) (requestTime : jstring)
    (form : outcome (option UploadedFile)) (s : Server) :
  UploadRoute.status (POST amb requestTime form s).1 = 400 ->
  (POST amb requestTime form s).2 = s
  /\ (exists error : jstring,
        UploadRoute.body (POST amb requestTime form s).1
        = UploadRoute.ErrorBody error None)
  /\ (form = Returned None
      \/ exists file : UploadedFile,
           form = Returned (Some file)
           /\ (file_type file <> UploadRoute.PDF_TYPE
               \/ exists (buffer : Buffer) (rawText : jstring),
                    arrayBuffer file = Returned buffer
                    /\ toUtf8 buffer = Some rawText
                    /\ cleanControl rawText = [])).
Proof.
  unfold UploadRoute.POST.
  destruct form as [[file|]|e]; cbn [fst snd UploadRoute.status]; [| |discriminate].
  - destruct (bool_decide (file_type file = UploadRoute.PDF_TYPE)) eqn:Etype;
      cbn [negb fst snd].
    + destruct (arrayBuffer file) as [buffer|e] eqn:Ebuf; [|discriminate].
      cbv zeta.
      destruct (truthy (trim (extractText file buffer))) eqn:Etext; cbn [negb fst snd].
      * destruct (ResumeActions.addResume _ _ _ _ _ _ _ _ _) as [[resume|e] w'];
          [|discriminate].
        destruct (writeFile _ buffer); discriminate.
      * intros _. split; [reflexivity|]. split; [eauto|].
        right. exists file. split; [reflexivity|]. right.
        unfold UploadRoute.extractText in Etext.
        destruct (toUtf8 buffer) as [rawText|] eqn:Eraw.
        -- exists buffer, rawText. split; [exact Ebuf|]. split; [exact Eraw|].
           rewrite cleanControl_trimmed in Etext.
           by destruct (cleanControl rawText).
        -- destruct (placeholderText_kept (file_name file)) as [Hp _].
           apply truthy_nonempty in Hp. congruence.
    + intros _. split; [reflexivity|]. split; [eauto|].
      right. exists file. split; [reflexivity|]. left.
      by apply bool_decide_eq_false in Etype.
  - intros _. split; [reflexivity|]. split; [eauto|]. by left.
Qed.


End UploadProperties.

Lemma upload_rejection_touches_nothing_witness :
  UploadRoute.status (MoreSamples.upload (Returned (Some MoreSamples.textUpload))).1 = 400
  /\ (MoreSamples.upload (Returned (Some MoreSamples.textUpload))).2
     = MoreSamples.emptyServer.
Proof.
  assert (H400 : UploadRoute.status
                   (MoreSamples.upload (Returned (Some MoreSamples.textUpload))).1 = 400)
    by reflexivity.
  split; [exact H400|].
  destruct (upload_rejection_touches_nothing jstring MoreSamples.readable
              MoreSamples.writeAlways MoreSamples.slashJoin MoreSamples.publicResumes
              MoreSamples.printUndefined (list Document) Samples.listAddDocuments
              Samples.noResume Samples.fixedJson Samples.fixedUuid Samples.ambient
              (js "2025-01-01T00:00:00.000Z") (Returned (Some MoreSamples.textUpload))
              MoreSamples.emptyServer H400) as (Hsame & _).
  exact Hsame.
Defined.


(** ** A scoring task that throws *)

Lemma settle_keeps_rejection {A} (tasks : list (outcome A)) (completion : list nat)
    (slots : list (option A)) (e : jstring) :
  (fold_left (settle tasks) completion (slots, Some e)).2 = Some e.
Proof.
  revert slots. induction completion as [|i completion IH]; intros slots; [done|].
  cbn [fold_left]. unfold settle at 2. cbn [fst snd].
  destruct (tasks !! i) as [[a|e']|]; apply IH.
Qed.

Lemma promiseAll_rejected {A} (tasks : list (outcome A)) (completion : list nat)
    (message : jstring) (i : nat) :
  (forall (j : nat) (e : jstring), tasks !! j = Some (Thrown e) -> e = message) ->
  tasks !! i = Some (Thrown message) ->
  i ∈ completion ->
  promiseAll tasks completion = Some (Thrown message).
Proof.
  intros Hall Hi Hin. unfold promiseAll. cbv zeta.
  assert (H : forall slots,
             (fold_left (settle tasks) completion (slots, None)).2 = Some message).
  { induction completion as [|j completion IH]; intros slots.
    - by apply elem_of_nil in Hin.
    - cbn [fold_left]. unfold settle at 2. cbn [fst snd].
      destruct (tasks !! j) as [[a|e]|] eqn:Ej.
      + apply elem_of_cons in Hin as [->|Hin]; [congruence | by apply IH].
      + rewrite (Hall j e Ej). apply settle_keeps_rejection.
      + apply elem_of_cons in Hin as [->|Hin]; [congruence | by apply IH]. }
  by rewrite H.
Qed.

Section RejectionProperties.

Variable generateCriteria : jstring -> option SearchCriteria.
Variable generateAnalysis :
  option SearchCriteria -> JsValue -> jstring -> float -> option MatchAnalysis.
Variable JSON_parse : jstring -> option JsValue.
Variable Number_toString : float -> jstring.
Variable semanticSearchResumes : jstring -> float -> outcome (list ResumeData).

Local Abbreviation searchQueryFor := (Route.searchQueryFor generateCriteria Number_toString).
Local Abbreviation searchResumes :=
  (Route.searchResumes generateCriteria generateAnalysis JSON_parse
                       Number_toString semanticSearchResumes).

(** X18.  One stored summary that is neither a string nor missing fails the
    whole search: as soon as the scoring task of that resume has settled,
    the tool throws the [TypeError] of the [match] call and returns no
    candidate at all, however many other resumes were scored. *)
Theorem unreadable_summary_fails_search (query : jstring) (limit : float)
    (useStructuredSearch : bool) (completion : list nat)
    (resumes : list ResumeData) (i : nat) (resume : ResumeData) (e : jstring) :
  semanticSearchResumes (searchQueryFor query useStructuredSearch) limit
  = Returned resumes ->
  resumes !! i = Some resume ->
  summaryField resume = Thrown e ->
  i ∈ completion ->
  searchResumes query limit useStructuredSearch completion
  = Some (Thrown (js "resume.cmetadata?.summary?.match is not a function")).
Proof.
  intros Hsearch Hi He Hin. unfold Route.searchResumes. cbv zeta.
  rewrite Hsearch.
  assert (Hmsg : forall r e', summaryField r = Thrown e' ->
                   e' = js "resume.cmetadata?.summary?.match is not a function").
  { intros r e'. unfold summaryField.
    destruct (cmetadata r !! "summary") as [[]|]; congruence. }
  rewrite (promiseAll_rejected _ completion
             (js "resume.cmetadata?.summary?.match is not a function") i);
    [reflexivity | | | exact Hin].
  - intros j e' Hj. rewrite list_lookup_fmap in Hj.
    destruct (resumes !! j) as [r|]; [|discriminate]. cbn in Hj.
    unfold Route.scoreCandidate in Hj.
    destruct (summaryField r) as [summary|e''] eqn:Er; [discriminate|].
    injection Hj as <-. by eapply Hmsg.
  - rewrite list_lookup_fmap, Hi. cbn. unfold Route.scoreCandidate.
    rewrite He. by rewrite (Hmsg _ _ He).
Qed.

End RejectionProperties.

Lemma unreadable_summary_fails_search_witness :
  Route.searchResumes Samples.noCriteria Samples.noAnalysis Samples.noJson
    Samples.fixedNumber MoreSamples.oneUnreadable (js "engineer") 5 false [1%nat]
  = Some (Thrown (js "resume.cmetadata?.summary?.match is not a function")).
Proof.
  apply (unreadable_summary_fails_search Samples.noCriteria Samples.noAnalysis
           Samples.noJson Samples.fixedNumber MoreSamples.oneUnreadable
           (js "engineer") 5 false [1%nat]
           [Samples.retrieved "r1" "5 years of experience"; MoreSamples.numberedSummary]
           1%nat MoreSamples.numberedSummary
           (js "resume.cmetadata?.summary?.match is not a function")).
  - reflexivity.
  - reflexivity.
  - reflexivity.
  - by left.
Defined.
